(** * Video_compare: a shallow embedding of [main.py]

    The development follows the Python source function by function.

    - Python [int] is [Z]; Python [float] is the kernel's binary64 [float],
      so every product, quotient and comparison below is the IEEE 754
      operation CPython performs.
    - A Python exception is a constructor of [exn]; fallible expressions
      return [result].
    - The [VideoComparer] instance is a record threaded through a small
      state-and-exception monad [M]: a raised exception leaves the
      mutations made so far in place, as in Python.
    - The world outside the repository (the builtins [float(str)] and
      [int(str)], the ffmpeg subprocesses, OpenCV) enters as section
      variables.
    - Tk widgets and variables are passive attributes: a handler is an
      entry point that the toolkit calls, and a programmatic [set] on a
      widget does not re-enter the handler bound to it.  Calls handed to
      [self.after] are queued and run by [mainloop].  The playback thread
      is the function [video_playback_loop] over what each of its passes
      observes from outside.
    - A numpy array is its bytes with its [WRITEABLE] flag, and the
      arrays of one [update_frame_display] call live in a small store, so
      that a drawing call made through [combined_frame] is a call on the
      array that name is bound to.
    - Left out as pure bookkeeping: [_resize_job] and the debounce timer,
      the placeholder text of [video_label], the glyph in front of the
      play button's text, and snapshots. *)

From Stdlib Require Import ZArith Lia List String Ascii Bool.
From Stdlib Require Import Strings.Byte.
From Stdlib Require Import Floats.
Import ListNotations.
Local Open Scope Z_scope.

(* ================================================================= *)
(** * Python values *)

Inductive exn : Type :=
| ValueError
| TypeError
| ZeroDivisionError
| OverflowError
| OSError
| AttributeError
| CalledProcessError
| Cv2Error.

Inductive result (A : Type) : Type :=
| Ok (a : A)
| Raise (e : exn).

Arguments Ok {A} a.
Arguments Raise {A} e.

Definition exn_eqb (a b : exn) : bool :=
  match a, b with
  | ValueError, ValueError | TypeError, TypeError
  | ZeroDivisionError, ZeroDivisionError | OverflowError, OverflowError
  | OSError, OSError | AttributeError, AttributeError
  | CalledProcessError, CalledProcessError
  | Cv2Error, Cv2Error => true
  | _, _ => false
  end.

Definition rbind {A B} (r : result A) (k : A -> result B) : result B :=
  match r with
  | Ok a => k a
  | Raise e => Raise e
  end.

Module PyNotations.
Declare Scope py_scope.
Delimit Scope py_scope with py.
Notation "'let?' x := r 'in' k" := (rbind r (fun x => k))
  (at level 10, x name, r at level 100, k at level 200) : py_scope.
End PyNotations.
Import PyNotations.
Local Open Scope py_scope.

(** ** Numbers *)

Module Py.

(** The binary64 value nearest to an integer (ties to even); an infinity
    when the integer is out of range. *)
Definition float_of_Z (z : Z) : float :=
  SF2Prim (binary_normalize prec emax z 0 false).

(** [float(n)] for an int [n], also the implicit conversion of an int
    operand in mixed arithmetic: [OverflowError] when out of range. *)
Definition int_to_float (z : Z) : result float :=
  let f := float_of_Z z in
  if is_infinity f then Raise OverflowError else Ok f.

(** [a / b] on two ints: the correctly rounded quotient. *)
Definition int_truediv (a b : Z) : result float :=
  if b =? 0 then Raise ZeroDivisionError
  else
    let negative := xorb (a <? 0) (b <? 0) in
    let '(mz, ez, lz) := SFdiv_core_binary prec emax (Z.abs a) 0 (Z.abs b) 0 in
    let q := SF2Prim (binary_round_aux prec emax negative mz ez lz) in
    if is_infinity q then Raise OverflowError else Ok q.

(** [x / y] on two floats. *)
Definition float_truediv (x y : float) : result float :=
  if (y =? 0)%float then Raise ZeroDivisionError else Ok (x / y)%float.

(** [n / y] with an int on the left: the int is converted first. *)
Definition int_div_float (n : Z) (y : float) : result float :=
  let? x := int_to_float n in float_truediv x y.

(** [n * y] with an int on the left. *)
Definition int_mul_float (n : Z) (y : float) : result float :=
  let? x := int_to_float n in Ok (x * y)%float.

(** The integer part of a positive mantissa [m] scaled by [2^e]. *)
Definition scaled_quot (m : positive) (e : Z) : Z :=
  if 0 <=? e then Z.shiftl (Zpos m) e else Z.shiftr (Zpos m) (- e).

(** [int(x)] for a float: truncation toward zero. *)
Definition float_to_int (x : float) : result Z :=
  match Prim2SF x with
  | S754_zero _ => Ok 0
  | S754_infinity _ => Raise OverflowError
  | S754_nan => Raise ValueError
  | S754_finite s m e =>
      let a := scaled_quot m e in Ok (if s then - a else a)
  end.

(** The exact value of a finite float as a fraction [n / 2^k]. *)
Definition float_fraction (x : float) : option (Z * Z) :=
  match Prim2SF x with
  | S754_zero _ => Some (0, 0)
  | S754_finite s m e =>
      let n := if 0 <=? e then Z.shiftl (Zpos m) e else Zpos m in
      Some (if s then - n else n, if 0 <=? e then 0 else - e)
  | _ => None
  end.

(** [math.floor(x)]: the greatest integer not above [x]. *)
Definition float_floor (x : float) : result Z :=
  match Prim2SF x with
  | S754_infinity _ => Raise OverflowError
  | S754_nan => Raise ValueError
  | _ =>
      match float_fraction x with
      | Some (n, k) => Ok (Z.shiftr n k)
      | None => Raise ValueError
      end
  end.

(** [round(x)]: the nearest integer, ties to the even one. *)
Definition float_round (x : float) : result Z :=
  match Prim2SF x with
  | S754_infinity _ => Raise OverflowError
  | S754_nan => Raise ValueError
  | _ =>
      match float_fraction x with
      | Some (n, k) =>
          let d := 2 ^ k in
          let q := n / d in
          let r := n mod d in
          Ok (if 2 * r <? d then q
              else if d <? 2 * r then q + 1
              else if Z.even q then q else q + 1)
      | None => Raise ValueError
      end
  end.

(** [n < x] for an int and a float: Python compares the exact values. *)
Definition int_lt_float (n : Z) (x : float) : bool :=
  match Prim2SF x with
  | S754_nan => false
  | S754_infinity s => negb s
  | _ =>
      match float_fraction x with
      | Some (m, k) => Z.shiftl n k <? m
      | None => false
      end
  end.

End Py.

(** An int or [float('inf')], as [self.total_frames] holds them. *)
Inductive frames : Type :=
| Fin (n : Z)
| Inf.

(** [n < total] and [n >= total - 1] for such a value. *)
Definition lt_frames (n : Z) (total : frames) : bool :=
  match total with
  | Fin t => n <? t
  | Inf => true
  end.

Definition ge_frames_minus_1 (n : Z) (total : frames) : bool :=
  match total with
  | Fin t => t - 1 <=? n
  | Inf => false
  end.

(** ** Strings *)

(** [c in s] for a one-character [c]. *)
Fixpoint str_contains (c : ascii) (s : string) : bool :=
  match s with
  | EmptyString => false
  | String a rest => if Ascii.eqb a c then true else str_contains c rest
  end.

(** [s.split(c)] for a one-character separator: never empty, and one
    more piece than there are separators. *)
Fixpoint str_split (c : ascii) (s : string) : list string :=
  match s with
  | EmptyString => [EmptyString]
  | String a rest =>
      if Ascii.eqb a c then EmptyString :: str_split c rest
      else
        match str_split c rest with
        | piece :: pieces => String a piece :: pieces
        | [] => [String a EmptyString]
        end
  end.

(** [str(n)] for an int. *)
Definition digit (d : Z) : ascii :=
  ascii_of_nat (Z.to_nat (48 + d)).

Fixpoint digits_fuel (fuel : nat) (n : Z) (acc : string) : string :=
  match fuel with
  | O => acc
  | S fuel' =>
      let acc' := String (digit (n mod 10)) acc in
      if n / 10 =? 0 then acc' else digits_fuel fuel' (n / 10) acc'
  end.

Definition str_nonneg (n : Z) : string :=
  digits_fuel (S (Z.to_nat (Z.log2 n))) n EmptyString.

Definition str_int (z : Z) : string :=
  if z <? 0 then String "-"%char (str_nonneg (- z)) else str_nonneg z.

(** [f"{n:02d}"]: at least two characters, zero padded. *)
Definition format_02d (z : Z) : string :=
  if (0 <=? z) && (z <? 10) then String "0"%char (str_nonneg z)
  else str_int z.

(* ================================================================= *)
(** * The application state *)

(** A raw frame or a numpy [uint8] array over it: the bytes in row-major
    [(height, width, 3)] order. *)
Definition frame : Type := list byte.

Inductive comparison_mode : Type :=
| side_by_side
| overlay
| difference
| toggle.

Inductive tk_state : Type :=
| NORMAL
| DISABLED.

Definition tk_state_eqb (a b : tk_state) : bool :=
  match a, b with
  | NORMAL, NORMAL | DISABLED, DISABLED => true
  | _, _ => false
  end.

(** The keys of an ffprobe stream description that the program reads;
    [None] where [dict.get] falls back to its default. *)
Record video_info : Type := {
  width : Z;
  height : Z;
  avg_frame_rate : option string;
  duration : option string
}.

(** An ffmpeg command line: [-ss], [-i], the [scale] filter and, for a
    single frame, [-vframes 1]; the remaining arguments are constant. *)
Record command : Type := {
  executable : string;
  ss : float;
  input : string;
  scale : Z * Z;
  vframes : option Z
}.

(** What [winfo_width] and [winfo_height] report for the widgets that
    [handle_resize] measures. *)
Record geometry : Type := {
  main_frame_width : Z;
  main_frame_height : Z;
  controls_frame_height : Z;
  status_bar_height : Z
}.

(** The calls handed to [self.after]: they run later, on the Tk thread. *)
Inductive callback : Type :=
| SeekBarSet (value : Z)
| UpdateFrameDisplay (raw_frame1 raw_frame2 : frame)
| UpdateStatusBar (status_text : string)
| SeekBarToTotal
| PlayPauseBtnPlay
| RestartAfterResize (was_playing : bool).

Record VideoComparer : Type := mkVideoComparer {
  ffmpeg_path : string;
  video_path1 : option string;
  video_path2 : option string;
  video_info1 : video_info;
  video_info2 : video_info;
  video_name1 : string;
  video_name2 : string;
  ffmpeg_process1 : option command;
  ffmpeg_process2 : option command;
  is_playing : bool;
  current_frame_num : Z;
  total_frames : frames;
  fps1 : float;
  fps2 : float;
  video_fps : float;
  video2_offset : Z;
  display_width : Z;
  display_height : Z;
  split_pos : Z;
  duration_known : bool;
  is_fullscreen : bool;
  comparison_mode_var : comparison_mode;
  offset_var : string;
  status_var : string;
  seek_bar_state : tk_state;
  seek_bar_to : frames;
  seek_bar_value : Z;
  play_pause_btn_state : tk_state;
  play_pause_btn_text : string;
  prev_frame_btn_state : tk_state;
  next_frame_btn_state : tk_state;
  snapshot_btn_state : tk_state;
  video_label_image : option frame;
  winfo : geometry;
  after_queue : list callback;
  errors_shown : list string;
  requests : list command
}.

(** Attribute assignment [self.x = v]: one setter for each attribute the
    modelled methods write; the other attributes are copied in order. *)
Definition set_ffmpeg_process1 (v : option command) (st : VideoComparer) : VideoComparer :=
  mkVideoComparer (ffmpeg_path st) (video_path1 st) (video_path2 st)
    (video_info1 st) (video_info2 st) (video_name1 st) (video_name2 st) v
    (ffmpeg_process2 st) (is_playing st) (current_frame_num st)
    (total_frames st) (fps1 st) (fps2 st) (video_fps st) (video2_offset st)
    (display_width st) (display_height st) (split_pos st) (duration_known
    st) (is_fullscreen st) (comparison_mode_var st) (offset_var st)
    (status_var st) (seek_bar_state st) (seek_bar_to st) (seek_bar_value st)
    (play_pause_btn_state st) (play_pause_btn_text st) (prev_frame_btn_state
    st) (next_frame_btn_state st) (snapshot_btn_state st) (video_label_image
    st) (winfo st) (after_queue st) (errors_shown st) (requests st).

Definition set_ffmpeg_process2 (v : option command) (st : VideoComparer) : VideoComparer :=
  mkVideoComparer (ffmpeg_path st) (video_path1 st) (video_path2 st)
    (video_info1 st) (video_info2 st) (video_name1 st) (video_name2 st)
    (ffmpeg_process1 st) v (is_playing st) (current_frame_num st)
    (total_frames st) (fps1 st) (fps2 st) (video_fps st) (video2_offset st)
    (display_width st) (display_height st) (split_pos st) (duration_known
    st) (is_fullscreen st) (comparison_mode_var st) (offset_var st)
    (status_var st) (seek_bar_state st) (seek_bar_to st) (seek_bar_value st)
    (play_pause_btn_state st) (play_pause_btn_text st) (prev_frame_btn_state
    st) (next_frame_btn_state st) (snapshot_btn_state st) (video_label_image
    st) (winfo st) (after_queue st) (errors_shown st) (requests st).

Definition set_is_playing (v : bool) (st : VideoComparer) : VideoComparer :=
  mkVideoComparer (ffmpeg_path st) (video_path1 st) (video_path2 st)
    (video_info1 st) (video_info2 st) (video_name1 st) (video_name2 st)
    (ffmpeg_process1 st) (ffmpeg_process2 st) v (current_frame_num st)
    (total_frames st) (fps1 st) (fps2 st) (video_fps st) (video2_offset st)
    (display_width st) (display_height st) (split_pos st) (duration_known
    st) (is_fullscreen st) (comparison_mode_var st) (offset_var st)
    (status_var st) (seek_bar_state st) (seek_bar_to st) (seek_bar_value st)
    (play_pause_btn_state st) (play_pause_btn_text st) (prev_frame_btn_state
    st) (next_frame_btn_state st) (snapshot_btn_state st) (video_label_image
    st) (winfo st) (after_queue st) (errors_shown st) (requests st).

Definition set_current_frame_num (v : Z) (st : VideoComparer) : VideoComparer :=
  mkVideoComparer (ffmpeg_path st) (video_path1 st) (video_path2 st)
    (video_info1 st) (video_info2 st) (video_name1 st) (video_name2 st)
    (ffmpeg_process1 st) (ffmpeg_process2 st) (is_playing st) v
    (total_frames st) (fps1 st) (fps2 st) (video_fps st) (video2_offset st)
    (display_width st) (display_height st) (split_pos st) (duration_known
    st) (is_fullscreen st) (comparison_mode_var st) (offset_var st)
    (status_var st) (seek_bar_state st) (seek_bar_to st) (seek_bar_value st)
    (play_pause_btn_state st) (play_pause_btn_text st) (prev_frame_btn_state
    st) (next_frame_btn_state st) (snapshot_btn_state st) (video_label_image
    st) (winfo st) (after_queue st) (errors_shown st) (requests st).

Definition set_total_frames (v : frames) (st : VideoComparer) : VideoComparer :=
  mkVideoComparer (ffmpeg_path st) (video_path1 st) (video_path2 st)
    (video_info1 st) (video_info2 st) (video_name1 st) (video_name2 st)
    (ffmpeg_process1 st) (ffmpeg_process2 st) (is_playing st)
    (current_frame_num st) v (fps1 st) (fps2 st) (video_fps st)
    (video2_offset st) (display_width st) (display_height st) (split_pos st)
    (duration_known st) (is_fullscreen st) (comparison_mode_var st)
    (offset_var st) (status_var st) (seek_bar_state st) (seek_bar_to st)
    (seek_bar_value st) (play_pause_btn_state st) (play_pause_btn_text st)
    (prev_frame_btn_state st) (next_frame_btn_state st) (snapshot_btn_state
    st) (video_label_image st) (winfo st) (after_queue st) (errors_shown st)
    (requests st).

Definition set_fps1 (v : float) (st : VideoComparer) : VideoComparer :=
  mkVideoComparer (ffmpeg_path st) (video_path1 st) (video_path2 st)
    (video_info1 st) (video_info2 st) (video_name1 st) (video_name2 st)
    (ffmpeg_process1 st) (ffmpeg_process2 st) (is_playing st)
    (current_frame_num st) (total_frames st) v (fps2 st) (video_fps st)
    (video2_offset st) (display_width st) (display_height st) (split_pos st)
    (duration_known st) (is_fullscreen st) (comparison_mode_var st)
    (offset_var st) (status_var st) (seek_bar_state st) (seek_bar_to st)
    (seek_bar_value st) (play_pause_btn_state st) (play_pause_btn_text st)
    (prev_frame_btn_state st) (next_frame_btn_state st) (snapshot_btn_state
    st) (video_label_image st) (winfo st) (after_queue st) (errors_shown st)
    (requests st).

Definition set_fps2 (v : float) (st : VideoComparer) : VideoComparer :=
  mkVideoComparer (ffmpeg_path st) (video_path1 st) (video_path2 st)
    (video_info1 st) (video_info2 st) (video_name1 st) (video_name2 st)
    (ffmpeg_process1 st) (ffmpeg_process2 st) (is_playing st)
    (current_frame_num st) (total_frames st) (fps1 st) v (video_fps st)
    (video2_offset st) (display_width st) (display_height st) (split_pos st)
    (duration_known st) (is_fullscreen st) (comparison_mode_var st)
    (offset_var st) (status_var st) (seek_bar_state st) (seek_bar_to st)
    (seek_bar_value st) (play_pause_btn_state st) (play_pause_btn_text st)
    (prev_frame_btn_state st) (next_frame_btn_state st) (snapshot_btn_state
    st) (video_label_image st) (winfo st) (after_queue st) (errors_shown st)
    (requests st).

Definition set_video_fps (v : float) (st : VideoComparer) : VideoComparer :=
  mkVideoComparer (ffmpeg_path st) (video_path1 st) (video_path2 st)
    (video_info1 st) (video_info2 st) (video_name1 st) (video_name2 st)
    (ffmpeg_process1 st) (ffmpeg_process2 st) (is_playing st)
    (current_frame_num st) (total_frames st) (fps1 st) (fps2 st) v
    (video2_offset st) (display_width st) (display_height st) (split_pos st)
    (duration_known st) (is_fullscreen st) (comparison_mode_var st)
    (offset_var st) (status_var st) (seek_bar_state st) (seek_bar_to st)
    (seek_bar_value st) (play_pause_btn_state st) (play_pause_btn_text st)
    (prev_frame_btn_state st) (next_frame_btn_state st) (snapshot_btn_state
    st) (video_label_image st) (winfo st) (after_queue st) (errors_shown st)
    (requests st).

Definition set_video2_offset (v : Z) (st : VideoComparer) : VideoComparer :=
  mkVideoComparer (ffmpeg_path st) (video_path1 st) (video_path2 st)
    (video_info1 st) (video_info2 st) (video_name1 st) (video_name2 st)
    (ffmpeg_process1 st) (ffmpeg_process2 st) (is_playing st)
    (current_frame_num st) (total_frames st) (fps1 st) (fps2 st) (video_fps
    st) v (display_width st) (display_height st) (split_pos st)
    (duration_known st) (is_fullscreen st) (comparison_mode_var st)
    (offset_var st) (status_var st) (seek_bar_state st) (seek_bar_to st)
    (seek_bar_value st) (play_pause_btn_state st) (play_pause_btn_text st)
    (prev_frame_btn_state st) (next_frame_btn_state st) (snapshot_btn_state
    st) (video_label_image st) (winfo st) (after_queue st) (errors_shown st)
    (requests st).

Definition set_display_width (v : Z) (st : VideoComparer) : VideoComparer :=
  mkVideoComparer (ffmpeg_path st) (video_path1 st) (video_path2 st)
    (video_info1 st) (video_info2 st) (video_name1 st) (video_name2 st)
    (ffmpeg_process1 st) (ffmpeg_process2 st) (is_playing st)
    (current_frame_num st) (total_frames st) (fps1 st) (fps2 st) (video_fps
    st) (video2_offset st) v (display_height st) (split_pos st)
    (duration_known st) (is_fullscreen st) (comparison_mode_var st)
    (offset_var st) (status_var st) (seek_bar_state st) (seek_bar_to st)
    (seek_bar_value st) (play_pause_btn_state st) (play_pause_btn_text st)
    (prev_frame_btn_state st) (next_frame_btn_state st) (snapshot_btn_state
    st) (video_label_image st) (winfo st) (after_queue st) (errors_shown st)
    (requests st).

Definition set_display_height (v : Z) (st : VideoComparer) : VideoComparer :=
  mkVideoComparer (ffmpeg_path st) (video_path1 st) (video_path2 st)
    (video_info1 st) (video_info2 st) (video_name1 st) (video_name2 st)
    (ffmpeg_process1 st) (ffmpeg_process2 st) (is_playing st)
    (current_frame_num st) (total_frames st) (fps1 st) (fps2 st) (video_fps
    st) (video2_offset st) (display_width st) v (split_pos st)
    (duration_known st) (is_fullscreen st) (comparison_mode_var st)
    (offset_var st) (status_var st) (seek_bar_state st) (seek_bar_to st)
    (seek_bar_value st) (play_pause_btn_state st) (play_pause_btn_text st)
    (prev_frame_btn_state st) (next_frame_btn_state st) (snapshot_btn_state
    st) (video_label_image st) (winfo st) (after_queue st) (errors_shown st)
    (requests st).

Definition set_split_pos (v : Z) (st : VideoComparer) : VideoComparer :=
  mkVideoComparer (ffmpeg_path st) (video_path1 st) (video_path2 st)
    (video_info1 st) (video_info2 st) (video_name1 st) (video_name2 st)
    (ffmpeg_process1 st) (ffmpeg_process2 st) (is_playing st)
    (current_frame_num st) (total_frames st) (fps1 st) (fps2 st) (video_fps
    st) (video2_offset st) (display_width st) (display_height st) v
    (duration_known st) (is_fullscreen st) (comparison_mode_var st)
    (offset_var st) (status_var st) (seek_bar_state st) (seek_bar_to st)
    (seek_bar_value st) (play_pause_btn_state st) (play_pause_btn_text st)
    (prev_frame_btn_state st) (next_frame_btn_state st) (snapshot_btn_state
    st) (video_label_image st) (winfo st) (after_queue st) (errors_shown st)
    (requests st).

Definition set_duration_known (v : bool) (st : VideoComparer) : VideoComparer :=
  mkVideoComparer (ffmpeg_path st) (video_path1 st) (video_path2 st)
    (video_info1 st) (video_info2 st) (video_name1 st) (video_name2 st)
    (ffmpeg_process1 st) (ffmpeg_process2 st) (is_playing st)
    (current_frame_num st) (total_frames st) (fps1 st) (fps2 st) (video_fps
    st) (video2_offset st) (display_width st) (display_height st) (split_pos
    st) v (is_fullscreen st) (comparison_mode_var st) (offset_var st)
    (status_var st) (seek_bar_state st) (seek_bar_to st) (seek_bar_value st)
    (play_pause_btn_state st) (play_pause_btn_text st) (prev_frame_btn_state
    st) (next_frame_btn_state st) (snapshot_btn_state st) (video_label_image
    st) (winfo st) (after_queue st) (errors_shown st) (requests st).

Definition set_offset_var (v : string) (st : VideoComparer) : VideoComparer :=
  mkVideoComparer (ffmpeg_path st) (video_path1 st) (video_path2 st)
    (video_info1 st) (video_info2 st) (video_name1 st) (video_name2 st)
    (ffmpeg_process1 st) (ffmpeg_process2 st) (is_playing st)
    (current_frame_num st) (total_frames st) (fps1 st) (fps2 st) (video_fps
    st) (video2_offset st) (display_width st) (display_height st) (split_pos
    st) (duration_known st) (is_fullscreen st) (comparison_mode_var st) v
    (status_var st) (seek_bar_state st) (seek_bar_to st) (seek_bar_value st)
    (play_pause_btn_state st) (play_pause_btn_text st) (prev_frame_btn_state
    st) (next_frame_btn_state st) (snapshot_btn_state st) (video_label_image
    st) (winfo st) (after_queue st) (errors_shown st) (requests st).

Definition set_status_var (v : string) (st : VideoComparer) : VideoComparer :=
  mkVideoComparer (ffmpeg_path st) (video_path1 st) (video_path2 st)
    (video_info1 st) (video_info2 st) (video_name1 st) (video_name2 st)
    (ffmpeg_process1 st) (ffmpeg_process2 st) (is_playing st)
    (current_frame_num st) (total_frames st) (fps1 st) (fps2 st) (video_fps
    st) (video2_offset st) (display_width st) (display_height st) (split_pos
    st) (duration_known st) (is_fullscreen st) (comparison_mode_var st)
    (offset_var st) v (seek_bar_state st) (seek_bar_to st) (seek_bar_value
    st) (play_pause_btn_state st) (play_pause_btn_text st)
    (prev_frame_btn_state st) (next_frame_btn_state st) (snapshot_btn_state
    st) (video_label_image st) (winfo st) (after_queue st) (errors_shown st)
    (requests st).

Definition set_seek_bar_state (v : tk_state) (st : VideoComparer) : VideoComparer :=
  mkVideoComparer (ffmpeg_path st) (video_path1 st) (video_path2 st)
    (video_info1 st) (video_info2 st) (video_name1 st) (video_name2 st)
    (ffmpeg_process1 st) (ffmpeg_process2 st) (is_playing st)
    (current_frame_num st) (total_frames st) (fps1 st) (fps2 st) (video_fps
    st) (video2_offset st) (display_width st) (display_height st) (split_pos
    st) (duration_known st) (is_fullscreen st) (comparison_mode_var st)
    (offset_var st) (status_var st) v (seek_bar_to st) (seek_bar_value st)
    (play_pause_btn_state st) (play_pause_btn_text st) (prev_frame_btn_state
    st) (next_frame_btn_state st) (snapshot_btn_state st) (video_label_image
    st) (winfo st) (after_queue st) (errors_shown st) (requests st).

Definition set_seek_bar_to (v : frames) (st : VideoComparer) : VideoComparer :=
  mkVideoComparer (ffmpeg_path st) (video_path1 st) (video_path2 st)
    (video_info1 st) (video_info2 st) (video_name1 st) (video_name2 st)
    (ffmpeg_process1 st) (ffmpeg_process2 st) (is_playing st)
    (current_frame_num st) (total_frames st) (fps1 st) (fps2 st) (video_fps
    st) (video2_offset st) (display_width st) (display_height st) (split_pos
    st) (duration_known st) (is_fullscreen st) (comparison_mode_var st)
    (offset_var st) (status_var st) (seek_bar_state st) v (seek_bar_value
    st) (play_pause_btn_state st) (play_pause_btn_text st)
    (prev_frame_btn_state st) (next_frame_btn_state st) (snapshot_btn_state
    st) (video_label_image st) (winfo st) (after_queue st) (errors_shown st)
    (requests st).

Definition set_seek_bar_value (v : Z) (st : VideoComparer) : VideoComparer :=
  mkVideoComparer (ffmpeg_path st) (video_path1 st) (video_path2 st)
    (video_info1 st) (video_info2 st) (video_name1 st) (video_name2 st)
    (ffmpeg_process1 st) (ffmpeg_process2 st) (is_playing st)
    (current_frame_num st) (total_frames st) (fps1 st) (fps2 st) (video_fps
    st) (video2_offset st) (display_width st) (display_height st) (split_pos
    st) (duration_known st) (is_fullscreen st) (comparison_mode_var st)
    (offset_var st) (status_var st) (seek_bar_state st) (seek_bar_to st) v
    (play_pause_btn_state st) (play_pause_btn_text st) (prev_frame_btn_state
    st) (next_frame_btn_state st) (snapshot_btn_state st) (video_label_image
    st) (winfo st) (after_queue st) (errors_shown st) (requests st).

Definition set_play_pause_btn_state (v : tk_state) (st : VideoComparer) : VideoComparer :=
  mkVideoComparer (ffmpeg_path st) (video_path1 st) (video_path2 st)
    (video_info1 st) (video_info2 st) (video_name1 st) (video_name2 st)
    (ffmpeg_process1 st) (ffmpeg_process2 st) (is_playing st)
    (current_frame_num st) (total_frames st) (fps1 st) (fps2 st) (video_fps
    st) (video2_offset st) (display_width st) (display_height st) (split_pos
    st) (duration_known st) (is_fullscreen st) (comparison_mode_var st)
    (offset_var st) (status_var st) (seek_bar_state st) (seek_bar_to st)
    (seek_bar_value st) v (play_pause_btn_text st) (prev_frame_btn_state st)
    (next_frame_btn_state st) (snapshot_btn_state st) (video_label_image st)
    (winfo st) (after_queue st) (errors_shown st) (requests st).

Definition set_play_pause_btn_text (v : string) (st : VideoComparer) : VideoComparer :=
  mkVideoComparer (ffmpeg_path st) (video_path1 st) (video_path2 st)
    (video_info1 st) (video_info2 st) (video_name1 st) (video_name2 st)
    (ffmpeg_process1 st) (ffmpeg_process2 st) (is_playing st)
    (current_frame_num st) (total_frames st) (fps1 st) (fps2 st) (video_fps
    st) (video2_offset st) (display_width st) (display_height st) (split_pos
    st) (duration_known st) (is_fullscreen st) (comparison_mode_var st)
    (offset_var st) (status_var st) (seek_bar_state st) (seek_bar_to st)
    (seek_bar_value st) (play_pause_btn_state st) v (prev_frame_btn_state
    st) (next_frame_btn_state st) (snapshot_btn_state st) (video_label_image
    st) (winfo st) (after_queue st) (errors_shown st) (requests st).

Definition set_prev_frame_btn_state (v : tk_state) (st : VideoComparer) : VideoComparer :=
  mkVideoComparer (ffmpeg_path st) (video_path1 st) (video_path2 st)
    (video_info1 st) (video_info2 st) (video_name1 st) (video_name2 st)
    (ffmpeg_process1 st) (ffmpeg_process2 st) (is_playing st)
    (current_frame_num st) (total_frames st) (fps1 st) (fps2 st) (video_fps
    st) (video2_offset st) (display_width st) (display_height st) (split_pos
    st) (duration_known st) (is_fullscreen st) (comparison_mode_var st)
    (offset_var st) (status_var st) (seek_bar_state st) (seek_bar_to st)
    (seek_bar_value st) (play_pause_btn_state st) (play_pause_btn_text st) v
    (next_frame_btn_state st) (snapshot_btn_state st) (video_label_image st)
    (winfo st) (after_queue st) (errors_shown st) (requests st).

Definition set_next_frame_btn_state (v : tk_state) (st : VideoComparer) : VideoComparer :=
  mkVideoComparer (ffmpeg_path st) (video_path1 st) (video_path2 st)
    (video_info1 st) (video_info2 st) (video_name1 st) (video_name2 st)
    (ffmpeg_process1 st) (ffmpeg_process2 st) (is_playing st)
    (current_frame_num st) (total_frames st) (fps1 st) (fps2 st) (video_fps
    st) (video2_offset st) (display_width st) (display_height st) (split_pos
    st) (duration_known st) (is_fullscreen st) (comparison_mode_var st)
    (offset_var st) (status_var st) (seek_bar_state st) (seek_bar_to st)
    (seek_bar_value st) (play_pause_btn_state st) (play_pause_btn_text st)
    (prev_frame_btn_state st) v (snapshot_btn_state st) (video_label_image
    st) (winfo st) (after_queue st) (errors_shown st) (requests st).

Definition set_snapshot_btn_state (v : tk_state) (st : VideoComparer) : VideoComparer :=
  mkVideoComparer (ffmpeg_path st) (video_path1 st) (video_path2 st)
    (video_info1 st) (video_info2 st) (video_name1 st) (video_name2 st)
    (ffmpeg_process1 st) (ffmpeg_process2 st) (is_playing st)
    (current_frame_num st) (total_frames st) (fps1 st) (fps2 st) (video_fps
    st) (video2_offset st) (display_width st) (display_height st) (split_pos
    st) (duration_known st) (is_fullscreen st) (comparison_mode_var st)
    (offset_var st) (status_var st) (seek_bar_state st) (seek_bar_to st)
    (seek_bar_value st) (play_pause_btn_state st) (play_pause_btn_text st)
    (prev_frame_btn_state st) (next_frame_btn_state st) v (video_label_image
    st) (winfo st) (after_queue st) (errors_shown st) (requests st).

Definition set_video_label_image (v : option frame) (st : VideoComparer) : VideoComparer :=
  mkVideoComparer (ffmpeg_path st) (video_path1 st) (video_path2 st)
    (video_info1 st) (video_info2 st) (video_name1 st) (video_name2 st)
    (ffmpeg_process1 st) (ffmpeg_process2 st) (is_playing st)
    (current_frame_num st) (total_frames st) (fps1 st) (fps2 st) (video_fps
    st) (video2_offset st) (display_width st) (display_height st) (split_pos
    st) (duration_known st) (is_fullscreen st) (comparison_mode_var st)
    (offset_var st) (status_var st) (seek_bar_state st) (seek_bar_to st)
    (seek_bar_value st) (play_pause_btn_state st) (play_pause_btn_text st)
    (prev_frame_btn_state st) (next_frame_btn_state st) (snapshot_btn_state
    st) v (winfo st) (after_queue st) (errors_shown st) (requests st).

Definition set_after_queue (v : list callback) (st : VideoComparer) : VideoComparer :=
  mkVideoComparer (ffmpeg_path st) (video_path1 st) (video_path2 st)
    (video_info1 st) (video_info2 st) (video_name1 st) (video_name2 st)
    (ffmpeg_process1 st) (ffmpeg_process2 st) (is_playing st)
    (current_frame_num st) (total_frames st) (fps1 st) (fps2 st) (video_fps
    st) (video2_offset st) (display_width st) (display_height st) (split_pos
    st) (duration_known st) (is_fullscreen st) (comparison_mode_var st)
    (offset_var st) (status_var st) (seek_bar_state st) (seek_bar_to st)
    (seek_bar_value st) (play_pause_btn_state st) (play_pause_btn_text st)
    (prev_frame_btn_state st) (next_frame_btn_state st) (snapshot_btn_state
    st) (video_label_image st) (winfo st) v (errors_shown st) (requests st).

Definition set_errors_shown (v : list string) (st : VideoComparer) : VideoComparer :=
  mkVideoComparer (ffmpeg_path st) (video_path1 st) (video_path2 st)
    (video_info1 st) (video_info2 st) (video_name1 st) (video_name2 st)
    (ffmpeg_process1 st) (ffmpeg_process2 st) (is_playing st)
    (current_frame_num st) (total_frames st) (fps1 st) (fps2 st) (video_fps
    st) (video2_offset st) (display_width st) (display_height st) (split_pos
    st) (duration_known st) (is_fullscreen st) (comparison_mode_var st)
    (offset_var st) (status_var st) (seek_bar_state st) (seek_bar_to st)
    (seek_bar_value st) (play_pause_btn_state st) (play_pause_btn_text st)
    (prev_frame_btn_state st) (next_frame_btn_state st) (snapshot_btn_state
    st) (video_label_image st) (winfo st) (after_queue st) v (requests st).

Definition set_requests (v : list command) (st : VideoComparer) : VideoComparer :=
  mkVideoComparer (ffmpeg_path st) (video_path1 st) (video_path2 st)
    (video_info1 st) (video_info2 st) (video_name1 st) (video_name2 st)
    (ffmpeg_process1 st) (ffmpeg_process2 st) (is_playing st)
    (current_frame_num st) (total_frames st) (fps1 st) (fps2 st) (video_fps
    st) (video2_offset st) (display_width st) (display_height st) (split_pos
    st) (duration_known st) (is_fullscreen st) (comparison_mode_var st)
    (offset_var st) (status_var st) (seek_bar_state st) (seek_bar_to st)
    (seek_bar_value st) (play_pause_btn_state st) (play_pause_btn_text st)
    (prev_frame_btn_state st) (next_frame_btn_state st) (snapshot_btn_state
    st) (video_label_image st) (winfo st) (after_queue st) (errors_shown st)
    v.

(* ================================================================= *)
(** * State and exceptions *)

(** A method body: it reads and writes [self] and either returns or
    raises; the state it returns holds every write made before a raise. *)
Definition M (A : Type) : Type := VideoComparer -> result A * VideoComparer.

Definition ret {A} (a : A) : M A := fun st => (Ok a, st).

Definition bind {A B} (m : M A) (k : A -> M B) : M B :=
  fun st =>
    match m st with
    | (Ok a, st') => k a st'
    | (Raise e, st') => (Raise e, st')
    end.

Definition raise {A} (e : exn) : M A := fun st => (Raise e, st).

Definition lift {A} (r : result A) : M A := fun st => (r, st).

Definition get : M VideoComparer := fun st => (Ok st, st).

Definition modify (f : VideoComparer -> VideoComparer) : M unit :=
  fun st => (Ok tt, f st).

(** [try: m except <caught>: handler] *)
Definition try_except {A} (m : M A) (caught : exn -> bool) (handler : exn -> M A) : M A :=
  fun st =>
    match m st with
    | (Raise e, st') => if caught e then handler e st' else (Raise e, st')
    | done => done
    end.

(** [if c: m] *)
Definition when (c : bool) (m : M unit) : M unit :=
  if c then m else ret tt.

Module MNotations.
Notation "x <- m ;; k" := (bind m (fun x => k))
  (at level 61, m at next level, right associativity) : py_scope.
Notation "m ;; k" := (bind m (fun _ => k))
  (at level 61, right associativity) : py_scope.
End MNotations.
Import MNotations.

(** The state a method leaves and what it returned. *)
Definition state_after {A} (m : M A) (st : VideoComparer) : VideoComparer := snd (m st).
Definition outcome {A} (m : M A) (st : VideoComparer) : result A := fst (m st).

(** [self.after(ms, f, *args)] *)
Definition after (cb : callback) : M unit :=
  modify (fun st => set_after_queue (after_queue st ++ [cb]) st).

(** [messagebox.showerror(title, ...)] *)
Definition showerror (title : string) : M unit :=
  modify (fun st => set_errors_shown (errors_shown st ++ [title]) st).

(** A path attribute is truthy when it is neither [None] nor empty. *)
Definition truthy (path : option string) : bool :=
  match path with
  | Some (String _ _) => true
  | _ => false
  end.

Definition path_of (path : option string) : string :=
  match path with
  | Some p => p
  | None => EmptyString
  end.

(* ================================================================= *)
(** * Module-level functions *)

Section Builtins.

(** [float(s)] and [int(s)] on a string, [None] when they raise
    [ValueError]. *)
Variable py_float : string -> option float.
Variable py_int : string -> option Z.

Definition float_of_str (s : string) : result float :=
  match py_float s with
  | Some x => Ok x
  | None => Raise ValueError
  end.

Definition int_of_str (s : string) : result Z :=
  match py_int s with
  | Some n => Ok n
  | None => Raise ValueError
  end.

(** The [try] block of [parse_frame_rate].  [num, den = map(float, ...)]
    raises [ValueError] unless the split has exactly two pieces and both
    convert. *)
Definition parse_frame_rate_try (rate_str : string) : result float :=
  if str_contains "/"%char rate_str then
    match str_split "/"%char rate_str with
    | [a; b] =>
        let? num := float_of_str a in
        let? den := float_of_str b in
        if (den =? 0)%float then Ok 30%float
        else Py.float_truediv num den
    | _ => Raise ValueError
    end
  else float_of_str rate_str.

(** [parse_frame_rate]: the [try] block under
    [except (ValueError, TypeError): return 30.0]. *)
Definition parse_frame_rate (rate_str : string) : result float :=
  match parse_frame_rate_try rate_str with
  | Raise ValueError | Raise TypeError => Ok 30%float
  | r => r
  end.

(** [format_time]: seconds as [MM:SS]. *)
Definition format_time (seconds : float) : result string :=
  if (seconds <? 0)%float then Ok "00:00"%string
  else
    let? s := Py.float_to_int seconds in
    Ok (format_02d (s / 60) ++ ":" ++ format_02d (s mod 60))%string.

End Builtins.

(* ================================================================= *)
(** * The collaborators outside the repository *)

Inductive conversion : Type :=
| COLOR_BGR2GRAY
| COLOR_GRAY2BGR
| COLOR_BGR2RGB.

Definition colour : Type := (Z * Z * Z)%type.

(** A numpy [uint8] array: its bytes and its [WRITEABLE] flag.  The
    array [np.frombuffer] makes over a [bytes] object is read-only, and
    so is every view of it; a [copy()] and the arrays OpenCV returns are
    writeable. *)
Record ndarray : Type := {
  data : frame;
  writeable : bool
}.

Definition frombuffer (raw : frame) : ndarray :=
  {| data := raw; writeable := false |}.

Definition fresh (pixels : frame) : ndarray :=
  {| data := pixels; writeable := true |}.

(** The OpenCV calls of [update_frame_display] and [_add_video_labels].
    The two drawing calls write into the array they are given: they take
    its [(height, width)] and the array with its flag, and give the bytes
    it holds after the call, or the exception.  The other calls read
    their inputs and return a new array.  The font face and line type
    never vary and are left out. *)
Record Cv2 : Type := {
  cv2_line : Z * Z -> ndarray -> Z * Z -> Z * Z -> colour -> Z -> result frame;
  cv2_addWeighted : frame -> float -> frame -> float -> float -> result frame;
  cv2_absdiff : frame -> frame -> result frame;
  cv2_cvtColor : frame -> conversion -> result frame;
  cv2_putText : Z * Z -> ndarray -> string -> Z * Z -> float -> colour -> Z -> result frame;
  cv2_getTextSize : string -> float -> Z -> Z
}.

(** ffmpeg as a subprocess: [check_output] yields the bytes written, or
    [None] for [CalledProcessError]; [Popen] starts or fails. *)
Record Subprocess : Type := {
  check_output : command -> option frame;
  Popen : command -> bool
}.

(** ** The arrays of one [update_frame_display] call

    [np.frombuffer(...).reshape(...)] gives two read-only views, one per
    raw frame; a mode either makes a new array or, in toggle mode, binds
    [combined_frame] to one of the two views.  The drawing calls are
    made on the array that binding names. *)

Inductive array_ref : Type :=
| frame1_ref
| frame2_ref
| new_ref.

Record arrays : Type := {
  frame1_bgr : ndarray;
  frame2_bgr : ndarray;
  new_array : ndarray
}.

Definition array_at (mem : arrays) (r : array_ref) : ndarray :=
  match r with
  | frame1_ref => frame1_bgr mem
  | frame2_ref => frame2_bgr mem
  | new_ref => new_array mem
  end.

Definition array_bind (mem : arrays) (r : array_ref) (v : ndarray) : arrays :=
  match r with
  | frame1_ref => {| frame1_bgr := v; frame2_bgr := frame2_bgr mem; new_array := new_array mem |}
  | frame2_ref => {| frame1_bgr := frame1_bgr mem; frame2_bgr := v; new_array := new_array mem |}
  | new_ref => {| frame1_bgr := frame1_bgr mem; frame2_bgr := frame2_bgr mem; new_array := v |}
  end.

(** The bytes [v] written into the array that [r] names; its flag stays. *)
Definition array_store (mem : arrays) (r : array_ref) (v : frame) : arrays :=
  array_bind mem r {| data := v; writeable := writeable (array_at mem r) |}.

(** A drawing call on the array that [r] names. *)
Definition draw (mem : arrays) (r : array_ref) (op : ndarray -> result frame) : result arrays :=
  let? v := op (array_at mem r) in Ok (array_store mem r v).

(** [np.frombuffer(raw, dtype='uint8').reshape((h, w, 3))]: a view of the
    read-only array over [raw]. *)
Definition reshape (raw : frame) (h w : Z) : result ndarray :=
  if (0 <=? h) && (0 <=? w) && (Z.of_nat (List.length raw) =? h * w * 3)
  then Ok (frombuffer raw) else Raise ValueError.

(** Where the slice [s:] starts on an axis of length [w]. *)
Definition slice_start (s w : Z) : Z :=
  Z.max 0 (Z.min w (if s <? 0 then s + w else s)).

(** [a[:, s:] = b[:, s:]] on a copy of [a]. *)
Definition paste_columns (w s : Z) (a b : frame) : frame :=
  map (fun '(i, (x, y)) => if slice_start s w <=? (Z.of_nat i / 3) mod w then y else x)
      (combine (seq 0 (List.length a)) (combine a b)).

(* ================================================================= *)
(** * The methods of [VideoComparer] *)

Section Methods.

Variable py_float : string -> option float.
Variable py_int : string -> option Z.
Variable cv2 : Cv2.
Variable sp : Subprocess.

(** [calculate_display_size(w, h, tw, th)] *)
Definition calculate_display_size (w h tw th : Z) : result (Z * Z) :=
  let? ar := Py.int_truediv w h in
  let? ratio := Py.int_truediv tw th in
  if (ar <? ratio)%float then
    let? x := Py.int_mul_float th ar in
    let? dw := Py.float_to_int x in
    Ok (dw, th)
  else
    let? y := Py.int_div_float tw ar in
    let? dh := Py.float_to_int y in
    Ok (tw, dh).

(** [self.total_frames / y] *)
Definition frames_div_float (total : frames) (y : float) : result float :=
  match total with
  | Fin n => Py.int_div_float n y
  | Inf => Py.float_truediv infinity y
  end.

(** [update_status_bar(status_text)] *)
Definition update_status_bar (status_text : string) : M unit :=
  st <- get;;
  if duration_known st then
    x <- lift (Py.int_div_float (current_frame_num st) (video_fps st));;
    current_time <- lift (format_time x);;
    y <- lift (frames_div_float (total_frames st) (video_fps st));;
    total_time <- lift (format_time y);;
    modify (set_status_var
              (status_text ++ " | " ++ current_time ++ " / " ++ total_time)%string)
  else
    x <- lift (Py.int_div_float (current_frame_num st) (video_fps st));;
    current_time <- lift (format_time x);;
    modify (set_status_var (status_text ++ " | " ++ current_time ++ " / ??:??")%string).

(** The mode dispatch of [update_frame_display]: the arrays after it and
    the one that [combined_frame] names. *)
Definition compose (st : VideoComparer) (mem : arrays) : result (arrays * array_ref) :=
  let h := display_height st in
  let w := display_width st in
  match comparison_mode_var st with
  | side_by_side =>
      let copy :=
        fresh (paste_columns w (split_pos st)
                 (data (frame1_bgr mem)) (data (frame2_bgr mem))) in
      let? lined :=
        cv2_line cv2 (h, w) copy (split_pos st, 0) (split_pos st, h) (0, 255, 0) 2 in
      Ok (array_bind mem new_ref (fresh lined), new_ref)
  | overlay =>
      let? alpha := Py.int_truediv (split_pos st) w in
      let? blended :=
        cv2_addWeighted cv2 (data (frame1_bgr mem)) (1 - alpha)%float
                        (data (frame2_bgr mem)) alpha 0%float in
      Ok (array_bind mem new_ref (fresh blended), new_ref)
  | difference =>
      let? diff := cv2_absdiff cv2 (data (frame1_bgr mem)) (data (frame2_bgr mem)) in
      let? gray := cv2_cvtColor cv2 diff COLOR_BGR2GRAY in
      let? bgr := cv2_cvtColor cv2 gray COLOR_GRAY2BGR in
      Ok (array_bind mem new_ref (fresh bgr), new_ref)
  | toggle =>
      let? half := Py.int_truediv w 2 in
      Ok (mem, if Py.int_lt_float (split_pos st) half then frame1_ref else frame2_ref)
  end.

(** [_add_video_labels(frame)]: four [putText] calls on the array passed. *)
Definition _add_video_labels (st : VideoComparer) (mem : arrays) (frame_ref : array_ref)
  : result arrays :=
  let shape := (display_height st, display_width st) in
  let scale := 0x1.6666666666666p-1%float in
  let color := (255, 255, 255) in
  let thickness := 1 in
  let shadow := (0, 0, 0) in
  let? mem := draw mem frame_ref (fun img =>
    cv2_putText cv2 shape img (video_name1 st) (11, 31) scale shadow (thickness + 1)) in
  let? mem := draw mem frame_ref (fun img =>
    cv2_putText cv2 shape img (video_name1 st) (10, 30) scale color thickness) in
  let w := cv2_getTextSize cv2 (video_name2 st) scale thickness in
  let x := display_width st - w - 10 in
  let? mem := draw mem frame_ref (fun img =>
    cv2_putText cv2 shape img (video_name2 st) (x + 1, 31) scale shadow (thickness + 1)) in
  draw mem frame_ref (fun img =>
    cv2_putText cv2 shape img (video_name2 st) (x, 30) scale color thickness).

(** [update_frame_display] up to the labelled [combined_frame]. *)
Definition composite (st : VideoComparer) (raw_frame1 raw_frame2 : frame)
  : result (arrays * array_ref) :=
  let? frame1 := reshape raw_frame1 (display_height st) (display_width st) in
  let? frame2 := reshape raw_frame2 (display_height st) (display_width st) in
  let? composed :=
    compose st {| frame1_bgr := frame1; frame2_bgr := frame2; new_array := fresh [] |} in
  let? mem := _add_video_labels st (fst composed) (snd composed) in
  Ok (mem, snd composed).

(** [update_frame_display(raw_frame1, raw_frame2)] *)
Definition update_frame_display (raw_frame1 raw_frame2 : frame) : M unit :=
  st <- get;;
  labelled <- lift (composite st raw_frame1 raw_frame2);;
  img <- lift (cv2_cvtColor cv2 (data (array_at (fst labelled) (snd labelled)))
                            COLOR_BGR2RGB);;
  modify (set_video_label_image (Some img)).

(** [sp.check_output(command, ...)] and [sp.Popen(command, ...)] *)
Definition run_check_output (c : command) : M frame :=
  modify (fun st => set_requests (requests st ++ [c]) st);;
  match check_output sp c with
  | Some raw => ret raw
  | None => raise CalledProcessError
  end.

Definition run_Popen (c : command) : M command :=
  modify (fun st => set_requests (requests st ++ [c]) st);;
  if Popen sp c then ret c else raise OSError.

(** [display_single_frame(frame_number)] *)
Definition display_single_frame (frame_number : Z) : M unit :=
  st <- get;;
  if negb (truthy (video_path1 st)) || negb (truthy (video_path2 st)) then ret tt
  else if duration_known st
          && negb ((0 <=? frame_number) && lt_frames frame_number (total_frames st))
  then ret tt
  else
    time_offset1 <- lift (Py.int_div_float frame_number (fps1 st));;
    time_offset2 <- lift (Py.int_div_float (frame_number + video2_offset st) (fps2 st));;
    let frame_size := display_width st * display_height st * 3 in
    let command1 :=
      {| executable := ffmpeg_path st; ss := time_offset1;
         input := path_of (video_path1 st);
         scale := (display_width st, display_height st); vframes := Some 1 |} in
    let command2 :=
      {| executable := ffmpeg_path st; ss := time_offset2;
         input := path_of (video_path2 st);
         scale := (display_width st, display_height st); vframes := Some 1 |} in
    try_except
      (raw_frame1 <- run_check_output command1;;
       raw_frame2 <- run_check_output command2;;
       when ((Z.of_nat (List.length raw_frame1) =? frame_size)
             && (Z.of_nat (List.length raw_frame2) =? frame_size))
            (update_frame_display raw_frame1 raw_frame2))
      (exn_eqb CalledProcessError)
      (fun _ => update_status_bar ("Error seeking to frame " ++ str_int frame_number)%string).

(** [stop_ffmpeg_processes()] *)
Definition stop_ffmpeg_processes : M unit :=
  modify (set_ffmpeg_process1 None);;
  modify (set_ffmpeg_process2 None).

(** [start_ffmpeg_processes(frame_number)] *)
Definition start_ffmpeg_processes (frame_number : Z) : M unit :=
  stop_ffmpeg_processes;;
  st <- get;;
  time_offset1 <- lift (Py.int_div_float frame_number (fps1 st));;
  time_offset2 <- lift (Py.int_div_float (frame_number + video2_offset st) (fps2 st));;
  let command1 :=
    {| executable := ffmpeg_path st; ss := time_offset1;
       input := path_of (video_path1 st);
       scale := (display_width st, display_height st); vframes := None |} in
  let command2 :=
    {| executable := ffmpeg_path st; ss := time_offset2;
       input := path_of (video_path2 st);
       scale := (display_width st, display_height st); vframes := None |} in
  try_except
    (p1 <- run_Popen command1;;
     modify (set_ffmpeg_process1 (Some p1));;
     p2 <- run_Popen command2;;
     modify (set_ffmpeg_process2 (Some p2)))
    (fun _ => true)
    (fun _ => showerror "FFmpeg Error";; modify (set_is_playing false)).

(** [toggle_play_pause()]; the thread it starts runs
    [video_playback_loop]. *)
Definition toggle_play_pause : M unit :=
  st <- get;;
  if tk_state_eqb (play_pause_btn_state st) DISABLED then ret tt
  else
    modify (set_is_playing (negb (is_playing st)));;
    if negb (is_playing st) then
      modify (set_play_pause_btn_text "Pause");;
      update_status_bar "Playing";;
      start_ffmpeg_processes (current_frame_num st)
    else
      modify (set_play_pause_btn_text "Play");;
      update_status_bar "Paused";;
      stop_ffmpeg_processes.

(** [handle_playback_end(message)] *)
Definition handle_playback_end (message : string) : M unit :=
  modify (set_is_playing false);;
  st <- get;;
  when (negb (duration_known st))
       (modify (set_total_frames (Fin (current_frame_num st)));;
        modify (set_duration_known true);;
        after SeekBarToTotal);;
  after PlayPauseBtnPlay;;
  after (UpdateStatusBar message).

(** What one pass of the playback loop meets outside the thread: whether
    another thread has cleared [is_playing] since the previous pass,
    whether each process has exited ([poll()] is not [None]), and the
    bytes each [stdout.read(frame_size)] returns. *)
Record tick : Type := {
  cleared : bool;
  exited1 : bool;
  exited2 : bool;
  read1 : frame;
  read2 : frame
}.

Definition max_errors : Z := 10.

(** [time.sleep(secs)]: CPython converts the duration to nanoseconds in
    a signed 64-bit count.  A NaN is a [ValueError], a duration outside
    that range (an infinity, or more than about 9.2e9 seconds) an
    [OverflowError], a negative one in range a [ValueError]; otherwise
    the thread resumes. *)
Definition time_sleep (secs : float) : result unit :=
  if is_nan secs then Raise ValueError
  else
    let ns := (secs * 1000000000)%float in
    if (ns <? -0x1p63)%float || (0x1p63 <=? ns)%float then Raise OverflowError
    else if (secs <? 0)%float then Raise ValueError
    else Ok tt.

(** The test on the two reads: an empty or short buffer on either side. *)
Definition bad_read (frame_size : Z) (raw_frame1 raw_frame2 : frame) : bool :=
  match raw_frame1 with [] => true | _ => false end
  || match raw_frame2 with [] => true | _ => false end
  || negb (Z.of_nat (List.length raw_frame1) =? frame_size)
  || negb (Z.of_nat (List.length raw_frame2) =? frame_size).

(** One pass of [while True:] in [video_playback_loop]: [Some n] goes
    round again with [consecutive_errors = n], [None] is [break]. *)
Definition playback_pass (consecutive_errors : Z) (t : tick) : M (option Z) :=
  when (cleared t) (modify (set_is_playing false));;
  st <- get;;
  let frame_size := display_width st * display_height st * 3 in
  if negb (is_playing st) then ret None
  else
    match ffmpeg_process1 st with
    | None => raise AttributeError
    | Some _ =>
        if exited1 t then handle_playback_end "Video stream ended";; ret None
        else
          match ffmpeg_process2 st with
          | None => raise AttributeError
          | Some _ =>
              if exited2 t then handle_playback_end "Video stream ended";; ret None
              else if ge_frames_minus_1 (current_frame_num st) (total_frames st)
              then handle_playback_end "Finished";; ret None
              else
                let raw_frame1 := read1 t in
                let raw_frame2 := read2 t in
                if bad_read frame_size raw_frame1 raw_frame2 then
                  let consecutive_errors := consecutive_errors + 1 in
                  if max_errors <=? consecutive_errors then
                    handle_playback_end "Error: Playback stopped";; ret None
                  else ret (Some consecutive_errors)
                else
                  modify (set_current_frame_num (current_frame_num st + 1));;
                  when (duration_known st) (after (SeekBarSet (current_frame_num st + 1)));;
                  after (UpdateFrameDisplay raw_frame1 raw_frame2);;
                  after (UpdateStatusBar "Playing");;
                  secs <- lift (Py.float_truediv 1 (video_fps st));;
                  lift (time_sleep secs);;
                  ret (Some 0)
          end
    end.

(** How a run of the loop over finitely many passes stands: it left the
    loop, or it is about to start another pass. *)
Inductive loop_status : Type :=
| Left
| Looping (consecutive_errors : Z).

Fixpoint playback_passes (consecutive_errors : Z) (ticks : list tick) : M loop_status :=
  match ticks with
  | [] => ret (Looping consecutive_errors)
  | t :: rest =>
      next <- playback_pass consecutive_errors t;;
      match next with
      | Some n => playback_passes n rest
      | None => ret Left
      end
  end.

(** [video_playback_loop()] *)
Definition video_playback_loop (ticks : list tick) : M loop_status :=
  playback_passes 0 ticks.

(** The argument Tk or the program passes to [seek_video]. *)
Inductive scale_value : Type :=
| StrValue (s : string)
| IntValue (n : Z)
| FloatValue (x : float).

(** [float(value)] *)
Definition float_of_value (value : scale_value) : result float :=
  match value with
  | StrValue s => float_of_str py_float s
  | IntValue n => Py.int_to_float n
  | FloatValue x => Ok x
  end.

(** [seek_video(value)] *)
Definition seek_video (value : scale_value) : M unit :=
  st <- get;;
  if tk_state_eqb (seek_bar_state st) DISABLED then ret tt
  else
    x <- lift (float_of_value value);;
    n <- lift (Py.float_to_int x);;
    modify (set_current_frame_num n);;
    (if is_playing st then start_ffmpeg_processes n else display_single_frame n);;
    update_status_bar "Seek".

(** [step_frame(direction)] *)
Definition step_frame (direction : Z) : M unit :=
  st <- get;;
  if is_playing st || tk_state_eqb (play_pause_btn_state st) DISABLED then ret tt
  else if tk_state_eqb (seek_bar_state st) DISABLED && (direction <? 0) then ret tt
  else
    let new_frame := current_frame_num st + direction in
    when ((0 <=? new_frame) && lt_frames new_frame (total_frames st))
         (modify (set_current_frame_num new_frame);;
          when (duration_known st) (modify (set_seek_bar_value new_frame));;
          display_single_frame new_frame;;
          update_status_bar "Stepped").

(** [seek_to_start()] and [seek_to_end()] *)
Definition seek_to_start : M unit :=
  st <- get;;
  if tk_state_eqb (seek_bar_state st) DISABLED then ret tt
  else seek_video (IntValue 0).

Definition seek_to_end : M unit :=
  st <- get;;
  if tk_state_eqb (seek_bar_state st) DISABLED then ret tt
  else
    seek_video match total_frames st with
               | Fin n => IntValue (n - 1)
               | Inf => FloatValue infinity
               end.



(** [_adjust_offset(amount)] *)
Definition _adjust_offset (amount : Z) : M unit :=
  st <- get;;
  if negb (truthy (video_path1 st)) then ret tt
  else
    modify (set_video2_offset (video2_offset st + amount));;
    modify (set_offset_var (str_int (video2_offset st + amount)));;
    when (negb (is_playing st)) (display_single_frame (current_frame_num st)).

(** [_validate_offset_input()], the write trace of [offset_var]. *)
Definition _validate_offset_input : M unit :=
  st <- get;;
  if negb (truthy (video_path1 st)) then ret tt
  else
    try_except
      (n <- lift (int_of_str py_int (offset_var st));;
       modify (set_video2_offset n);;
       when (negb (is_playing st)) (display_single_frame (current_frame_num st)))
      (fun e => exn_eqb e ValueError || exn_eqb e TypeError)
      (fun _ => ret tt).

(** [handle_resize()] *)
Definition handle_resize : M unit :=
  st <- get;;
  if negb (truthy (video_path1 st)) || negb (truthy (video_path2 st)) then ret tt
  else
    let canvas_width := main_frame_width (winfo st) in
    let canvas_height := main_frame_height (winfo st) in
    let canvas_height :=
      if negb (is_fullscreen st)
      then canvas_height
           - (controls_frame_height (winfo st) + status_bar_height (winfo st) + 20)
      else canvas_height in
    new_size <-
      (if is_fullscreen st then ret (canvas_width, canvas_height)
       else
         ar1 <- lift (Py.int_truediv (width (video_info1 st)) (height (video_info1 st)));;
         ar2 <- lift (Py.int_truediv (width (video_info2 st)) (height (video_info2 st)));;
         let source := if (ar2 <=? ar1)%float then video_info1 st else video_info2 st in
         lift (calculate_display_size (width source) (height source)
                                      canvas_width canvas_height));;
    let new_display_width := fst new_size in
    let new_display_height := snd new_size in
    when ((1 <? Z.abs (new_display_width - display_width st))
          || (1 <? Z.abs (new_display_height - display_height st)))
         (modify (set_display_width new_display_width);;
          modify (set_display_height new_display_height);;
          modify (set_split_pos (new_display_width / 2));;
          when (is_playing st) (modify (set_is_playing false));;
          after (RestartAfterResize (is_playing st))).

(** [_restart_after_resize(was_playing)]; the thread it starts runs
    [video_playback_loop]. *)
Definition _restart_after_resize (was_playing : bool) : M unit :=
  st <- get;;
  if was_playing then
    modify (set_is_playing true);;
    start_ffmpeg_processes (current_frame_num st)
  else display_single_frame (current_frame_num st).

(** [float(info.get('duration', 0))] *)
Definition duration_seconds (info : video_info) : result float :=
  match duration info with
  | Some s => float_of_str py_float s
  | None => Py.int_to_float 0
  end.

(** [info.get('avg_frame_rate', '30/1')] *)
Definition rate_string (info : video_info) : string :=
  match avg_frame_rate info with
  | Some s => s
  | None => "30/1"%string
  end.

(** [int(fps * float(info.get('duration', 0)))]: the locals [fc1], [fc2]
    of [initialize_playback]. *)
Definition frame_count (fps : float) (info : video_info) : result Z :=
  let? d := duration_seconds info in Py.float_to_int (fps * d)%float.

(** The [try] block of [initialize_playback]. *)
Definition initialize_playback_try : M unit :=
  st <- get;;
  f1 <- lift (parse_frame_rate py_float (rate_string (video_info1 st)));;
  modify (set_fps1 f1);;
  f2 <- lift (parse_frame_rate py_float (rate_string (video_info2 st)));;
  modify (set_fps2 f2);;
  v <- lift (Py.float_truediv (f1 + f2)%float 2%float);;
  modify (set_video_fps v);;
  fc1 <- lift (frame_count f1 (video_info1 st));;
  fc2 <- lift (frame_count f2 (video_info2 st));;
  modify (set_total_frames
            (Fin (if (0 <? fc1) && (0 <? fc2) then Z.min fc1 fc2 else 0)));;
  handle_resize.

(** What follows the [try] block when it did not raise. *)
Definition initialize_playback_rest : M unit :=
  st <- get;;
  (if match total_frames st with Fin n => n <=? 0 | Inf => false end then
     modify (set_duration_known false);;
     modify (set_total_frames Inf);;
     modify (set_seek_bar_state DISABLED)
   else
     modify (set_duration_known true);;
     modify (set_seek_bar_to match total_frames st with
                             | Fin n => Fin (n - 1)
                             | Inf => Inf
                             end);;
     modify (set_seek_bar_state NORMAL));;
  modify (set_current_frame_num 0);;
  known <- (st' <- get;; ret (duration_known st'));;
  when known (modify (set_seek_bar_value 0));;
  modify (set_play_pause_btn_state NORMAL);;
  modify (set_prev_frame_btn_state NORMAL);;
  modify (set_next_frame_btn_state NORMAL);;
  modify (set_snapshot_btn_state NORMAL);;
  modify (set_video2_offset 0);;
  modify (set_offset_var "0");;
  update_status_bar "Ready";;
  display_single_frame 0.

(** [initialize_playback()] *)
Definition initialize_playback : M unit :=
  completed <- try_except (initialize_playback_try;; ret true)
                          (fun _ => true)
                          (fun _ => showerror "Initialization Error";; ret false);;
  if completed then initialize_playback_rest else ret tt.

(** A queued call, run by the Tk main loop. *)
Definition run_callback (cb : callback) : M unit :=
  match cb with
  | SeekBarSet value => modify (set_seek_bar_value value)
  | UpdateFrameDisplay raw_frame1 raw_frame2 => update_frame_display raw_frame1 raw_frame2
  | UpdateStatusBar status_text => update_status_bar status_text
  | SeekBarToTotal =>
      st <- get;;
      modify (set_seek_bar_to (total_frames st));;
      modify (set_seek_bar_state NORMAL)
  | PlayPauseBtnPlay => modify (set_play_pause_btn_text "Play")
  | RestartAfterResize was_playing => _restart_after_resize was_playing
  end.

(** The main loop runs the queued calls in order; an exception in one
    is reported and the next one runs. *)
Fixpoint run_callbacks (cbs : list callback) : M unit :=
  match cbs with
  | [] => ret tt
  | cb :: rest =>
      try_except (run_callback cb) (fun _ => true) (fun _ => ret tt);;
      run_callbacks rest
  end.

Definition mainloop : M unit :=
  st <- get;;
  modify (set_after_queue []);;
  run_callbacks (after_queue st).

End Methods.

(* ================================================================= *)
(** * Loading, display modes and the window *)

(** The setters for the attributes that loading a file, the mode keys,
    the full-screen toggle and the window manager write. *)
Definition set_video_path1 (v : option string) (st : VideoComparer) : VideoComparer :=
  mkVideoComparer (ffmpeg_path st) v (video_path2 st) (video_info1 st)
    (video_info2 st) (video_name1 st) (video_name2 st) (ffmpeg_process1 st)
    (ffmpeg_process2 st) (is_playing st) (current_frame_num st)
    (total_frames st) (fps1 st) (fps2 st) (video_fps st) (video2_offset st)
    (display_width st) (display_height st) (split_pos st) (duration_known
    st) (is_fullscreen st) (comparison_mode_var st) (offset_var st)
    (status_var st) (seek_bar_state st) (seek_bar_to st) (seek_bar_value st)
    (play_pause_btn_state st) (play_pause_btn_text st) (prev_frame_btn_state
    st) (next_frame_btn_state st) (snapshot_btn_state st) (video_label_image
    st) (winfo st) (after_queue st) (errors_shown st) (requests st).

Definition set_video_path2 (v : option string) (st : VideoComparer) : VideoComparer :=
  mkVideoComparer (ffmpeg_path st) (video_path1 st) v (video_info1 st)
    (video_info2 st) (video_name1 st) (video_name2 st) (ffmpeg_process1 st)
    (ffmpeg_process2 st) (is_playing st) (current_frame_num st)
    (total_frames st) (fps1 st) (fps2 st) (video_fps st) (video2_offset st)
    (display_width st) (display_height st) (split_pos st) (duration_known
    st) (is_fullscreen st) (comparison_mode_var st) (offset_var st)
    (status_var st) (seek_bar_state st) (seek_bar_to st) (seek_bar_value st)
    (play_pause_btn_state st) (play_pause_btn_text st) (prev_frame_btn_state
    st) (next_frame_btn_state st) (snapshot_btn_state st) (video_label_image
    st) (winfo st) (after_queue st) (errors_shown st) (requests st).

Definition set_video_info1 (v : video_info) (st : VideoComparer) : VideoComparer :=
  mkVideoComparer (ffmpeg_path st) (video_path1 st) (video_path2 st) v
    (video_info2 st) (video_name1 st) (video_name2 st) (ffmpeg_process1 st)
    (ffmpeg_process2 st) (is_playing st) (current_frame_num st)
    (total_frames st) (fps1 st) (fps2 st) (video_fps st) (video2_offset st)
    (display_width st) (display_height st) (split_pos st) (duration_known
    st) (is_fullscreen st) (comparison_mode_var st) (offset_var st)
    (status_var st) (seek_bar_state st) (seek_bar_to st) (seek_bar_value st)
    (play_pause_btn_state st) (play_pause_btn_text st) (prev_frame_btn_state
    st) (next_frame_btn_state st) (snapshot_btn_state st) (video_label_image
    st) (winfo st) (after_queue st) (errors_shown st) (requests st).

Definition set_video_info2 (v : video_info) (st : VideoComparer) : VideoComparer :=
  mkVideoComparer (ffmpeg_path st) (video_path1 st) (video_path2 st)
    (video_info1 st) v (video_name1 st) (video_name2 st) (ffmpeg_process1
    st) (ffmpeg_process2 st) (is_playing st) (current_frame_num st)
    (total_frames st) (fps1 st) (fps2 st) (video_fps st) (video2_offset st)
    (display_width st) (display_height st) (split_pos st) (duration_known
    st) (is_fullscreen st) (comparison_mode_var st) (offset_var st)
    (status_var st) (seek_bar_state st) (seek_bar_to st) (seek_bar_value st)
    (play_pause_btn_state st) (play_pause_btn_text st) (prev_frame_btn_state
    st) (next_frame_btn_state st) (snapshot_btn_state st) (video_label_image
    st) (winfo st) (after_queue st) (errors_shown st) (requests st).

Definition set_video_name1 (v : string) (st : VideoComparer) : VideoComparer :=
  mkVideoComparer (ffmpeg_path st) (video_path1 st) (video_path2 st)
    (video_info1 st) (video_info2 st) v (video_name2 st) (ffmpeg_process1
    st) (ffmpeg_process2 st) (is_playing st) (current_frame_num st)
    (total_frames st) (fps1 st) (fps2 st) (video_fps st) (video2_offset st)
    (display_width st) (display_height st) (split_pos st) (duration_known
    st) (is_fullscreen st) (comparison_mode_var st) (offset_var st)
    (status_var st) (seek_bar_state st) (seek_bar_to st) (seek_bar_value st)
    (play_pause_btn_state st) (play_pause_btn_text st) (prev_frame_btn_state
    st) (next_frame_btn_state st) (snapshot_btn_state st) (video_label_image
    st) (winfo st) (after_queue st) (errors_shown st) (requests st).

Definition set_video_name2 (v : string) (st : VideoComparer) : VideoComparer :=
  mkVideoComparer (ffmpeg_path st) (video_path1 st) (video_path2 st)
    (video_info1 st) (video_info2 st) (video_name1 st) v (ffmpeg_process1
    st) (ffmpeg_process2 st) (is_playing st) (current_frame_num st)
    (total_frames st) (fps1 st) (fps2 st) (video_fps st) (video2_offset st)
    (display_width st) (display_height st) (split_pos st) (duration_known
    st) (is_fullscreen st) (comparison_mode_var st) (offset_var st)
    (status_var st) (seek_bar_state st) (seek_bar_to st) (seek_bar_value st)
    (play_pause_btn_state st) (play_pause_btn_text st) (prev_frame_btn_state
    st) (next_frame_btn_state st) (snapshot_btn_state st) (video_label_image
    st) (winfo st) (after_queue st) (errors_shown st) (requests st).

Definition set_is_fullscreen (v : bool) (st : VideoComparer) : VideoComparer :=
  mkVideoComparer (ffmpeg_path st) (video_path1 st) (video_path2 st)
    (video_info1 st) (video_info2 st) (video_name1 st) (video_name2 st)
    (ffmpeg_process1 st) (ffmpeg_process2 st) (is_playing st)
    (current_frame_num st) (total_frames st) (fps1 st) (fps2 st) (video_fps
    st) (video2_offset st) (display_width st) (display_height st) (split_pos
    st) (duration_known st) v (comparison_mode_var st) (offset_var st)
    (status_var st) (seek_bar_state st) (seek_bar_to st) (seek_bar_value st)
    (play_pause_btn_state st) (play_pause_btn_text st) (prev_frame_btn_state
    st) (next_frame_btn_state st) (snapshot_btn_state st) (video_label_image
    st) (winfo st) (after_queue st) (errors_shown st) (requests st).

Definition set_comparison_mode_var (v : comparison_mode) (st : VideoComparer) : VideoComparer :=
  mkVideoComparer (ffmpeg_path st) (video_path1 st) (video_path2 st)
    (video_info1 st) (video_info2 st) (video_name1 st) (video_name2 st)
    (ffmpeg_process1 st) (ffmpeg_process2 st) (is_playing st)
    (current_frame_num st) (total_frames st) (fps1 st) (fps2 st) (video_fps
    st) (video2_offset st) (display_width st) (display_height st) (split_pos
    st) (duration_known st) (is_fullscreen st) v (offset_var st) (status_var
    st) (seek_bar_state st) (seek_bar_to st) (seek_bar_value st)
    (play_pause_btn_state st) (play_pause_btn_text st) (prev_frame_btn_state
    st) (next_frame_btn_state st) (snapshot_btn_state st) (video_label_image
    st) (winfo st) (after_queue st) (errors_shown st) (requests st).

Definition set_winfo (v : geometry) (st : VideoComparer) : VideoComparer :=
  mkVideoComparer (ffmpeg_path st) (video_path1 st) (video_path2 st)
    (video_info1 st) (video_info2 st) (video_name1 st) (video_name2 st)
    (ffmpeg_process1 st) (ffmpeg_process2 st) (is_playing st)
    (current_frame_num st) (total_frames st) (fps1 st) (fps2 st) (video_fps
    st) (video2_offset st) (display_width st) (display_height st) (split_pos
    st) (duration_known st) (is_fullscreen st) (comparison_mode_var st)
    (offset_var st) (status_var st) (seek_bar_state st) (seek_bar_to st)
    (seek_bar_value st) (play_pause_btn_state st) (play_pause_btn_text st)
    (prev_frame_btn_state st) (next_frame_btn_state st) (snapshot_btn_state
    st) (video_label_image st) v (after_queue st) (errors_shown st)
    (requests st).

(** One entry of ffprobe's [streams] list, by the keys [load_video] and
    [initialize_playback] read. *)
Record stream : Type := {
  codec_type : option string;
  stream_width : option Z;
  stream_height : option Z;
  stream_avg_frame_rate : option string;
  stream_duration : option string
}.

(** What the [try] block of [load_video] gets from running ffprobe and
    decoding its output: the [streams] list, which every document that
    ffprobe prints on success has, or one of the exceptions its [except]
    clause names. *)
Inductive probe : Type :=
| Streams (all_streams : list stream)
| ProbeError.

(** [s.get('codec_type') == 'video'] *)
Definition is_video (s : stream) : bool :=
  match codec_type s with
  | Some kind => String.eqb kind "video"
  | None => false
  end.

(** [next((s for s in all_streams if ...), None)] *)
Definition first_video (all_streams : list stream) : option stream :=
  find is_video all_streams.

(** [file_path.split('/')[-1]] *)
Definition basename (file_path : string) : string :=
  last (str_split "/"%char file_path) EmptyString.

Section Loading.

Variable py_float : string -> option float.
Variable cv2 : Cv2.
Variable sp : Subprocess.

(** [ffprobe] on a path. *)
Variable ffprobe : string -> probe.

(** [load_video(video_num)], given what the file dialog returned (the
    empty string when it was cancelled).  The [nb_read_frames] entry it
    adds to the stream is never read and is left out. *)
Definition load_video (video_num : Z) (file_path : string) : M unit :=
  update_status_bar ("Opening file dialog for Video " ++ str_int video_num ++ "...")%string;;
  match file_path with
  | EmptyString => update_status_bar "File selection cancelled."
  | _ =>
      update_status_bar ("Analyzing video: " ++ basename file_path ++ "...")%string;;
      let filename := basename file_path in
      match ffprobe file_path with
      | ProbeError => showerror "FFprobe Error"
      | Streams all_streams =>
          match first_video all_streams with
          | None => showerror "Stream Error"
          | Some video_stream =>
              match stream_width video_stream, stream_height video_stream with
              | Some w, Some h =>
                  let info :=
                    {| width := w; height := h;
                       avg_frame_rate := stream_avg_frame_rate video_stream;
                       duration := stream_duration video_stream |} in
                  (if video_num =? 1 then
                     modify (set_video_path1 (Some file_path));;
                     modify (set_video_info1 info);;
                     modify (set_video_name1 filename);;
                     update_status_bar "Video 1 loaded. Please load Video 2."
                   else
                     modify (set_video_path2 (Some file_path));;
                     modify (set_video_info2 info);;
                     modify (set_video_name2 filename);;
                     update_status_bar "Video 2 loaded. Ready to play.");;
                  st <- get;;
                  when (truthy (video_path1 st) && truthy (video_path2 st))
                       (initialize_playback py_float cv2 sp)
              | _, _ => showerror "Stream Error"
              end
          end
      end
  end.

(** [_on_comparison_mode_change()] *)
Definition _on_comparison_mode_change : M unit :=
  st <- get;;
  when (negb (is_playing st) && truthy (video_path1 st) && truthy (video_path2 st))
       (display_single_frame cv2 sp (current_frame_num st)).

(** The mode keys: [comparison_mode_var.set(mode) or
    _on_comparison_mode_change()]. *)
Definition select_mode (mode : comparison_mode) : M unit :=
  modify (set_comparison_mode_var mode);;
  _on_comparison_mode_change.

(** [toggle_fullscreen()] and [exit_fullscreen()].  Switching the
    window attribute and showing or hiding the control rows is Tk's
    work: [window] is the geometry it reports once that is done, which
    is what [handle_resize] then reads. *)
Definition toggle_fullscreen (window : geometry) : M unit :=
  st <- get;;
  modify (set_is_fullscreen (negb (is_fullscreen st)));;
  modify (set_winfo window);;
  handle_resize.

Definition exit_fullscreen (window : geometry) : M unit :=
  st <- get;;
  when (is_fullscreen st)
       (modify (set_is_fullscreen false);;
        modify (set_winfo window);;
        handle_resize).

(** [on_closing()] up to [self.destroy()]. *)
Definition on_closing : M unit :=
  modify (set_is_playing false);;
  stop_ffmpeg_processes.

End Loading.

(* ================================================================= *)
(** * The initial state *)

(** [VideoComparer.__init__]: the attributes before any video is loaded. *)
Definition init (path : string) (window : geometry) : VideoComparer := {|
  ffmpeg_path := path;
  video_path1 := None;
  video_path2 := None;
  video_info1 := {| width := 0; height := 0; avg_frame_rate := None; duration := None |};
  video_info2 := {| width := 0; height := 0; avg_frame_rate := None; duration := None |};
  video_name1 := "";
  video_name2 := "";
  ffmpeg_process1 := None;
  ffmpeg_process2 := None;
  is_playing := false;
  current_frame_num := 0;
  total_frames := Fin 0;
  fps1 := 30;
  fps2 := 30;
  video_fps := 30;
  video2_offset := 0;
  display_width := 1200;
  display_height := 675;
  split_pos := 1200 / 2;
  duration_known := true;
  is_fullscreen := false;
  comparison_mode_var := side_by_side;
  offset_var := "0";
  status_var := "Ready. Please load two videos.";
  seek_bar_state := NORMAL;
  seek_bar_to := Fin 100;
  seek_bar_value := 0;
  play_pause_btn_state := DISABLED;
  play_pause_btn_text := "Play";
  prev_frame_btn_state := DISABLED;
  next_frame_btn_state := DISABLED;
  snapshot_btn_state := DISABLED;
  video_label_image := None;
  winfo := window;
  after_queue := [];
  errors_shown := [];
  requests := []
|}.


(* ================================================================= *)
(** * A concrete world for the examples *)

Module Example.

(** Plain decimal literals, for which [float(s)] and [int(s)] are the
    correctly rounded value of [[+-]digits[.digits]] and the value of
    [[+-]digits]. *)
Definition digit_value (c : ascii) : option Z :=
  let n := Z.of_nat (nat_of_ascii c) in
  if (48 <=? n) && (n <=? 57) then Some (n - 48) else None.

Fixpoint digits_value (s : string) (acc : Z) : option Z :=
  match s with
  | EmptyString => Some acc
  | String c rest =>
      match digit_value c with
      | Some d => digits_value rest (10 * acc + d)
      | None => None
      end
  end.

Definition unsigned (s : string) : string * bool :=
  match s with
  | String "-"%char rest => (rest, true)
  | String "+"%char rest => (rest, false)
  | _ => (s, false)
  end.

Definition read_int (s : string) : option Z :=
  let '(body, negative) := unsigned s in
  match body with
  | EmptyString => None
  | _ =>
      match digits_value body 0 with
      | Some n => Some (if negative then - n else n)
      | None => None
      end
  end.

Definition read_float (s : string) : option float :=
  let '(body, negative) := unsigned s in
  let parts :=
    match str_split "."%char body with
    | [whole] => Some (whole, EmptyString)
    | [whole; fraction] => Some (whole, fraction)
    | _ => None
    end in
  match parts with
  | Some (whole, fraction) =>
      match (whole ++ fraction)%string, digits_value (whole ++ fraction) 0 with
      | String _ _, Some n =>
          match Py.int_truediv n (10 ^ Z.of_nat (String.length fraction)) with
          | Ok x => Some (if negative then - x else x)%float
          | Raise _ => None
          end
      | _, _ => None
      end
  | None => None
  end.

(** Two stand-ins for OpenCV whose drawing calls paint single pixels: the
    origin of a non-empty text, the first point of a line.  [dot_cv2]
    writes whatever array it is given; [checking_cv2] refuses an output
    array that is read-only, as the bindings that check the flag do. *)
Definition byte_of_Z (n : Z) : byte :=
  match Byte.of_N (Z.to_N n) with
  | Some b => b
  | None => x00
  end.

Definition paint (shape : Z * Z) (img : frame) (at_ : Z * Z) (c : colour) : frame :=
  let '(h, w) := shape in
  let '(x, y) := at_ in
  let '(b, g, r) := c in
  if (0 <=? x) && (x <? w) && (0 <=? y) && (y <? h) then
    let i := Z.to_nat ((y * w + x) * 3) in
    firstn i img ++ [byte_of_Z b; byte_of_Z g; byte_of_Z r] ++ skipn (i + 3) img
  else img.

Definition swap_channels (img : frame) : frame :=
  (fix go (fuel : nat) (l : frame) : frame :=
     match fuel, l with
     | S fuel', b :: g :: r :: rest => r :: g :: b :: go fuel' rest
     | _, _ => l
     end) (List.length img) img.

Definition dot_cv2 : Cv2 := {|
  cv2_line := fun shape img pt1 _ c _ => Ok (paint shape (data img) pt1 c);
  cv2_addWeighted := fun a _ _ _ _ => Ok a;
  cv2_absdiff := fun a _ => Ok a;
  cv2_cvtColor := fun img code =>
    match code with
    | COLOR_BGR2RGB => Ok (swap_channels img)
    | _ => Ok img
    end;
  cv2_putText := fun shape img text org _ c _ =>
    match text with
    | EmptyString => Ok (data img)
    | _ => Ok (paint shape (data img) org c)
    end;
  cv2_getTextSize := fun text _ _ => 14 * Z.of_nat (String.length text)
|}.

Definition checking_cv2 : Cv2 := {|
  cv2_line := fun shape img pt1 pt2 c thickness =>
    if writeable img then cv2_line dot_cv2 shape img pt1 pt2 c thickness
    else Raise Cv2Error;
  cv2_addWeighted := cv2_addWeighted dot_cv2;
  cv2_absdiff := cv2_absdiff dot_cv2;
  cv2_cvtColor := cv2_cvtColor dot_cv2;
  cv2_putText := fun shape img text org scale c thickness =>
    if writeable img then cv2_putText dot_cv2 shape img text org scale c thickness
    else Raise Cv2Error;
  cv2_getTextSize := cv2_getTextSize dot_cv2
|}.

(** An ffmpeg that decodes black frames of the requested size. *)
Definition black (c : command) : frame :=
  repeat x00 (Z.to_nat (fst (scale c) * snd (scale c) * 3)).

Definition black_ffmpeg : Subprocess := {|
  check_output := fun c => Some (black c);
  Popen := fun _ => true
|}.

Definition clip (w h : Z) (rate seconds : string) : video_info :=
  {| width := w; height := h;
     avg_frame_rate := Some rate; duration := Some seconds |}.

(** [VideoComparer.__init__] followed by two successful [load_video]
    calls, before [initialize_playback] runs. *)
Definition loaded (info1 info2 : video_info) : VideoComparer := {|
  ffmpeg_path := "ffmpeg.exe";
  video_path1 := Some "a.mp4"%string;
  video_path2 := Some "b.mp4"%string;
  video_info1 := info1;
  video_info2 := info2;
  video_name1 := "a.mp4";
  video_name2 := "b.mp4";
  ffmpeg_process1 := None;
  ffmpeg_process2 := None;
  is_playing := false;
  current_frame_num := 0;
  total_frames := Fin 0;
  fps1 := 30;
  fps2 := 30;
  video_fps := 30;
  video2_offset := 0;
  display_width := 1200;
  display_height := 675;
  split_pos := 1200 / 2;
  duration_known := true;
  is_fullscreen := false;
  comparison_mode_var := side_by_side;
  offset_var := "0";
  status_var := "Video 2 loaded. Ready to play.";
  seek_bar_state := NORMAL;
  seek_bar_to := Fin 100;
  seek_bar_value := 0;
  play_pause_btn_state := DISABLED;
  play_pause_btn_text := "Play";
  prev_frame_btn_state := DISABLED;
  next_frame_btn_state := DISABLED;
  snapshot_btn_state := DISABLED;
  video_label_image := None;
  winfo := {| main_frame_width := 32; main_frame_height := 149;
              controls_frame_height := 80; status_bar_height := 19 |};
  after_queue := [];
  errors_shown := [];
  requests := []
|}.

(** Two 16:9 clips at 30 fps, ten and five seconds long, and the same
    pair when ffprobe reports no stream durations. *)
Definition pair : VideoComparer :=
  loaded (clip 16 9 "30/1" "10.0") (clip 16 9 "30/1" "5.000000").

Definition pair_without_durations : VideoComparer :=
  loaded {| width := 16; height := 9; avg_frame_rate := Some "30/1"%string;
            duration := None |}
         {| width := 16; height := 9; avg_frame_rate := Some "30/1"%string;
            duration := None |}.

(** After [initialize_playback] and the main loop's pending calls. *)
Definition opened (st : VideoComparer) : VideoComparer :=
  state_after (mainloop dot_cv2 black_ffmpeg)
    (state_after (initialize_playback read_float dot_cv2 black_ffmpeg) st).

Definition ready : VideoComparer := opened pair.

(** The seek bar dragged to [value], then Play pressed. *)
Definition sought (value : string) (st : VideoComparer) : VideoComparer :=
  state_after (seek_video read_float dot_cv2 black_ffmpeg (StrValue value)) st.

Definition played (st : VideoComparer) : VideoComparer :=
  state_after (toggle_play_pause black_ffmpeg) st.

(** Passes of the loop: two full frames read, nothing read, and a first
    process found exited. *)
Definition good_tick (st : VideoComparer) : tick :=
  {| cleared := false; exited1 := false; exited2 := false;
     read1 := repeat x00 (Z.to_nat (display_width st * display_height st * 3));
     read2 := repeat x00 (Z.to_nat (display_width st * display_height st * 3)) |}.

Definition starved_tick : tick :=
  {| cleared := false; exited1 := false; exited2 := false;
     read1 := []; read2 := [] |}.

Definition exited_tick : tick :=
  {| cleared := false; exited1 := true; exited2 := false;
     read1 := []; read2 := [] |}.

(** A 64 by 36 output in toggle mode with the split at the left edge, a
    black frame from A and a white frame from B. *)
Definition toggling : VideoComparer := {|
  ffmpeg_path := "ffmpeg.exe";
  video_path1 := Some "a.mp4"%string;
  video_path2 := Some "b.mp4"%string;
  video_info1 := clip 16 9 "30/1" "10.0";
  video_info2 := clip 16 9 "30/1" "10.0";
  video_name1 := "a.mp4";
  video_name2 := "b.mp4";
  ffmpeg_process1 := None;
  ffmpeg_process2 := None;
  is_playing := false;
  current_frame_num := 0;
  total_frames := Fin 300;
  fps1 := 30;
  fps2 := 30;
  video_fps := 30;
  video2_offset := 0;
  display_width := 64;
  display_height := 36;
  split_pos := 0;
  duration_known := true;
  is_fullscreen := false;
  comparison_mode_var := toggle;
  offset_var := "0";
  status_var := "Ready | 00:00 / 00:10";
  seek_bar_state := NORMAL;
  seek_bar_to := Fin 299;
  seek_bar_value := 0;
  play_pause_btn_state := NORMAL;
  play_pause_btn_text := "Play";
  prev_frame_btn_state := NORMAL;
  next_frame_btn_state := NORMAL;
  snapshot_btn_state := NORMAL;
  video_label_image := None;
  winfo := {| main_frame_width := 64; main_frame_height := 155;
              controls_frame_height := 80; status_bar_height := 19 |};
  after_queue := [];
  errors_shown := [];
  requests := []
|}.

Definition black_frame : frame := repeat x00 (Z.to_nat (64 * 36 * 3)).
Definition white_frame : frame := repeat xff (Z.to_nat (64 * 36 * 3)).

End Example.

(* ================================================================= *)
(** * Further situations for the examples *)

Module Scenario.

Import Example.

(** An ffmpeg that cannot be run, and one that writes a single byte. *)
Definition failing_ffmpeg : Subprocess := {|
  check_output := fun _ => None;
  Popen := fun _ => false
|}.

Definition short_ffmpeg : Subprocess := {|
  check_output := fun _ => Some [x00];
  Popen := fun _ => true
|}.

(** ffprobe on a clip with an audio and a video stream, on a sound file
    and on anything else. *)
Definition audio : stream := {|
  codec_type := Some "audio"%string;
  stream_width := None;
  stream_height := None;
  stream_avg_frame_rate := Some "0/0"%string;
  stream_duration := Some "10.0"%string
|}.

Definition video : stream := {|
  codec_type := Some "video"%string;
  stream_width := Some 16;
  stream_height := Some 9;
  stream_avg_frame_rate := Some "30/1"%string;
  stream_duration := Some "10.0"%string
|}.

Definition probe_clips (file_path : string) : probe :=
  if String.eqb file_path "C:/clips/a.mp4" then Streams [audio; video]
  else if String.eqb file_path "C:/clips/song.mp3" then Streams [audio]
  else ProbeError.

(** The application as it starts, in a small window, and that window
    made twice as wide. *)
Definition small_window : geometry :=
  {| main_frame_width := 32; main_frame_height := 149;
     controls_frame_height := 80; status_bar_height := 19 |}.

Definition wide_window : geometry :=
  {| main_frame_width := 64; main_frame_height := 155;
     controls_frame_height := 80; status_bar_height := 19 |}.

Definition started_up : VideoComparer := init "ffmpeg.exe" small_window.

(** A window that leaves no height for the video, and a full screen. *)
Definition flat_window : geometry :=
  {| main_frame_width := 32; main_frame_height := 119;
     controls_frame_height := 80; status_bar_height := 19 |}.

Definition screen : geometry :=
  {| main_frame_width := 200; main_frame_height := 100;
     controls_frame_height := 0; status_bar_height := 0 |}.

(** The first video loaded from the clip. *)
Definition one_loaded : VideoComparer :=
  state_after (load_video read_float dot_cv2 black_ffmpeg probe_clips 1 "C:/clips/a.mp4")
              started_up.

(** Two loaded clips of which the first reports the rate [0/1], and two
    of which the first reports no usable duration. *)
Definition zero_rate : VideoComparer :=
  loaded (clip 16 9 "0/1" "10.0") (clip 16 9 "30/1" "10.0").

Definition bad_duration : VideoComparer :=
  loaded (clip 16 9 "30/1" "N/A") (clip 16 9 "30/1" "10.0").

(** Playback running on the ten- and five-second pair, and on the pair
    without durations. *)
Definition playing : VideoComparer := played ready.

Definition playing_unknown : VideoComparer := played (opened pair_without_durations).

(** The pair without durations after three frames of playback, with the
    queued calls run. *)
Definition watched : VideoComparer :=
  state_after (mainloop dot_cv2 black_ffmpeg)
    (state_after (video_playback_loop
                    [good_tick playing_unknown; good_tick playing_unknown;
                     good_tick playing_unknown])
                 playing_unknown).

(** A two by two output in side-by-side mode, split after the first
    column. *)
Definition thumbnail : VideoComparer :=
  set_split_pos 1
    (set_display_height 2
       (set_display_width 2 (set_comparison_mode_var side_by_side toggling))).

(** A pass in which another thread has cleared the flag. *)
Definition paused_tick : tick :=
  {| cleared := true; exited1 := false; exited2 := false; read1 := []; read2 := [] |}.

End Scenario.

(* ================================================================= *)
(** * Vocabulary of the properties *)

(** ** Frame conditions *)

(** [keeps f m]: running [m] leaves the observation [f] of the state as it
    was, whether [m] returns or raises. *)
Definition keeps {A B} (f : VideoComparer -> B) (m : M A) : Prop :=
  forall st, f (state_after m st) = f st.

(** [untouched f set]: the observation [f] does not read the attribute
    that [set] writes. *)
Definition untouched {B V} (f : VideoComparer -> B)
  (set : V -> VideoComparer -> VideoComparer) : Prop :=
  forall v st, f (set v st) = f st.

(** The attributes that redisplaying a frame may write. *)
Definition display_untouched {B} (f : VideoComparer -> B) : Prop :=
  untouched f set_status_var /\ untouched f set_video_label_image
  /\ untouched f set_requests.

(** The attributes that (re)starting the two streams may write. *)
Definition streams_untouched {B} (f : VideoComparer -> B) : Prop :=
  untouched f set_ffmpeg_process1 /\ untouched f set_ffmpeg_process2
  /\ untouched f set_requests /\ untouched f set_errors_shown
  /\ untouched f set_is_playing.

(** ** Observations of the state *)

Definition timeline (st : VideoComparer) : Z * frames * bool :=
  (current_frame_num st, total_frames st, duration_known st).

Definition timeline_length (st : VideoComparer) : frames * bool :=
  (total_frames st, duration_known st).


Definition streams_view (st : VideoComparer)
  : list command * option command * option command :=
  (requests st, ffmpeg_process1 st, ffmpeg_process2 st).

(** The byte count of one frame at the current geometry. *)
Definition frame_size (st : VideoComparer) : Z :=
  display_width st * display_height st * 3.

(** The frames a run of the loop handed to [update_frame_display]. *)
Definition frames_shown (st : VideoComparer) : list (frame * frame) :=
  flat_map (fun cb => match cb with
                      | UpdateFrameDisplay r1 r2 => [(r1, r2)]
                      | _ => []
                      end) (after_queue st).

(** ** Invariants *)

Definition frame_in_range (st : VideoComparer) : Prop :=
  0 <= current_frame_num st
  /\ lt_frames (current_frame_num st) (total_frames st) = true.


(** Whether [step_frame] gets past its guards and its range test. *)
Definition step_taken (direction : Z) (st : VideoComparer) : bool :=
  negb (is_playing st || tk_state_eqb (play_pause_btn_state st) DISABLED)
  && negb (tk_state_eqb (seek_bar_state st) DISABLED && (direction <? 0))
  && ((0 <=? current_frame_num st + direction)
      && lt_frames (current_frame_num st + direction) (total_frames st)).

(** ** The playback loop *)

(** The state [handle_playback_end] leaves, and the state the writes of
    a pass with two good reads leave. *)
Definition ended (message : string) (st : VideoComparer) : VideoComparer :=
  state_after (handle_playback_end message) st.

Definition advanced (raw_frame1 raw_frame2 : frame) (st : VideoComparer) : VideoComparer :=
  let n := current_frame_num st + 1 in
  set_after_queue
    (after_queue st
     ++ (if duration_known st then [SeekBarSet n] else [])
     ++ [UpdateFrameDisplay raw_frame1 raw_frame2; UpdateStatusBar "Playing"])
    (set_current_frame_num n st).

(** [time.sleep(1.0 / self.video_fps)] *)
Definition pace (st : VideoComparer) : result unit :=
  let? secs := Py.float_truediv 1 (video_fps st) in time_sleep secs.

(** Both processes exist and the flag is set: the loop is running. *)
Definition streaming (st : VideoComparer) : Prop :=
  is_playing st = true
  /\ ffmpeg_process1 st <> None /\ ffmpeg_process2 st <> None.

(** Nothing but the two reads happens in the pass: no other thread clears
    the flag and neither process has exited. *)
Definition quiet (t : tick) : Prop :=
  cleared t = false /\ exited1 t = false /\ exited2 t = false.

(** At least [n] frames lie after the current one. *)
Definition room (n : Z) (st : VideoComparer) : Prop :=
  match total_frames st with
  | Fin total => current_frame_num st + n < total
  | Inf => True
  end.

(** The count of consecutive bad reads after a run of reads of size
    [size], starting from [errs]. *)
Fixpoint streak (size errs : Z) (ticks : list tick) : Z :=
  match ticks with
  | [] => errs
  | t :: rest =>
      streak size (if bad_read size (read1 t) (read2 t) then errs + 1 else 0) rest
  end.

(** No point of the run has [max_errors] bad reads in a row. *)
Fixpoint tolerable (size errs : Z) (ticks : list tick) : bool :=
  match ticks with
  | [] => true
  | t :: rest =>
      let errs' := if bad_read size (read1 t) (read2 t) then errs + 1 else 0 in
      (errs' <? max_errors) && tolerable size errs' rest
  end.

(** What the loop relies on from one pass to the next. *)
Definition same_stream (st st' : VideoComparer) : Prop :=
  is_playing st' = is_playing st
  /\ ffmpeg_process1 st' = ffmpeg_process1 st
  /\ ffmpeg_process2 st' = ffmpeg_process2 st
  /\ frame_size st' = frame_size st
  /\ video_fps st' = video_fps st
  /\ total_frames st' = total_frames st
  /\ duration_known st' = duration_known st.

(** ** Fetching and geometry *)

(** The command either fetch path builds for one source. *)
Definition requested_at (st : VideoComparer) (source : option string) (time : float)
  (single : option Z) : command :=
  {| executable := ffmpeg_path st; ss := time; input := path_of source;
     scale := (display_width st, display_height st); vframes := single |}.

Definition is_some {A} (o : option A) : bool :=
  match o with
  | Some _ => true
  | None => false
  end.

(** The commands a fetch issues: the one for B follows when the one for A
    went through. *)
Definition issued (went_through : bool) (a b : command) : list command :=
  a :: (if went_through then [b] else []).

(** The length the [try] block of [initialize_playback] stores from the
    two counts. *)
Definition stored_length (fc1 fc2 : Z) : Z :=
  if (0 <? fc1) && (0 <? fc2) then Z.min fc1 fc2 else 0.

(** The fit rule in the specification's words: the area's ratio compared
    with [>=], the other side rounded. *)
Definition fit_as_specified (w h areaWidth areaHeight : Z) : result (Z * Z) :=
  let? sourceAspect := Py.int_truediv w h in
  let? areaAspect := Py.int_truediv areaWidth areaHeight in
  if (sourceAspect <=? areaAspect)%float then
    let? x := Py.int_mul_float areaHeight sourceAspect in
    let? outputWidth := Py.float_round x in
    Ok (outputWidth, areaHeight)
  else
    let? y := Py.int_div_float areaWidth sourceAspect in
    let? outputHeight := Py.float_round y in
    Ok (areaWidth, outputHeight).

(** The two views [update_frame_display] starts from. *)
Definition views (raw_frame1 raw_frame2 : frame) : arrays :=
  {| frame1_bgr := frombuffer raw_frame1; frame2_bgr := frombuffer raw_frame2;
     new_array := fresh [] |}.

(** The array toggle mode binds [combined_frame] to, given the float
    [display_width / 2], and the raw frame that array is a view of. *)
Definition toggle_choice (st : VideoComparer) (half : float) : array_ref :=
  if Py.int_lt_float (split_pos st) half then frame1_ref else frame2_ref.

Definition toggle_frame (st : VideoComparer) (half : float)
  (raw_frame1 raw_frame2 : frame) : frame :=
  if Py.int_lt_float (split_pos st) half then raw_frame1 else raw_frame2.

(** An array holding the bytes [v] after a drawing call. *)
Definition rewritten (img : ndarray) (v : frame) : ndarray :=
  {| data := v; writeable := writeable img |}.

(** The bytes an array holds after the four [putText] calls of
    [_add_video_labels]. *)
Definition labelled (cv2 : Cv2) (st : VideoComparer) (img : ndarray) : result frame :=
  let shape := (display_height st, display_width st) in
  let scale := 0x1.6666666666666p-1%float in
  let x := display_width st - cv2_getTextSize cv2 (video_name2 st) scale 1 - 10 in
  let? v1 := cv2_putText cv2 shape img (video_name1 st) (11, 31) scale (0, 0, 0) 2 in
  let? v2 := cv2_putText cv2 shape (rewritten img v1) (video_name1 st) (10, 30) scale
                         (255, 255, 255) 1 in
  let? v3 := cv2_putText cv2 shape (rewritten img v2) (video_name2 st) (x + 1, 31) scale
                         (0, 0, 0) 2 in
  cv2_putText cv2 shape (rewritten img v3) (video_name2 st) (x, 30) scale
              (255, 255, 255) 1.

(** A raw frame has the size of the current geometry. *)
Definition fits (st : VideoComparer) (raw : frame) : Prop :=
  0 <= display_height st /\ 0 <= display_width st
  /\ Z.of_nat (List.length raw) = display_height st * display_width st * 3.

(** ** Single-frame fetches *)

(** The status text after a failed fetch. *)
Definition fetch_error (frame_number : Z) : string :=
  ("Error seeking to frame " ++ str_int frame_number)%string.

(** [display_single_frame] gets past its two guards. *)
Definition fetchable (frame_number : Z) (st : VideoComparer) : bool :=
  truthy (video_path1 st) && truthy (video_path2 st)
  && negb (duration_known st
           && negb ((0 <=? frame_number) && lt_frames frame_number (total_frames st))).

(** Both buffers have the byte count of the current geometry. *)
Definition full_size (st : VideoComparer) (raw_frame1 raw_frame2 : frame) : bool :=
  (Z.of_nat (List.length raw_frame1) =? frame_size st)
  && (Z.of_nat (List.length raw_frame2) =? frame_size st).

(** ** Starting the streams *)

(** The state [start_ffmpeg_processes] leaves once it has built the two
    commands [a] and [b]: the handles of the processes that started, the
    commands run and, after a failure, the error box and the cleared
    flag. *)
Definition started (sp : Subprocess) (a b : command) (st : VideoComparer) : VideoComparer :=
  let ok1 := Popen sp a in
  let ok2 := ok1 && Popen sp b in
  let st1 :=
    set_requests (requests st ++ issued ok1 a b)
      (set_ffmpeg_process1 (if ok1 then Some a else None)
         (set_ffmpeg_process2 (if ok2 then Some b else None) st)) in
  if ok2 then st1
  else set_is_playing false
         (set_errors_shown (errors_shown st ++ ["FFmpeg Error"%string]) st1).

(** The two handles dropped. *)
Definition stopped (st : VideoComparer) : VideoComparer :=
  set_ffmpeg_process2 None (set_ffmpeg_process1 None st).

(** ** The status text *)

(** The two times [update_status_bar] formats, joined as it joins them. *)
Definition status_times (st : VideoComparer) : result string :=
  let? x := Py.int_div_float (current_frame_num st) (video_fps st) in
  let? current_time := format_time x in
  if duration_known st then
    let? y := frames_div_float (total_frames st) (video_fps st) in
    let? total_time := format_time y in
    Ok (current_time ++ " / " ++ total_time)%string
  else Ok (current_time ++ " / ??:??")%string.

(** ** What the loop shows *)

(** The passes of a run whose two reads were full frames, and the pairs
    of buffers they read. *)
Definition good_reads (size : Z) (ticks : list tick) : list tick :=
  filter (fun t => negb (bad_read size (read1 t) (read2 t))) ticks.

Definition reads (ticks : list tick) : list (frame * frame) :=
  map (fun t => (read1 t, read2 t)) ticks.

(** ** Resizing *)

(** The height [handle_resize] has for the video: the main frame less the
    control rows unless the window is full screen. *)
Definition canvas_height (st : VideoComparer) : Z :=
  if negb (is_fullscreen st)
  then main_frame_height (winfo st)
       - (controls_frame_height (winfo st) + status_bar_height (winfo st) + 20)
  else main_frame_height (winfo st).

(** The source whose shape is fitted: A unless B is wider in proportion. *)
Definition fitted_source (st : VideoComparer) : result video_info :=
  let? ar1 := Py.int_truediv (width (video_info1 st)) (height (video_info1 st)) in
  let? ar2 := Py.int_truediv (width (video_info2 st)) (height (video_info2 st)) in
  Ok (if (ar2 <=? ar1)%float then video_info1 st else video_info2 st).

(** The output size [handle_resize] computes. *)
Definition fitted_size (st : VideoComparer) : result (Z * Z) :=
  if is_fullscreen st then Ok (main_frame_width (winfo st), canvas_height st)
  else
    let? source := fitted_source st in
    calculate_display_size (width source) (height source)
                           (main_frame_width (winfo st)) (canvas_height st).

(** The size differs from the current one by more than a pixel. *)
Definition size_changed (size : Z * Z) (st : VideoComparer) : bool :=
  (1 <? Z.abs (fst size - display_width st))
  || (1 <? Z.abs (snd size - display_height st)).

(** The writes of [handle_resize] once it has decided to resize. *)
Definition resized (size : Z * Z) (st : VideoComparer) : VideoComparer :=
  let st1 :=
    set_split_pos (fst size / 2)
      (set_display_height (snd size) (set_display_width (fst size) st)) in
  set_after_queue (after_queue st ++ [RestartAfterResize (is_playing st)])
    (if is_playing st then set_is_playing false st1 else st1).

(** ** Initialisation *)

(** The writes of [initialize_playback] between its [try] block and the
    first status text. *)
Definition prepared (st : VideoComparer) : VideoComparer :=
  let unknown := match total_frames st with Fin n => n <=? 0 | Inf => false end in
  let st1 :=
    if unknown then
      set_seek_bar_state DISABLED (set_total_frames Inf (set_duration_known false st))
    else
      set_seek_bar_state NORMAL
        (set_seek_bar_to match total_frames st with
                         | Fin n => Fin (n - 1)
                         | Inf => Inf
                         end (set_duration_known true st)) in
  let st2 := set_current_frame_num 0 st1 in
  let st3 := if unknown then st2 else set_seek_bar_value 0 st2 in
  set_offset_var "0"
    (set_video2_offset 0
       (set_snapshot_btn_state NORMAL
          (set_next_frame_btn_state NORMAL
             (set_prev_frame_btn_state NORMAL
                (set_play_pause_btn_state NORMAL st3))))).

(** The four buttons that loading two videos enables. *)
Definition controls (st : VideoComparer) : tk_state * tk_state * tk_state * tk_state :=
  (play_pause_btn_state st, prev_frame_btn_state st,
   next_frame_btn_state st, snapshot_btn_state st).

(** The attributes the [try] block of [initialize_playback] may write. *)
Definition try_untouched {B} (f : VideoComparer -> B) : Prop :=
  untouched f set_fps1 /\ untouched f set_fps2 /\ untouched f set_video_fps
  /\ untouched f set_total_frames
  /\ untouched f set_display_width /\ untouched f set_display_height
  /\ untouched f set_split_pos /\ untouched f set_is_playing
  /\ untouched f set_after_queue.

(** ** Loading a file *)

(** The two sources as [load_video] stores them. *)
Definition sources (st : VideoComparer)
  : (option string * video_info * string) * (option string * video_info * string) :=
  ((video_path1 st, video_info1 st, video_name1 st),
   (video_path2 st, video_info2 st, video_name2 st)).

(** What [load_video] keeps of a stream. *)
Definition info_of (video_stream : stream) (w h : Z) : video_info :=
  {| width := w; height := h;
     avg_frame_rate := stream_avg_frame_rate video_stream;
     duration := stream_duration video_stream |}.

(** The state in which [load_video] has stored a stream read from
    [file_path] and written its status text. *)
Definition slot_filled (video_num : Z) (file_path : string) (info : video_info)
  (times : string) (st : VideoComparer) : VideoComparer :=
  set_status_var
    ((if video_num =? 1 then "Video 1 loaded. Please load Video 2."
      else "Video 2 loaded. Ready to play.") ++ " | " ++ times)
    (if video_num =? 1 then
       set_video_name1 (basename file_path)
         (set_video_info1 info (set_video_path1 (Some file_path) st))
     else
       set_video_name2 (basename file_path)
         (set_video_info2 info (set_video_path2 (Some file_path) st))).

(** The attributes [initialize_playback] may write after its [try]
    block. *)
Definition rest_untouched {B} (f : VideoComparer -> B) : Prop :=
  untouched f set_duration_known /\ untouched f set_total_frames
  /\ untouched f set_seek_bar_state /\ untouched f set_seek_bar_to
  /\ untouched f set_current_frame_num /\ untouched f set_seek_bar_value
  /\ untouched f set_play_pause_btn_state /\ untouched f set_prev_frame_btn_state
  /\ untouched f set_next_frame_btn_state /\ untouched f set_snapshot_btn_state
  /\ untouched f set_video2_offset /\ untouched f set_offset_var
  /\ untouched f set_errors_shown.

(* ================================================================= *)
(** * Reasoning about method bodies *)

Section Keeps.

Context {B : Type} (f : VideoComparer -> B).

Lemma keeps_ret {A} (a : A) : keeps f (ret a).
Proof. intro st. reflexivity. Qed.

Lemma keeps_raise {A} (e : exn) : keeps f (@raise A e).
Proof. intro st. reflexivity. Qed.

Lemma keeps_lift {A} (r : result A) : keeps f (lift r).
Proof. intro st. reflexivity. Qed.

Lemma keeps_get : keeps f get.
Proof. intro st. reflexivity. Qed.

Lemma keeps_modify (g : VideoComparer -> VideoComparer) :
  (forall st, f (g st) = f st) -> keeps f (modify g).
Proof. intros H st. apply H. Qed.

Lemma keeps_bind {A C} (m : M A) (k : A -> M C) :
  keeps f m -> (forall a, keeps f (k a)) -> keeps f (bind m k).
Proof.
  intros Hm Hk st. unfold state_after, bind.
  specialize (Hm st). unfold state_after in Hm.
  destruct (m st) as [[a | e] st']; cbn in *.
  - rewrite <- Hm. apply Hk.
  - exact Hm.
Qed.

Lemma keeps_try_except {A} (m : M A) caught (handler : exn -> M A) :
  keeps f m -> (forall e, keeps f (handler e)) -> keeps f (try_except m caught handler).
Proof.
  intros Hm Hh st. unfold state_after, try_except.
  specialize (Hm st). unfold state_after in Hm.
  destruct (m st) as [[a | e] st']; cbn in *.
  - exact Hm.
  - destruct (caught e); cbn; [rewrite <- Hm; apply Hh | exact Hm].
Qed.

Lemma keeps_when (c : bool) (m : M unit) : keeps f m -> keeps f (when c m).
Proof. intro Hm. destruct c; [exact Hm | apply keeps_ret]. Qed.

Lemma keeps_after (cb : callback) : untouched f set_after_queue -> keeps f (after cb).
Proof. intros H st. apply H. Qed.

Lemma keeps_showerror (title : string) :
  untouched f set_errors_shown -> keeps f (showerror title).
Proof. intros H st. apply H. Qed.

End Keeps.

(** One step through a method body towards [keeps]. *)
Ltac keeps_step :=
  match goal with
  | |- keeps _ (bind _ _) => apply keeps_bind; [ | intro ]
  | |- keeps _ (ret _) => apply keeps_ret
  | |- keeps _ (raise _) => apply keeps_raise
  | |- keeps _ (lift _) => apply keeps_lift
  | |- keeps _ get => apply keeps_get
  | |- keeps _ (when _ _) => apply keeps_when
  | |- keeps _ (try_except _ _ _) => apply keeps_try_except; [ | intro ]
  | |- keeps _ (after _) => apply keeps_after; assumption
  | |- keeps _ (showerror _) => apply keeps_showerror; assumption
  | |- keeps _ (modify _) => apply keeps_modify; intro; cbn; auto
  | |- keeps _ (if ?c then _ else _) => destruct c
  | |- keeps _ (match ?x with _ => _ end) => destruct x
  end.

Ltac keeps_method := intros; repeat keeps_step; auto.

Section FrameConditions.

Variable py_float : string -> option float.
Variable py_int : string -> option Z.
Variable cv2 : Cv2.
Variable sp : Subprocess.

Context {B : Type} (f : VideoComparer -> B).

Lemma update_status_bar_keeps text :
  untouched f set_status_var -> keeps f (update_status_bar text).
Proof. unfold update_status_bar. keeps_method. Qed.

Lemma update_frame_display_keeps raw1 raw2 :
  untouched f set_video_label_image -> keeps f (update_frame_display cv2 raw1 raw2).
Proof. unfold update_frame_display. keeps_method. Qed.

Lemma run_check_output_keeps c :
  untouched f set_requests -> keeps f (run_check_output sp c).
Proof. unfold run_check_output. keeps_method. Qed.

Lemma run_Popen_keeps c :
  untouched f set_requests -> keeps f (run_Popen sp c).
Proof. unfold run_Popen. keeps_method. Qed.

Lemma display_single_frame_keeps n :
  display_untouched f -> keeps f (display_single_frame cv2 sp n).
Proof.
  intros (Hs & Hi & Hr). unfold display_single_frame.
  repeat first
    [ apply update_status_bar_keeps; assumption
    | apply update_frame_display_keeps; assumption
    | apply run_check_output_keeps; assumption
    | keeps_step ].
Qed.

Lemma stop_ffmpeg_processes_keeps :
  untouched f set_ffmpeg_process1 -> untouched f set_ffmpeg_process2 ->
  keeps f stop_ffmpeg_processes.
Proof. unfold stop_ffmpeg_processes. keeps_method. Qed.

Lemma start_ffmpeg_processes_keeps n :
  streams_untouched f -> keeps f (start_ffmpeg_processes sp n).
Proof.
  intros (H1 & H2 & Hr & He & Hp). unfold start_ffmpeg_processes.
  repeat first
    [ apply stop_ffmpeg_processes_keeps; assumption
    | apply run_Popen_keeps; assumption
    | keeps_step ].
Qed.

End FrameConditions.

(* ================================================================= *)
(** * Truncation, floor and rounding *)

Lemma scaled_quot_nonneg m e : 0 <= Py.scaled_quot m e.
Proof.
  unfold Py.scaled_quot. destruct (0 <=? e) eqn:He.
  - apply Z.shiftl_nonneg. lia.
  - apply Z.shiftr_nonneg. lia.
Qed.

(** [int(x)] and [math.floor(x)] succeed together; the floor is the
    truncation or one below it, and equal to it as soon as either is
    positive. *)
Lemma float_to_int_floor x n :
  Py.float_to_int x = Ok n ->
  exists m, Py.float_floor x = Ok m
            /\ m <= n <= m + 1
            /\ (0 < n -> m = n) /\ (0 < m -> m = n) /\ (n <= 0 -> m <= 0).
Proof.
  unfold Py.float_to_int, Py.float_floor, Py.float_fraction.
  destruct (Prim2SF x) as [s | s | | s m e]; try discriminate.
  - intro H. injection H as <-. exists 0. cbn. repeat split; lia.
  - intro H. injection H as <-.
    pose proof (scaled_quot_nonneg m e) as Hq. unfold Py.scaled_quot in *.
    destruct (0 <=? e) eqn:He.
    + rewrite Z.shiftr_0_r. destruct s; eexists; (split; [reflexivity |]);
        repeat split; lia.
    + apply Z.leb_gt in He.
      rewrite !Z.shiftr_div_pow2 in * by lia.
      assert (Hp : 0 < 2 ^ (- e)) by (apply Z.pow_pos_nonneg; lia).
      destruct s; eexists; (split; [reflexivity |]).
      * pose proof (Z.div_mod (Z.pos m) (2 ^ (- e)) ltac:(lia)) as Hd.
        pose proof (Z.mod_pos_bound (Z.pos m) (2 ^ (- e)) Hp) as Hm.
        pose proof (Z.div_mod (- Z.pos m) (2 ^ (- e)) ltac:(lia)) as Hd'.
        pose proof (Z.mod_pos_bound (- Z.pos m) (2 ^ (- e)) Hp) as Hm'.
        repeat split; nia.
      * repeat split; lia.
Qed.

Lemma float_fraction_exponent x a k :
  Py.float_fraction x = Some (a, k) -> 0 <= k.
Proof.
  unfold Py.float_fraction.
  destruct (Prim2SF x) as [s | s | | s m e]; try discriminate.
  - intro H. injection H as <- <-. lia.
  - destruct (0 <=? e) eqn:He; intro H; injection H as <- <-; [lia |].
    apply Z.leb_gt in He. lia.
Qed.

(** [round(x)] is the floor or one above it, hence within one of
    [int(x)]. *)
Lemma float_to_int_round x n :
  Py.float_to_int x = Ok n ->
  exists r, Py.float_round x = Ok r /\ n - 1 <= r <= n + 1.
Proof.
  intro Hn. destruct (float_to_int_floor x n Hn) as (m & Hm & Hmn & _).
  revert Hm. unfold Py.float_floor, Py.float_round.
  destruct (Py.float_fraction x) as [[a k] |] eqn:Hf.
  - pose proof (float_fraction_exponent x a k Hf) as Hk.
    rewrite Z.shiftr_div_pow2 by lia.
    destruct (Prim2SF x); try discriminate; intro H; injection H as <-;
      (eexists; split; [reflexivity |]);
      destruct (2 * (a mod 2 ^ k) <? 2 ^ k); try lia;
      destruct (2 ^ k <? 2 * (a mod 2 ^ k)); try lia;
      destruct (Z.even (a / 2 ^ k)); lia.
  - destruct (Prim2SF x); discriminate.
Qed.

(* ================================================================= *)
(** * Running a method *)

Lemma state_after_bind {A C} (m : M A) (k : A -> M C) st :
  state_after (bind m k) st =
  match outcome m st with
  | Ok a => state_after (k a) (state_after m st)
  | Raise _ => state_after m st
  end.
Proof.
  unfold state_after, outcome, bind. destruct (m st) as [[a | e] st']; reflexivity.
Qed.

Lemma state_after_seq_keeps {A C B} (f : VideoComparer -> B) (m : M A) (k : M C) st :
  keeps f k -> f (state_after (bind m (fun _ => k)) st) = f (state_after m st).
Proof.
  intro Hk. rewrite state_after_bind. destruct (outcome m st); [apply Hk | reflexivity].
Qed.

Lemma state_after_get {A} (k : VideoComparer -> M A) st :
  state_after (bind get k) st = state_after (k st) st.
Proof. reflexivity. Qed.

Lemma state_after_modify {A} g (k : M A) st :
  state_after (bind (modify g) (fun _ => k)) st = state_after k (g st).
Proof. reflexivity. Qed.

(** A sequence that returns ran both of its parts to the end. *)
Lemma bind_ok_inv {A C} (m : M A) (k : A -> M C) st c s' :
  bind m k st = (Ok c, s') ->
  exists a s1, m st = (Ok a, s1) /\ k a s1 = (Ok c, s').
Proof.
  unfold bind. destruct (m st) as [[a | e] s1]; [eauto | discriminate].
Qed.

Lemma get_inv st a s1 : get st = (Ok a, s1) -> a = st /\ s1 = st.
Proof. unfold get. intro H. injection H as <- <-. auto. Qed.

Lemma lift_inv {A} (r : result A) st a s1 :
  lift r st = (Ok a, s1) -> r = Ok a /\ s1 = st.
Proof. unfold lift. intro H. injection H as -> <-. auto. Qed.

Lemma modify_inv g st a s1 : modify g st = (Ok a, s1) -> s1 = g st.
Proof. unfold modify. intro H. injection H as _ <-. reflexivity. Qed.

Lemma state_after_ret {A C} (a : A) (k : A -> M C) st :
  state_after (bind (ret a) k) st = state_after (k a) st.
Proof. reflexivity. Qed.

Lemma state_after_lift_ok {A C} (a : A) (k : A -> M C) st :
  state_after (bind (lift (Ok a)) k) st = state_after (k a) st.
Proof. reflexivity. Qed.

Lemma state_after_bind_assoc {A C D} (m : M A) (k1 : A -> M C) (k2 : C -> M D) st :
  state_after (bind (bind m k1) k2) st
  = state_after (bind m (fun a => bind (k1 a) k2)) st.
Proof.
  unfold state_after, bind. destruct (m st) as [[a | e] st']; reflexivity.
Qed.

(** Runs the reads and writes at the head of a method body. *)
Ltac exec :=
  repeat first
    [ rewrite state_after_bind_assoc
    | rewrite state_after_get
    | rewrite state_after_modify
    | rewrite state_after_ret
    | rewrite state_after_lift_ok ].

Lemma state_after_try_keeps {A B} (f : VideoComparer -> B) (m : M A) caught handler st :
  (forall e, keeps f (handler e)) ->
  f (state_after (try_except m caught handler) st) = f (state_after m st).
Proof.
  intro Hh. unfold state_after, try_except.
  destruct (m st) as [[a | e] st']; cbn; [reflexivity |].
  destruct (caught e); [apply Hh | reflexivity].
Qed.

Arguments update_status_bar : simpl never.
Arguments update_frame_display : simpl never.
Arguments display_single_frame : simpl never.
Arguments start_ffmpeg_processes : simpl never.
Arguments stop_ffmpeg_processes : simpl never.


(** Unfolds the monad around the calls kept folded above. *)
Ltac run :=
  unfold state_after, outcome, bind, ret, raise, lift, get, modify, when, try_except,
    after, showerror in *;
  cbn in *.

(* ================================================================= *)
(** * The offset entry *)

Section Offset.

Variable py_int : string -> option Z.
Variable cv2 : Cv2.
Variable sp : Subprocess.

Lemma display_untouched_video2_offset : display_untouched video2_offset.
Proof. repeat split; intros v st; reflexivity. Qed.

(** C10. When the text of the offset entry is not an integer,
    [_validate_offset_input] returns with the whole state as it was: the
    offset is kept and no frame is fetched or shown.  When the text is an
    integer (and a first video is loaded) the offset becomes that integer;
    so the handler changes the offset only to a parsed integer. *)
Theorem offset_entry_keeps_offset_on_bad_input (st : VideoComparer) :
  (py_int (offset_var st) = None ->
   _validate_offset_input py_int cv2 sp st = (Ok tt, st))
  /\ (forall n, py_int (offset_var st) = Some n -> truthy (video_path1 st) = true ->
      video2_offset (state_after (_validate_offset_input py_int cv2 sp) st) = n)
  /\ (video2_offset (state_after (_validate_offset_input py_int cv2 sp) st)
      <> video2_offset st ->
      exists n, py_int (offset_var st) = Some n
                /\ video2_offset (state_after (_validate_offset_input py_int cv2 sp) st) = n).
Proof.
  assert (Hset : forall n, py_int (offset_var st) = Some n ->
                 truthy (video_path1 st) = true ->
                 video2_offset (state_after (_validate_offset_input py_int cv2 sp) st) = n).
  { intros n Hn Hp. unfold _validate_offset_input, int_of_str.
    rewrite state_after_get, Hp, Hn. cbn [negb].
    rewrite state_after_try_keeps by (intro; apply keeps_ret).
    change (bind (lift (Ok n)) ?k) with (k n). cbv beta.
    rewrite state_after_seq_keeps; [reflexivity |].
    apply keeps_when, display_single_frame_keeps, display_untouched_video2_offset. }
  split; [| split].
  - intro Hnone. unfold _validate_offset_input, int_of_str. run.
    destruct (truthy (video_path1 st)); [| reflexivity].
    rewrite Hnone. reflexivity.
  - exact Hset.
  - intro Hchanged.
    destruct (truthy (video_path1 st)) eqn:Hp.
    + destruct (py_int (offset_var st)) as [n |] eqn:Hn.
      * exists n. split; [reflexivity | apply Hset; auto].
      * exfalso. apply Hchanged.
        unfold _validate_offset_input, int_of_str. run. rewrite Hp, Hn. reflexivity.
    + exfalso. apply Hchanged.
      unfold _validate_offset_input. run. rewrite Hp. reflexivity.
Qed.

End Offset.

(* ================================================================= *)
(** * [parse_frame_rate] *)

Section ParseFrameRate.

Variable py_float : string -> option float.

Local Open Scope string_scope.

Lemma str_split_no_separator c s :
  str_contains c s = false -> str_split c s = [s].
Proof.
  induction s as [| a s IH]; cbn; [reflexivity |].
  destruct (Ascii.eqb a c); [discriminate |].
  intro H. rewrite (IH H). reflexivity.
Qed.

Lemma str_split_once c a b :
  str_contains c a = false -> str_contains c b = false ->
  str_split c (a ++ String c b) = [a; b].
Proof.
  intros Ha Hb. induction a as [| x a IH]; cbn in *.
  - rewrite Ascii.eqb_refl, (str_split_no_separator _ _ Hb). reflexivity.
  - destruct (Ascii.eqb x c); [discriminate |].
    rewrite (IH Ha). reflexivity.
Qed.

Lemma str_contains_middle c a b : str_contains c (a ++ String c b) = true.
Proof.
  induction a as [| x a IH]; cbn.
  - rewrite Ascii.eqb_refl. reflexivity.
  - destruct (Ascii.eqb x c); [reflexivity | exact IH].
Qed.

(** The [try] block raises nothing but [ValueError]: the division is
    guarded by the test on [den]. *)
Lemma parse_frame_rate_try_raises rate_str e :
  parse_frame_rate_try py_float rate_str = Raise e -> e = ValueError.
Proof.
  unfold parse_frame_rate_try, float_of_str, Py.float_truediv.
  destruct (str_contains "/" rate_str).
  - destruct (str_split "/" rate_str) as [| a [| b [| c l]]]; cbn;
      try (intro H; injection H; auto).
    destruct (py_float a) as [num |]; cbn; [| intro H; injection H; auto].
    destruct (py_float b) as [den |]; cbn; [| intro H; injection H; auto].
    destruct (den =? 0)%float; discriminate.
  - destruct (py_float rate_str); [discriminate | intro H; injection H; auto].
Qed.

(** C8. For every frame-rate string [parse_frame_rate] returns a float and
    never raises.  A string [a/b] whose two pieces convert to [num] and
    [den] gives [num / den] when [den] is not zero and 30.0 when it is; a
    string without a slash that converts gives its value; and whenever a
    conversion fails, or anything else goes wrong inside the [try] block
    (such as a second slash), the result is exactly 30.0. *)
Theorem parse_frame_rate_lenient (rate_str : string) :
  (exists x, parse_frame_rate py_float rate_str = Ok x)
  /\ (forall a b num den,
        rate_str = a ++ String "/" b ->
        str_contains "/" a = false -> str_contains "/" b = false ->
        py_float a = Some num -> py_float b = Some den ->
        parse_frame_rate py_float rate_str
        = Ok (if (den =? 0)%float then 30%float else (num / den)%float))
  /\ (forall x,
        str_contains "/" rate_str = false -> py_float rate_str = Some x ->
        parse_frame_rate py_float rate_str = Ok x)
  /\ (str_contains "/" rate_str = false -> py_float rate_str = None ->
      parse_frame_rate py_float rate_str = Ok 30%float)
  /\ (forall a b,
        rate_str = a ++ String "/" b ->
        str_contains "/" a = false -> str_contains "/" b = false ->
        py_float a = None \/ py_float b = None ->
        parse_frame_rate py_float rate_str = Ok 30%float)
  /\ (forall e,
        parse_frame_rate_try py_float rate_str = Raise e ->
        parse_frame_rate py_float rate_str = Ok 30%float).
Proof.
  repeat split.
  - unfold parse_frame_rate.
    destruct (parse_frame_rate_try py_float rate_str) as [x | e] eqn:E; eauto.
    rewrite (parse_frame_rate_try_raises _ _ E). eauto.
  - intros a b num den -> Ha Hb Hnum Hden.
    unfold parse_frame_rate, parse_frame_rate_try, float_of_str, Py.float_truediv.
    rewrite str_contains_middle, (str_split_once _ _ _ Ha Hb), Hnum, Hden. cbn.
    destruct (den =? 0)%float; reflexivity.
  - intros x Hc Hx.
    unfold parse_frame_rate, parse_frame_rate_try, float_of_str.
    rewrite Hc, Hx. reflexivity.
  - intros Hc Hx.
    unfold parse_frame_rate, parse_frame_rate_try, float_of_str.
    rewrite Hc, Hx. reflexivity.
  - intros a b -> Ha Hb Hnone.
    unfold parse_frame_rate, parse_frame_rate_try, float_of_str.
    rewrite str_contains_middle, (str_split_once _ _ _ Ha Hb).
    destruct Hnone as [-> | ->]; [reflexivity |].
    destruct (py_float a); reflexivity.
  - intros e E. unfold parse_frame_rate.
    rewrite E, (parse_frame_rate_try_raises _ _ E). reflexivity.
Qed.

End ParseFrameRate.

(* ================================================================= *)
(** * Seek times *)

Lemma int_div_float_ok n y :
  is_infinity (Py.float_of_Z n) = false -> (y =? 0)%float = false ->
  Py.int_div_float n y = Ok (Py.float_of_Z n / y)%float.
Proof.
  intros Hn Hy. unfold Py.int_div_float, Py.int_to_float, Py.float_truediv.
  rewrite Hn. cbn [rbind]. rewrite Hy. reflexivity.
Qed.

Lemma state_after_raise {A C} (e : exn) (k : A -> M C) st :
  state_after (bind (raise e) k) st = st.
Proof. reflexivity. Qed.

Section SeekTimes.

Variable cv2 : Cv2.
Variable sp : Subprocess.

Lemma start_ffmpeg_processes_view st t x1 x2 :
  Py.int_div_float t (fps1 st) = Ok x1 ->
  Py.int_div_float (t + video2_offset st) (fps2 st) = Ok x2 ->
  let a := requested_at st (video_path1 st) x1 None in
  let b := requested_at st (video_path2 st) x2 None in
  streams_view (state_after (start_ffmpeg_processes sp t) st)
  = (requests st ++ issued (Popen sp a) a b,
     if Popen sp a then Some a else None,
     if Popen sp a && Popen sp b then Some b else None).
Proof.
  intros H1 H2. cbv zeta.
  unfold start_ffmpeg_processes, stop_ffmpeg_processes. exec.
  cbn [fps1 fps2 video2_offset set_ffmpeg_process1 set_ffmpeg_process2].
  rewrite H1. exec. rewrite H2. exec.
  rewrite state_after_try_keeps
    by (intro; unfold showerror; keeps_method).
  cbn [ffmpeg_path video_path1 video_path2 display_width display_height
       set_ffmpeg_process1 set_ffmpeg_process2].
  fold (requested_at st (video_path1 st) x1 None).
  fold (requested_at st (video_path2 st) x2 None).
  set (a := requested_at st (video_path1 st) x1 None).
  set (b := requested_at st (video_path2 st) x2 None).
  unfold run_Popen. exec.
  destruct (Popen sp a) eqn:Ha.
  - exec. destruct (Popen sp b) eqn:Hb.
    + exec. unfold streams_view. cbn. rewrite <- app_assoc. reflexivity.
    + rewrite state_after_raise. unfold streams_view. cbn.
      rewrite <- app_assoc. reflexivity.
  - rewrite state_after_raise. reflexivity.
Qed.

Lemma display_single_frame_requests st t x1 x2 :
  truthy (video_path1 st) = true -> truthy (video_path2 st) = true ->
  (duration_known st = true -> 0 <= t /\ lt_frames t (total_frames st) = true) ->
  Py.int_div_float t (fps1 st) = Ok x1 ->
  Py.int_div_float (t + video2_offset st) (fps2 st) = Ok x2 ->
  let a := requested_at st (video_path1 st) x1 (Some 1) in
  let b := requested_at st (video_path2 st) x2 (Some 1) in
  requests (state_after (display_single_frame cv2 sp t) st)
  = requests st ++ issued (is_some (check_output sp a)) a b.
Proof.
  intros Hp1 Hp2 Hrange H1 H2. cbv zeta.
  unfold display_single_frame. exec. rewrite Hp1, Hp2. cbn [negb orb].
  replace (duration_known st
           && negb ((0 <=? t) && lt_frames t (total_frames st))) with false.
  2:{ destruct (duration_known st); [| reflexivity].
      destruct Hrange as [Hlo Hhi]; [reflexivity |].
      apply Z.leb_le in Hlo. rewrite Hlo, Hhi. reflexivity. }
  rewrite H1. exec. rewrite H2. exec.
  rewrite state_after_try_keeps
    by (intro; apply update_status_bar_keeps; intros ? ?; reflexivity).
  fold (requested_at st (video_path1 st) x1 (Some 1)).
  fold (requested_at st (video_path2 st) x2 (Some 1)).
  set (a := requested_at st (video_path1 st) x1 (Some 1)).
  set (b := requested_at st (video_path2 st) x2 (Some 1)).
  unfold run_check_output. exec.
  destruct (check_output sp a) as [raw1 |] eqn:Ha.
  - exec. destruct (check_output sp b) as [raw2 |] eqn:Hb.
    + exec.
      rewrite (keeps_when requests _ _
                 (update_frame_display_keeps cv2 requests raw1 raw2
                    ltac:(intros ? ?; reflexivity))).
      cbn. rewrite <- app_assoc. reflexivity.
    + rewrite state_after_raise. cbn. rewrite <- app_assoc. reflexivity.
  - rewrite state_after_raise. reflexivity.
Qed.

(** C1. For a frame index [t] and the stored offset (of either sign),
    whenever the two quotients are defined (neither frame rate is zero
    and the integers fit a float), both fetch paths request source A at
    [t / fps1] and source B at [(t + video2_offset) / fps2]: the streaming
    path in the two processes it starts, the single-shot path (for a
    frame it accepts) in the two commands it runs.  The command for B is
    issued once the one for A has succeeded. *)
Theorem seek_times_apply_offset_to_second_source (st : VideoComparer) (t : Z)
  (Ht : is_infinity (Py.float_of_Z t) = false)
  (Hto : is_infinity (Py.float_of_Z (t + video2_offset st)) = false)
  (Hfps1 : (fps1 st =? 0)%float = false)
  (Hfps2 : (fps2 st =? 0)%float = false) :
  let time_a := (Py.float_of_Z t / fps1 st)%float in
  let time_b := (Py.float_of_Z (t + video2_offset st) / fps2 st)%float in
  (let a := requested_at st (video_path1 st) time_a None in
   let b := requested_at st (video_path2 st) time_b None in
   let st' := state_after (start_ffmpeg_processes sp t) st in
   requests st' = requests st ++ issued (Popen sp a) a b
   /\ (Popen sp a = true -> Popen sp b = true ->
       ffmpeg_process1 st' = Some a /\ ffmpeg_process2 st' = Some b))
  /\ (truthy (video_path1 st) = true -> truthy (video_path2 st) = true ->
      (duration_known st = true -> 0 <= t /\ lt_frames t (total_frames st) = true) ->
      let a := requested_at st (video_path1 st) time_a (Some 1) in
      let b := requested_at st (video_path2 st) time_b (Some 1) in
      requests (state_after (display_single_frame cv2 sp t) st)
      = requests st ++ issued (is_some (check_output sp a)) a b).
Proof.
  pose proof (int_div_float_ok t (fps1 st) Ht Hfps1) as H1.
  pose proof (int_div_float_ok _ (fps2 st) Hto Hfps2) as H2.
  cbv zeta. split.
  - pose proof (start_ffmpeg_processes_view st t _ _ H1 H2) as Hv.
    cbv zeta in Hv. unfold streams_view in Hv. injection Hv as Hr Hp1 Hp2.
    split; [exact Hr |]. intros Ha Hb. rewrite Hp1, Hp2, Ha, Hb. auto.
  - intros Hpath1 Hpath2 Hrange.
    exact (display_single_frame_requests st t _ _ Hpath1 Hpath2 Hrange H1 H2).
Qed.

End SeekTimes.

(* ================================================================= *)
(** * Frame counts and the timeline length *)

Arguments handle_resize : simpl never.

Lemma handle_resize_keeps {B} (f : VideoComparer -> B) :
  untouched f set_display_width -> untouched f set_display_height ->
  untouched f set_split_pos -> untouched f set_is_playing ->
  untouched f set_after_queue ->
  keeps f handle_resize.
Proof. unfold handle_resize. keeps_method. Qed.

Section FrameCounts.

Variable py_float : string -> option float.
Variable cv2 : Cv2.
Variable sp : Subprocess.

Lemma handle_resize_total_frames st r s' :
  handle_resize st = (r, s') -> total_frames s' = total_frames st.
Proof.
  intro Hrun.
  pose proof (handle_resize_keeps total_frames
                ltac:(intros ? ?; reflexivity) ltac:(intros ? ?; reflexivity)
                ltac:(intros ? ?; reflexivity) ltac:(intros ? ?; reflexivity)
                ltac:(intros ? ?; reflexivity) st) as Hkeep.
  unfold state_after in Hkeep. rewrite Hrun in Hkeep. exact Hkeep.
Qed.

Lemma initialize_playback_try_run st s' :
  initialize_playback_try py_float st = (Ok tt, s') ->
  exists f1 f2 fc1 fc2,
    parse_frame_rate py_float (rate_string (video_info1 st)) = Ok f1
    /\ parse_frame_rate py_float (rate_string (video_info2 st)) = Ok f2
    /\ frame_count py_float f1 (video_info1 st) = Ok fc1
    /\ frame_count py_float f2 (video_info2 st) = Ok fc2
    /\ total_frames s' = Fin (stored_length fc1 fc2).
Proof.
  unfold initialize_playback_try. intro H.
  apply bind_ok_inv in H. destruct H as (st0 & s0 & Hget & H).
  apply get_inv in Hget. destruct Hget as [-> ->].
  apply bind_ok_inv in H. destruct H as (f1 & s1 & Hf1 & H).
  apply lift_inv in Hf1. destruct Hf1 as [Hf1 ->].
  apply bind_ok_inv in H. destruct H as ([] & s2 & Hs2 & H).
  apply modify_inv in Hs2. subst s2.
  apply bind_ok_inv in H. destruct H as (f2 & s3 & Hf2 & H).
  apply lift_inv in Hf2. destruct Hf2 as [Hf2 ->].
  apply bind_ok_inv in H. destruct H as ([] & s4 & Hs4 & H).
  apply modify_inv in Hs4. subst s4.
  apply bind_ok_inv in H. destruct H as (v & s5 & Hv & H).
  apply lift_inv in Hv. destruct Hv as [Hv ->].
  apply bind_ok_inv in H. destruct H as ([] & s6 & Hs6 & H).
  apply modify_inv in Hs6. subst s6.
  apply bind_ok_inv in H. destruct H as (fc1 & s7 & Hc1 & H).
  apply lift_inv in Hc1. destruct Hc1 as [Hc1 ->].
  apply bind_ok_inv in H. destruct H as (fc2 & s8 & Hc2 & H).
  apply lift_inv in Hc2. destruct Hc2 as [Hc2 ->].
  apply bind_ok_inv in H. destruct H as ([] & s9 & Hs9 & Hrun).
  apply modify_inv in Hs9. subst s9.
  exists f1, f2, fc1, fc2. repeat (split; [assumption |]).
  rewrite (handle_resize_total_frames _ _ _ Hrun). reflexivity.
Qed.

Lemma initialize_playback_try_ok st :
  outcome (initialize_playback_try py_float) st = Ok tt ->
  exists f1 f2 fc1 fc2,
    parse_frame_rate py_float (rate_string (video_info1 st)) = Ok f1
    /\ parse_frame_rate py_float (rate_string (video_info2 st)) = Ok f2
    /\ frame_count py_float f1 (video_info1 st) = Ok fc1
    /\ frame_count py_float f2 (video_info2 st) = Ok fc2
    /\ total_frames (state_after (initialize_playback_try py_float) st)
       = Fin (stored_length fc1 fc2).
Proof.
  unfold outcome, state_after.
  destruct (initialize_playback_try py_float st) as [r s'] eqn:E. cbn.
  intros ->. exact (initialize_playback_try_run st s' E).
Qed.

Lemma initialize_playback_rest_length st :
  timeline_length (state_after (initialize_playback_rest cv2 sp) st)
  = match total_frames st with
    | Fin n => if n <=? 0 then (Inf, false) else (Fin n, true)
    | Inf => (Inf, true)
    end.
Proof.
  assert (K : forall known,
             keeps timeline_length
               (bind (when known (modify (set_seek_bar_value 0))) (fun _ =>
                bind (modify (set_play_pause_btn_state NORMAL)) (fun _ =>
                bind (modify (set_prev_frame_btn_state NORMAL)) (fun _ =>
                bind (modify (set_next_frame_btn_state NORMAL)) (fun _ =>
                bind (modify (set_snapshot_btn_state NORMAL)) (fun _ =>
                bind (modify (set_video2_offset 0)) (fun _ =>
                bind (modify (set_offset_var "0")) (fun _ =>
                bind (update_status_bar "Ready") (fun _ =>
                display_single_frame cv2 sp 0)))))))))).
  { intro known.
    repeat first
      [ apply update_status_bar_keeps; intros v s; reflexivity
      | apply display_single_frame_keeps; repeat split; intros v s; reflexivity
      | keeps_step ]. }
  unfold initialize_playback_rest. rewrite state_after_get.
  destruct (total_frames st) as [n |] eqn:Ht; [destruct (n <=? 0) |];
    exec; rewrite K; unfold timeline_length; cbn; rewrite ?Ht; reflexivity.
Qed.

(** C2 (amended). When the [try] block of [initialize_playback] completes,
    both frame counts were computed as [int(fps * float(duration))], the
    product truncated toward zero.  Such a count is the floor of the
    product whenever either is positive, and it is positive exactly when
    the floor is.  The timeline is then the smaller count, known, when
    both counts are positive, and otherwise the unknown-length state
    ([duration_known] false, [total_frames] infinite), never zero. *)
Theorem frame_counts_truncate_and_bound_timeline (st : VideoComparer)
  (Htry : outcome (initialize_playback_try py_float) st = Ok tt) :
  exists f1 f2 d1 d2 fc1 fc2,
    parse_frame_rate py_float (rate_string (video_info1 st)) = Ok f1
    /\ parse_frame_rate py_float (rate_string (video_info2 st)) = Ok f2
    /\ duration_seconds py_float (video_info1 st) = Ok d1
    /\ duration_seconds py_float (video_info2 st) = Ok d2
    /\ Py.float_to_int (f1 * d1)%float = Ok fc1
    /\ Py.float_to_int (f2 * d2)%float = Ok fc2
    /\ (exists m, Py.float_floor (f1 * d1)%float = Ok m
                  /\ m <= fc1 /\ (0 < fc1 <-> 0 < m) /\ (0 < fc1 -> m = fc1))
    /\ (exists m, Py.float_floor (f2 * d2)%float = Ok m
                  /\ m <= fc2 /\ (0 < fc2 <-> 0 < m) /\ (0 < fc2 -> m = fc2))
    /\ let st' := state_after (initialize_playback py_float cv2 sp) st in
       if (0 <? fc1) && (0 <? fc2)
       then duration_known st' = true /\ total_frames st' = Fin (Z.min fc1 fc2)
       else duration_known st' = false /\ total_frames st' = Inf.
Proof.
  destruct (initialize_playback_try_ok st Htry)
    as (f1 & f2 & fc1 & fc2 & Hf1 & Hf2 & Hc1 & Hc2 & Htotal).
  unfold frame_count in Hc1, Hc2.
  destruct (duration_seconds py_float (video_info1 st)) as [d1 |] eqn:Hd1;
    [| discriminate].
  destruct (duration_seconds py_float (video_info2 st)) as [d2 |] eqn:Hd2;
    [| discriminate].
  cbn [rbind] in Hc1, Hc2.
  exists f1, f2, d1, d2, fc1, fc2.
  repeat (split; [first [assumption | reflexivity] |]).
  split; [| split].
  - destruct (float_to_int_floor _ _ Hc1) as (m & Hm & Hle & Hpos & Hpos' & Hneg).
    exists m. repeat split; auto; lia.
  - destruct (float_to_int_floor _ _ Hc2) as (m & Hm & Hle & Hpos & Hpos' & Hneg).
    exists m. repeat split; auto; lia.
  - cbv zeta.
    assert (Hrun : state_after (initialize_playback py_float cv2 sp) st
                   = state_after (initialize_playback_rest cv2 sp)
                       (state_after (initialize_playback_try py_float) st)).
    { unfold initialize_playback, state_after, outcome in *.
      unfold try_except, bind at 1 2, ret.
      destruct (initialize_playback_try py_float st) as [[[] | e] s]; cbn in *;
        [reflexivity | discriminate]. }
    pose proof (initialize_playback_rest_length
                  (state_after (initialize_playback_try py_float) st)) as Hlen.
    rewrite <- Hrun, Htotal in Hlen. unfold timeline_length, stored_length in Hlen.
    destruct ((0 <? fc1) && (0 <? fc2)) eqn:Hpos.
    + apply andb_prop in Hpos. destruct Hpos as [H1 H2].
      apply Z.ltb_lt in H1, H2.
      replace (Z.min fc1 fc2 <=? 0) with false in Hlen
        by (symmetry; apply Z.leb_gt; lia).
      injection Hlen as -> ->. auto.
    + cbn in Hlen. injection Hlen as -> ->. auto.
Qed.

End FrameCounts.

(* ================================================================= *)
(** * The playback loop, pass by pass *)

Lemma handle_playback_end_ok message st :
  handle_playback_end message st = (Ok tt, ended message st).
Proof.
  unfold ended, handle_playback_end. run. destruct (duration_known st); reflexivity.
Qed.

Lemma ended_known message st :
  duration_known st = true ->
  timeline (ended message st) = timeline st
  /\ is_playing (ended message st) = false
  /\ after_queue (ended message st)
     = after_queue st ++ [PlayPauseBtnPlay; UpdateStatusBar message].
Proof.
  intro Hknown. unfold ended, handle_playback_end, timeline. run.
  rewrite Hknown. cbn. rewrite <- app_assoc, Hknown. auto.
Qed.

Lemma ended_unknown message st :
  duration_known st = false ->
  duration_known (ended message st) = true
  /\ total_frames (ended message st) = Fin (current_frame_num st)
  /\ current_frame_num (ended message st) = current_frame_num st
  /\ is_playing (ended message st) = false.
Proof.
  intro Hknown. unfold ended, handle_playback_end. run.
  rewrite Hknown. cbn. auto.
Qed.

(** What a pass does, case by case. *)
Lemma playback_pass_cases consecutive_errors t st :
  let st0 := if cleared t then set_is_playing false st else st in
  let frame_size := display_width st * display_height st * 3 in
  playback_pass consecutive_errors t st =
  if negb (is_playing st0) then (Ok None, st0)
  else
    match ffmpeg_process1 st with
    | None => (Raise AttributeError, st0)
    | Some _ =>
        if exited1 t then (Ok None, ended "Video stream ended" st0)
        else
          match ffmpeg_process2 st with
          | None => (Raise AttributeError, st0)
          | Some _ =>
              if exited2 t then (Ok None, ended "Video stream ended" st0)
              else if ge_frames_minus_1 (current_frame_num st) (total_frames st)
              then (Ok None, ended "Finished" st0)
              else if bad_read frame_size (read1 t) (read2 t) then
                if max_errors <=? consecutive_errors + 1
                then (Ok None, ended "Error: Playback stopped" st0)
                else (Ok (Some (consecutive_errors + 1)), st0)
              else
                match pace st with
                | Ok _ => (Ok (Some 0), advanced (read1 t) (read2 t) st0)
                | Raise e => (Raise e, advanced (read1 t) (read2 t) st0)
                end
          end
    end.
Proof.
  cbv zeta. unfold playback_pass, pace, advanced.
  unfold bind at 1, when at 1.
  destruct (cleared t); cbn [modify ret].
  - reflexivity.
  - unfold bind at 1, get at 1.
    destruct (is_playing st); cbn [negb]; [| reflexivity].
    destruct (ffmpeg_process1 st); [| reflexivity].
    destruct (exited1 t).
    { unfold bind. rewrite handle_playback_end_ok. reflexivity. }
    destruct (ffmpeg_process2 st); [| reflexivity].
    destruct (exited2 t).
    { unfold bind. rewrite handle_playback_end_ok. reflexivity. }
    destruct (ge_frames_minus_1 _ _).
    { unfold bind. rewrite handle_playback_end_ok. reflexivity. }
    destruct (bad_read _ _ _).
    { destruct (max_errors <=? _); [| reflexivity].
      unfold bind. rewrite handle_playback_end_ok. reflexivity. }
    run.
    destruct (duration_known st); cbn; rewrite <- ?app_assoc; cbn;
      destruct (Py.float_truediv 1 (video_fps st)); cbn; try reflexivity;
      destruct (time_sleep _); reflexivity.
Qed.

(* ================================================================= *)
(** * The current frame *)

Lemma timeline_eq st st' :
  timeline st' = timeline st ->
  current_frame_num st' = current_frame_num st
  /\ total_frames st' = total_frames st
  /\ duration_known st' = duration_known st.
Proof. unfold timeline. intro H. injection H as -> -> ->. auto. Qed.

Lemma ge_frames_minus_1_false n total :
  ge_frames_minus_1 n total = false -> lt_frames (n + 1) total = true.
Proof.
  destruct total as [t |]; cbn; [| reflexivity].
  intro H. apply Z.leb_gt in H. apply Z.ltb_lt. lia.
Qed.

(** A pass of the loop under a known length keeps the length and keeps
    the current frame inside it, moving it forward by at most one. *)
Lemma playback_pass_in_range errs t st :
  duration_known st = true -> frame_in_range st ->
  let st' := state_after (playback_pass errs t) st in
  duration_known st' = true /\ total_frames st' = total_frames st
  /\ frame_in_range st'
  /\ current_frame_num st <= current_frame_num st' <= current_frame_num st + 1.
Proof.
  intros Hknown [Hlo Hhi]. cbv zeta. unfold state_after, frame_in_range.
  rewrite playback_pass_cases. cbv zeta.
  set (st0 := if cleared t then set_is_playing false st else st).
  assert (H0 : timeline st0 = timeline st) by (subst st0; destruct (cleared t); reflexivity).
  apply timeline_eq in H0. destruct H0 as (Hc & Ht & Hk).
  assert (Hk0 : duration_known st0 = true) by congruence.
  assert (Hsame : duration_known st0 = true /\ total_frames st0 = total_frames st
                  /\ (0 <= current_frame_num st0
                      /\ lt_frames (current_frame_num st0) (total_frames st0) = true)
                  /\ current_frame_num st <= current_frame_num st0
                     <= current_frame_num st + 1).
  { rewrite Hc, Ht. repeat split; auto; lia. }
  assert (Hend : forall message,
             duration_known (ended message st0) = true
             /\ total_frames (ended message st0) = total_frames st
             /\ (0 <= current_frame_num (ended message st0)
                 /\ lt_frames (current_frame_num (ended message st0))
                              (total_frames (ended message st0)) = true)
             /\ current_frame_num st <= current_frame_num (ended message st0)
                <= current_frame_num st + 1).
  { intro message. destruct (ended_known message st0 Hk0) as (He & _ & _).
    apply timeline_eq in He. destruct He as (-> & -> & ->). exact Hsame. }
  assert (Hadv : forall r1 r2,
             ge_frames_minus_1 (current_frame_num st) (total_frames st) = false ->
             duration_known (advanced r1 r2 st0) = true
             /\ total_frames (advanced r1 r2 st0) = total_frames st
             /\ (0 <= current_frame_num (advanced r1 r2 st0)
                 /\ lt_frames (current_frame_num (advanced r1 r2 st0))
                              (total_frames (advanced r1 r2 st0)) = true)
             /\ current_frame_num st <= current_frame_num (advanced r1 r2 st0)
                <= current_frame_num st + 1).
  { intros r1 r2 Hge. unfold advanced. cbn. rewrite Hc, Ht.
    repeat split; auto; try lia. apply ge_frames_minus_1_false, Hge. }
  destruct (negb (is_playing st0)); [exact Hsame |].
  destruct (ffmpeg_process1 st); [| exact Hsame].
  destruct (exited1 t); [apply Hend |].
  destruct (ffmpeg_process2 st); [| exact Hsame].
  destruct (exited2 t); [apply Hend |].
  destruct (ge_frames_minus_1 _ _) eqn:Hge; [apply Hend |].
  destruct (bad_read _ _ _).
  - destruct (max_errors <=? _); [apply Hend | exact Hsame].
  - destruct (pace st); apply Hadv; reflexivity.
Qed.

Lemma playback_passes_in_range ticks : forall errs st,
  duration_known st = true -> frame_in_range st ->
  let st' := state_after (playback_passes errs ticks) st in
  duration_known st' = true /\ total_frames st' = total_frames st
  /\ frame_in_range st' /\ current_frame_num st <= current_frame_num st'.
Proof.
  induction ticks as [| t rest IH]; intros errs st Hknown Hrange; cbv zeta.
  - cbn. repeat split; try apply Hrange; auto; lia.
  - cbn [playback_passes]. rewrite state_after_bind.
    destruct (playback_pass_in_range errs t st Hknown Hrange) as (Hk & Ht & Hr & Hc).
    destruct (outcome (playback_pass errs t) st) as [[n |] | e].
    + destruct (IH n _ Hk Hr) as (Hk' & Ht' & Hr' & Hc').
      repeat split; try apply Hr'; auto; try congruence; lia.
    + cbn. repeat split; try apply Hr; auto; lia.
    + repeat split; try apply Hr; auto; lia.
Qed.

Section CurrentFrame.

Variable py_float : string -> option float.
Variable cv2 : Cv2.
Variable sp : Subprocess.

Lemma display_untouched_timeline : display_untouched timeline.
Proof. repeat split; intros v st; reflexivity. Qed.

Lemma streams_untouched_timeline : streams_untouched timeline.
Proof. repeat split; intros v st; reflexivity. Qed.

Lemma step_frame_timeline direction st :
  timeline (state_after (step_frame cv2 sp direction) st)
  = if step_taken direction st
    then (current_frame_num st + direction, total_frames st, duration_known st)
    else timeline st.
Proof.
  unfold step_frame, step_taken. rewrite state_after_get.
  destruct (is_playing st || _); cbn [negb andb]; [reflexivity |].
  destruct (tk_state_eqb (seek_bar_state st) DISABLED && _); cbn [negb andb];
    [reflexivity |].
  destruct ((0 <=? _) && _); cbn [when]; [| reflexivity].
  rewrite state_after_modify, state_after_seq_keeps.
  - unfold timeline. destruct (duration_known st) eqn:E; cbn; rewrite ?E; reflexivity.
  - apply keeps_bind;
      [apply display_single_frame_keeps, display_untouched_timeline |].
    intro. apply update_status_bar_keeps. intros v s. reflexivity.
Qed.

Lemma seek_video_timeline value x n st :
  seek_bar_state st = NORMAL ->
  float_of_value py_float value = Ok x -> Py.float_to_int x = Ok n ->
  timeline (state_after (seek_video py_float cv2 sp value) st)
  = (n, total_frames st, duration_known st).
Proof.
  intros Hbar Hx Hn. unfold seek_video.
  rewrite state_after_get, Hbar, Hx. cbn [tk_state_eqb].
  change (bind (lift (Ok x)) ?k) with (k x). cbv beta. rewrite Hn.
  change (bind (lift (Ok n)) ?k) with (k n). cbv beta.
  rewrite state_after_modify, state_after_seq_keeps.
  - destruct (is_playing st).
    + rewrite start_ffmpeg_processes_keeps by apply streams_untouched_timeline.
      reflexivity.
    + rewrite display_single_frame_keeps by apply display_untouched_timeline.
      reflexivity.
  - apply update_status_bar_keeps. intros v s. reflexivity.
Qed.

(** C3 (amended). Under a known timeline length with the current frame
    inside [0 .. total_frames - 1]:
    - [step_frame] keeps it inside: a step that would leave the range is
      ignored (the frame stays where it is, which for a step of one
      frame is the nearest bound), any other step is taken as asked;
    - the playback loop keeps it inside over any run: it only moves
      forward and stops advancing at the last frame;
    - [seek_video] stores the requested value as it is, without
      clamping; the frame is inside the range after a seek exactly when
      the requested value is.
    None of them changes the length. *)
Theorem current_frame_in_range_unless_seek_outside (st : VideoComparer)
  (Hknown : duration_known st = true) (Hrange : frame_in_range st) :
  (forall direction,
      let st' := state_after (step_frame cv2 sp direction) st in
      duration_known st' = true /\ total_frames st' = total_frames st
      /\ frame_in_range st'
      /\ current_frame_num st'
         = if step_taken direction st then current_frame_num st + direction
           else current_frame_num st)
  /\ (forall ticks,
      let st' := state_after (video_playback_loop ticks) st in
      duration_known st' = true /\ total_frames st' = total_frames st
      /\ frame_in_range st'
      /\ current_frame_num st <= current_frame_num st')
  /\ (forall value x n,
      seek_bar_state st = NORMAL ->
      float_of_value py_float value = Ok x -> Py.float_to_int x = Ok n ->
      let st' := state_after (seek_video py_float cv2 sp value) st in
      duration_known st' = true /\ total_frames st' = total_frames st
      /\ current_frame_num st' = n
      /\ (frame_in_range st' <-> 0 <= n /\ lt_frames n (total_frames st) = true)).
Proof.
  split; [| split].
  - intro direction. cbv zeta.
    pose proof (step_frame_timeline direction st) as H.
    unfold frame_in_range, timeline in *.
    destruct (step_taken direction st) eqn:Hs; injection H as -> -> ->;
      repeat split; auto; try apply Hrange.
    + unfold step_taken in Hs. apply andb_prop in Hs. destruct Hs as [_ Hs].
      apply andb_prop in Hs. destruct Hs as [Hs _]. apply Z.leb_le, Hs.
    + unfold step_taken in Hs. apply andb_prop in Hs. destruct Hs as [_ Hs].
      apply andb_prop in Hs. apply Hs.
  - intro ticks. apply playback_passes_in_range; assumption.
  - intros value x n Hbar Hx Hn. cbv zeta.
    pose proof (seek_video_timeline value x n st Hbar Hx Hn) as H.
    unfold frame_in_range, timeline in *. injection H as -> -> ->.
    repeat split; auto; tauto.
Qed.

End CurrentFrame.

(* ================================================================= *)
(** * Output geometry *)

(** C4 (amended). With [ar = w / h]: when [tw / th > ar] the size is
    [(int(th * ar), th)], and otherwise, equality included, it is
    [(tw, int(tw / ar))].  The computed side is the product or quotient
    truncated toward zero, never rounded up; it is within one pixel of
    the rounded value. *)
Theorem display_size_truncates (w h tw th : Z) (ar ratio : float)
  (Har : Py.int_truediv w h = Ok ar) (Hratio : Py.int_truediv tw th = Ok ratio) :
  ((ar <? ratio)%float = true ->
   forall x dw, Py.int_mul_float th ar = Ok x -> Py.float_to_int x = Ok dw ->
     calculate_display_size w h tw th = Ok (dw, th)
     /\ exists r, Py.float_round x = Ok r /\ dw - 1 <= r <= dw + 1)
  /\ ((ar <? ratio)%float = false ->
      forall y dh, Py.int_div_float tw ar = Ok y -> Py.float_to_int y = Ok dh ->
        calculate_display_size w h tw th = Ok (tw, dh)
        /\ exists r, Py.float_round y = Ok r /\ dh - 1 <= r <= dh + 1).
Proof.
  unfold calculate_display_size. rewrite Har, Hratio. cbn [rbind].
  split; intros Hcmp v d Hv Hd; rewrite Hcmp, Hv; cbn [rbind]; rewrite Hd;
    (split; [reflexivity | apply float_to_int_round, Hd]).
Qed.
(* ================================================================= *)
(** * Toggle mode *)

Lemma reshape_fits st raw :
  fits st raw ->
  reshape raw (display_height st) (display_width st) = Ok (frombuffer raw).
Proof.
  intros (Hh & Hw & Hlen). unfold reshape.
  apply Z.leb_le in Hh, Hw. apply Z.eqb_eq in Hlen.
  rewrite Hh, Hw, Hlen. reflexivity.
Qed.

Lemma array_at_store mem r v :
  array_at (array_store mem r v) r = rewritten (array_at mem r) v.
Proof. destruct r; reflexivity. Qed.

Lemma array_store_twice mem r v v' :
  array_store (array_store mem r v) r v' = array_store mem r v'.
Proof. destruct r; reflexivity. Qed.

(** A drawing call writes the array it is given and no other. *)
Lemma draw_writes_one mem r op mem' :
  draw mem r op = Ok mem' ->
  (exists v, op (array_at mem r) = Ok v /\ mem' = array_store mem r v)
  /\ forall r', r' <> r -> array_at mem' r' = array_at mem r'.
Proof.
  unfold draw. destruct (op (array_at mem r)) as [v |]; [| discriminate].
  cbn [rbind]. intro H. injection H as <-.
  split; [exists v; auto |].
  intros r' Hr. destruct r, r'; try reflexivity; congruence.
Qed.

Lemma draw_identity mem r op :
  op (array_at mem r) = Ok (data (array_at mem r)) -> draw mem r op = Ok mem.
Proof.
  unfold draw. intros ->. cbn [rbind].
  destruct mem as [[d1 w1] [d2 w2] [d3 w3]], r; reflexivity.
Qed.

Section Toggle.

Variable cv2 : Cv2.

(** [_add_video_labels] leaves in the array it is given what the four
    calls make of it. *)
Lemma add_video_labels_labelled st mem r :
  _add_video_labels cv2 st mem r
  = let? v := labelled cv2 st (array_at mem r) in Ok (array_store mem r v).
Proof.
  unfold _add_video_labels, labelled, draw. cbv zeta.
  destruct (cv2_putText cv2 _ (array_at mem r) _ _ _ _ _) as [v1 |];
    [| reflexivity].
  cbn [rbind]. rewrite array_at_store.
  destruct (cv2_putText cv2 _ (rewritten (array_at mem r) v1) _ _ _ _ _) as [v2 |];
    [| reflexivity].
  cbn [rbind]. rewrite array_store_twice, array_at_store.
  destruct (cv2_putText cv2 _ (rewritten (array_at mem r) v2) _ _ _ _ _) as [v3 |];
    [| reflexivity].
  cbn [rbind]. rewrite array_store_twice, array_at_store.
  destruct (cv2_putText cv2 _ (rewritten (array_at mem r) v3) _ _ _ _ _) as [v4 |];
    [| reflexivity].
  cbn [rbind]. rewrite array_store_twice. reflexivity.
Qed.

Lemma add_video_labels_writes_one st mem r mem' :
  _add_video_labels cv2 st mem r = Ok mem' ->
  forall r', r' <> r -> array_at mem' r' = array_at mem r'.
Proof.
  rewrite add_video_labels_labelled.
  destruct (labelled cv2 st (array_at mem r)) as [v |]; [| discriminate].
  cbn [rbind]. intro H. injection H as <-.
  intros r' Hr. destruct r, r'; try reflexivity; congruence.
Qed.

(** When every [putText] call leaves the bytes of its image as they
    were, so do the labels. *)
Lemma labelled_identity st img :
  (forall shape img text org scale colour thickness,
      cv2_putText cv2 shape img text org scale colour thickness = Ok (data img)) ->
  labelled cv2 st img = Ok (data img).
Proof.
  intro Hput. unfold labelled. cbv zeta.
  repeat (rewrite Hput; cbn [rbind rewritten data]). reflexivity.
Qed.

(** [n < x] when the float [x] is exactly [w / 2]. *)
Lemma int_lt_exact_half n w half m k :
  Py.float_fraction half = Some (m, k) -> 2 * m = w * 2 ^ k ->
  Py.int_lt_float n half = (2 * n <? w).
Proof.
  intros Hf Hexact. pose proof (float_fraction_exponent _ _ _ Hf) as Hk.
  unfold Py.int_lt_float. rewrite Hf.
  assert (Hcmp : (Z.shiftl n k <? m) = (2 * n <? w)).
  { rewrite Z.shiftl_mul_pow2 by lia.
    assert (Hp : 0 < 2 ^ k) by (apply Z.pow_pos_nonneg; lia).
    destruct (Z.ltb_spec (n * 2 ^ k) m), (Z.ltb_spec (2 * n) w);
      try reflexivity; nia. }
  unfold Py.float_fraction in Hf.
  destruct (Prim2SF half); try discriminate; exact Hcmp.
Qed.

Lemma toggle_composite st raw_frame1 raw_frame2 half :
  comparison_mode_var st = toggle ->
  fits st raw_frame1 -> fits st raw_frame2 ->
  Py.int_truediv (display_width st) 2 = Ok half ->
  composite cv2 st raw_frame1 raw_frame2
  = let inputs := views raw_frame1 raw_frame2 in
    let chosen := toggle_choice st half in
    let? v := labelled cv2 st (array_at inputs chosen) in
    Ok (array_store inputs chosen v, chosen).
Proof.
  intros Hmode Hfit1 Hfit2 Hhalf. unfold composite.
  rewrite (reshape_fits st raw_frame1 Hfit1), (reshape_fits st raw_frame2 Hfit2).
  cbn [rbind]. fold (views raw_frame1 raw_frame2).
  unfold compose. rewrite Hmode, Hhalf. cbn [rbind fst snd].
  fold (toggle_choice st half). rewrite add_video_labels_labelled. cbv zeta.
  destruct (labelled cv2 st _); reflexivity.
Qed.

(** C5 (amended). In toggle mode, for two raw frames of the current
    geometry and any split position, the mode selects one of the two
    input frames and blends nothing: the first when
    [split_pos < display_width / 2], the second otherwise (with
    [display_width / 2] exact, the first when
    [2 * split_pos < display_width]).  Whenever the compositor produces
    an output buffer, that buffer holds the selected frame with the four
    label-drawing calls applied to it, as in every other mode; so it is
    byte-identical to the selected input frame when the drawing calls
    change no byte. *)
Theorem toggle_selects_one_input_and_labels_it (st : VideoComparer)
  (raw_frame1 raw_frame2 : frame) (half : float)
  (Hmode : comparison_mode_var st = toggle)
  (Hfit1 : fits st raw_frame1) (Hfit2 : fits st raw_frame2)
  (Hhalf : Py.int_truediv (display_width st) 2 = Ok half) :
  let selected := toggle_frame st half raw_frame1 raw_frame2 in
  (exists mem chosen,
      compose cv2 st (views raw_frame1 raw_frame2) = Ok (mem, chosen)
      /\ data (array_at mem chosen) = selected)
  /\ (selected = raw_frame1 \/ selected = raw_frame2)
  /\ (forall m k, Py.float_fraction half = Some (m, k) ->
                  2 * m = display_width st * 2 ^ k ->
                  selected = if 2 * split_pos st <? display_width st
                             then raw_frame1 else raw_frame2)
  /\ (forall mem out,
        composite cv2 st raw_frame1 raw_frame2 = Ok (mem, out) ->
        exists img,
          data img = selected
          /\ labelled cv2 st img = Ok (data (array_at mem out)))
  /\ ((forall shape img text org scale colour thickness,
          cv2_putText cv2 shape img text org scale colour thickness = Ok (data img)) ->
      exists mem out,
        composite cv2 st raw_frame1 raw_frame2 = Ok (mem, out)
        /\ data (array_at mem out) = selected).
Proof.
  cbv zeta.
  assert (Hselected : data (array_at (views raw_frame1 raw_frame2) (toggle_choice st half))
                      = toggle_frame st half raw_frame1 raw_frame2).
  { unfold toggle_choice, toggle_frame. destruct (Py.int_lt_float _ _); reflexivity. }
  pose proof (toggle_composite st raw_frame1 raw_frame2 half Hmode Hfit1 Hfit2 Hhalf)
    as Hcomposite.
  cbv zeta in Hcomposite.
  split.
  { exists (views raw_frame1 raw_frame2), (toggle_choice st half).
    split; [| exact Hselected].
    unfold compose. rewrite Hmode, Hhalf. reflexivity. }
  split; [unfold toggle_frame; destruct (Py.int_lt_float _ _); auto |].
  split.
  { intros m k Hf Hexact. unfold toggle_frame.
    rewrite (int_lt_exact_half _ _ _ _ _ Hf Hexact). reflexivity. }
  split.
  - intros mem out. rewrite Hcomposite.
    destruct (labelled cv2 st _) as [v |] eqn:Hl; [| discriminate].
    cbn [rbind]. intro H. injection H as <- <-.
    exists (array_at (views raw_frame1 raw_frame2) (toggle_choice st half)).
    split; [exact Hselected |].
    rewrite Hl, array_at_store. reflexivity.
  - intro Hput. rewrite Hcomposite, (labelled_identity st _ Hput). cbn [rbind].
    eexists. eexists. split; [reflexivity |].
    rewrite array_at_store. exact Hselected.
Qed.

End Toggle.

(* ================================================================= *)
(** * Starvation and the end of the streams *)

Lemma playback_passes_app ticks1 : forall errs ticks2 st,
  playback_passes errs (ticks1 ++ ticks2) st =
  match playback_passes errs ticks1 st with
  | (Ok (Looping n), st') => playback_passes n ticks2 st'
  | other => other
  end.
Proof.
  induction ticks1 as [| t rest IH]; intros errs ticks2 st; [reflexivity |].
  cbn [playback_passes app]. unfold bind.
  destruct (playback_pass errs t st) as [[[n |] | e] st']; cbn; auto.
Qed.

Lemma quiet_pass errs t st :
  streaming st -> quiet t -> room 1 st ->
  playback_pass errs t st =
  if bad_read (frame_size st) (read1 t) (read2 t) then
    if max_errors <=? errs + 1
    then (Ok None, ended "Error: Playback stopped" st)
    else (Ok (Some (errs + 1)), st)
  else
    match pace st with
    | Ok _ => (Ok (Some 0), advanced (read1 t) (read2 t) st)
    | Raise e => (Raise e, advanced (read1 t) (read2 t) st)
    end.
Proof.
  intros (Hp & H1 & H2) (Hc & He1 & He2) Hroom.
  rewrite playback_pass_cases. cbv zeta. rewrite Hc, Hp, He1, He2. cbn [negb].
  destruct (ffmpeg_process1 st); [| congruence].
  destruct (ffmpeg_process2 st); [| congruence].
  replace (ge_frames_minus_1 (current_frame_num st) (total_frames st)) with false;
    [reflexivity |].
  unfold room in Hroom. destruct (total_frames st); cbn; [| reflexivity].
  symmetry. apply Z.leb_gt. lia.
Qed.

Lemma tolerable_run ticks : forall errs st,
  streaming st -> pace st = Ok tt -> Forall quiet ticks ->
  room (Z.of_nat (List.length ticks)) st ->
  tolerable (frame_size st) errs ticks = true ->
  exists st',
    playback_passes errs ticks st = (Ok (Looping (streak (frame_size st) errs ticks)), st')
    /\ same_stream st st'
    /\ current_frame_num st <= current_frame_num st'
       <= current_frame_num st + Z.of_nat (List.length ticks).
Proof.
  induction ticks as [| t rest IH]; intros errs st Hs Hpace Hq Hroom Htol.
  - exists st. cbn. repeat split; lia.
  - inversion Hq as [| ? ? Hqt Hqrest]; subst.
    cbn [tolerable] in Htol. apply andb_prop in Htol. destruct Htol as [Hlt Htol].
    cbn [streak playback_passes]. unfold bind.
    assert (Hroom1 : room 1 st).
    { unfold room in *. destruct (total_frames st); [| exact I].
      cbn [List.length] in Hroom. lia. }
    rewrite (quiet_pass errs t st Hs Hqt Hroom1).
    destruct (bad_read (frame_size st) (read1 t) (read2 t)).
    + replace (max_errors <=? errs + 1) with false
        by (symmetry; apply Z.leb_gt, Z.ltb_lt, Hlt).
      assert (Hroom' : room (Z.of_nat (List.length rest)) st).
      { unfold room in *. destruct (total_frames st); [| exact I].
        cbn [List.length] in Hroom. lia. }
      destruct (IH (errs + 1) st Hs Hpace Hqrest Hroom' Htol)
        as (st' & Hrun & Hsame & Hcur).
      exists st'. split; [exact Hrun |]. split; [exact Hsame |].
      cbn [List.length]. lia.
    + rewrite Hpace.
      set (st1 := advanced (read1 t) (read2 t) st).
      assert (Hroom' : room (Z.of_nat (List.length rest)) st1).
      { unfold room in *. change (total_frames st1) with (total_frames st).
        destruct (total_frames st); [| exact I].
        change (current_frame_num st1) with (current_frame_num st + 1).
        cbn [List.length] in Hroom. lia. }
      destruct (IH 0 st1 Hs Hpace Hqrest Hroom' Htol) as (st' & Hrun & Hsame & Hcur).
      exists st'. split; [exact Hrun |]. split; [exact Hsame |].
      change (current_frame_num st1) with (current_frame_num st + 1) in Hcur.
      cbn [List.length]. lia.
Qed.

(** C6. While the loop is streaming:
    - a pass that finds either process exited ends playback with
      "Video stream ended";
    - over passes in which nothing else happens and frames remain, the
      loop is still going, with the flag set, as long as no ten bad reads
      come in a row: the counter holds the length of the current run of
      bad reads, a good read having reset it to zero;
    - the tenth bad read in a row ends playback with
      "Error: Playback stopped". *)
Theorem playback_ends_on_stream_end_or_ten_bad_reads (st : VideoComparer)
  (Hstreaming : streaming st) :
  (forall errs t rest,
      cleared t = false -> exited1 t = true \/ exited2 t = true ->
      playback_passes errs (t :: rest) st
      = (Ok Left, ended "Video stream ended" st)
      /\ is_playing (ended "Video stream ended" st) = false)
  /\ (forall errs ticks,
      pace st = Ok tt -> Forall quiet ticks ->
      room (Z.of_nat (List.length ticks)) st ->
      tolerable (frame_size st) errs ticks = true ->
      exists st',
        playback_passes errs ticks st
        = (Ok (Looping (streak (frame_size st) errs ticks)), st')
        /\ is_playing st' = true)
  /\ (forall errs ticks t rest,
      pace st = Ok tt -> Forall quiet ticks -> quiet t ->
      room (Z.of_nat (List.length ticks) + 1) st ->
      tolerable (frame_size st) errs ticks = true ->
      streak (frame_size st) errs ticks = max_errors - 1 ->
      bad_read (frame_size st) (read1 t) (read2 t) = true ->
      exists st',
        playback_passes errs (ticks ++ t :: rest) st
        = (Ok Left, ended "Error: Playback stopped" st')
        /\ is_playing (ended "Error: Playback stopped" st') = false).
Proof.
  split; [| split].
  - intros errs t rest Hc He.
    destruct Hstreaming as (Hp & H1 & H2).
    cbn [playback_passes]. unfold bind. rewrite playback_pass_cases. cbv zeta.
    rewrite Hc, Hp. cbn [negb].
    assert (Hplay : is_playing (ended "Video stream ended" st) = false).
    { unfold ended, handle_playback_end. run. destruct (duration_known st); reflexivity. }
    destruct (ffmpeg_process1 st); [| congruence].
    destruct (exited1 t); [auto |].
    destruct (ffmpeg_process2 st); [| congruence].
    destruct He as [He | He]; [discriminate | rewrite He; auto].
  - intros errs ticks Hpace Hq Hroom Htol.
    destruct (tolerable_run ticks errs st Hstreaming Hpace Hq Hroom Htol)
      as (st' & Hrun & Hsame & _).
    exists st'. split; [exact Hrun |].
    destruct Hsame as (-> & _). apply Hstreaming.
  - intros errs ticks t rest Hpace Hq Hqt Hroom Htol Hstreak Hbad.
    assert (Hroom' : room (Z.of_nat (List.length ticks)) st).
    { unfold room in *. destruct (total_frames st); [lia | exact I]. }
    destruct (tolerable_run ticks errs st Hstreaming Hpace Hq Hroom' Htol)
      as (st' & Hrun & Hsame & Hcur).
    destruct Hsame as (A1 & A2 & A3 & A4 & A5 & A6 & A7).
    exists st'. rewrite playback_passes_app, Hrun.
    cbn [playback_passes]. unfold bind.
    rewrite quiet_pass; auto.
    + rewrite A4, Hbad, Hstreak.
      replace (max_errors <=? max_errors - 1 + 1) with true by reflexivity.
      split; [reflexivity |].
      unfold ended, handle_playback_end. run. destruct (duration_known st'); reflexivity.
    + unfold streaming. rewrite A1, A2, A3. exact Hstreaming.
    + unfold room in *. rewrite A6. destruct (total_frames st); [lia | exact I].
Qed.

(* ================================================================= *)
(** * Reaching the end of the timeline *)

Lemma update_status_bar_text text st :
  outcome (update_status_bar text) st = Ok tt ->
  exists times,
    status_var (state_after (update_status_bar text) st)
    = (text ++ " | " ++ times)%string.
Proof.
  unfold update_status_bar. run.
  destruct (duration_known st); cbn;
    (destruct (Py.int_div_float _ _); cbn; [| discriminate]);
    (destruct (format_time _) as [current_time |]; cbn; [| discriminate]).
  - destruct (frames_div_float _ _); cbn; [| discriminate].
    destruct (format_time _) as [total_time |]; cbn; [| discriminate].
    intros _. eexists. reflexivity.
  - intros _. eexists. reflexivity.
Qed.

(** C7 (amended). With a known length of [n] frames, a run of the loop
    that starts on the last frame [n - 1] leaves the loop in its first
    pass without advancing: the current frame is still [n - 1], no frame
    was handed to the display, the flag is cleared and the status update
    queued is "Finished"; once the main loop has run the queue the status
    line reads "Finished | ..." (provided the times can be formatted).
    Started one frame earlier, on [n - 2], the run advances exactly once
    on a good read and then finishes the same way. *)
Theorem playback_from_last_frame_finishes_at_once (cv2 : Cv2) (sp : Subprocess)
  (st : VideoComparer) (n : Z) (t : tick) (rest : list tick)
  (Hstreaming : streaming st) (Hknown : duration_known st = true)
  (Htotal : total_frames st = Fin n) (Hquiet : quiet t)
  (Hqueue : after_queue st = []) :
  (current_frame_num st = n - 1 ->
   let st' := state_after (video_playback_loop (t :: rest)) st in
   outcome (video_playback_loop (t :: rest)) st = Ok Left
   /\ current_frame_num st' = n - 1
   /\ frames_shown st' = []
   /\ is_playing st' = false
   /\ after_queue st' = [PlayPauseBtnPlay; UpdateStatusBar "Finished"]
   /\ (outcome (update_status_bar "Finished") st' = Ok tt ->
       exists times,
         status_var (state_after (mainloop cv2 sp) st')
         = ("Finished | " ++ times)%string))
  /\ (current_frame_num st = n - 2 ->
      forall t2, quiet t2 -> pace st = Ok tt ->
      bad_read (frame_size st) (read1 t) (read2 t) = false ->
      let st' := state_after (video_playback_loop (t :: t2 :: rest)) st in
      outcome (video_playback_loop (t :: t2 :: rest)) st = Ok Left
      /\ current_frame_num st' = n - 1
      /\ frames_shown st' = [(read1 t, read2 t)]
      /\ is_playing st' = false
      /\ last (after_queue st') PlayPauseBtnPlay = UpdateStatusBar "Finished").
Proof.
  destruct Hstreaming as (Hp & H1 & H2). destruct Hquiet as (Hc & He1 & He2).
  split.
  - intro Hcur. cbv zeta.
    unfold video_playback_loop, outcome, state_after.
    cbn [playback_passes]. unfold bind. rewrite playback_pass_cases. cbv zeta.
    rewrite Hc, Hp, He1, He2, Htotal, Hcur. cbn [negb ge_frames_minus_1].
    destruct (ffmpeg_process1 st); [| congruence].
    destruct (ffmpeg_process2 st); [| congruence].
    rewrite Z.leb_refl. cbn [ret fst snd].
    destruct (ended_known "Finished" st Hknown) as (Ht & Hplay & Hq).
    apply timeline_eq in Ht. destruct Ht as (Hcur' & Htot' & Hk').
    rewrite Hqueue in Hq. cbn [app] in Hq.
    repeat split; auto; try congruence.
    + unfold frames_shown. rewrite Hq. reflexivity.
    + intro Hfmt.
      destruct (update_status_bar_text "Finished" _ Hfmt) as (times & Htimes).
      exists times.
      change (snd (mainloop cv2 sp ?s)) with (state_after (mainloop cv2 sp) s).
      unfold mainloop. rewrite state_after_get, state_after_modify, Hq.
      cbn [run_callbacks run_callback].
      unfold state_after, outcome in *. unfold bind, try_except, modify, ret. cbn.
      set (s := set_play_pause_btn_text "Play" (set_after_queue [] (ended "Finished" st))).
      assert (Hsame : update_status_bar "Finished" s
                      = (fst (update_status_bar "Finished" (ended "Finished" st)),
                         set_status_var
                           (status_var (snd (update_status_bar "Finished"
                                                               (ended "Finished" st)))) s)).
      { unfold update_status_bar. run.
        destruct (duration_known (ended "Finished" st)); cbn;
          (destruct (Py.int_div_float _ _); cbn; [| reflexivity]);
          (destruct (format_time _); cbn; [| reflexivity]); [| reflexivity].
        destruct (frames_div_float _ _); cbn; [| reflexivity].
        destruct (format_time _); reflexivity. }
      rewrite Hsame, Hfmt. cbn. exact Htimes.
  - intros Hcur t2 (Hc2 & He21 & He22) Hpace Hgood. cbv zeta.
    unfold video_playback_loop, outcome, state_after.
    cbn [playback_passes]. unfold bind.
    rewrite quiet_pass; [| repeat split; auto | repeat split; auto |].
    2:{ unfold room. rewrite Htotal, Hcur. lia. }
    rewrite Hgood, Hpace.
    rewrite playback_pass_cases. cbv zeta.
    set (st1 := advanced (read1 t) (read2 t) st). rewrite Hc2.
    change (is_playing st1) with (is_playing st).
    change (ffmpeg_process1 st1) with (ffmpeg_process1 st).
    change (ffmpeg_process2 st1) with (ffmpeg_process2 st).
    change (total_frames st1) with (total_frames st).
    change (current_frame_num st1) with (current_frame_num st + 1).
    rewrite Hp, He21, He22, Htotal, Hcur. cbn [negb ge_frames_minus_1].
    destruct (ffmpeg_process1 st); [| congruence].
    destruct (ffmpeg_process2 st); [| congruence].
    replace (n - 1 <=? n - 2 + 1) with true by (symmetry; apply Z.leb_le; lia).
    cbn [ret fst snd].
    assert (Hk1 : duration_known st1 = true) by exact Hknown.
    destruct (ended_known "Finished" st1 Hk1) as (Ht & Hplay & Hq).
    apply timeline_eq in Ht. destruct Ht as (Hcur' & Htot' & Hk').
    change (current_frame_num st1) with (current_frame_num st + 1) in Hcur'.
    assert (Hq1 : after_queue st1
                  = [SeekBarSet (current_frame_num st + 1);
                     UpdateFrameDisplay (read1 t) (read2 t); UpdateStatusBar "Playing"]).
    { subst st1. unfold advanced. cbn. rewrite Hqueue, Hknown. reflexivity. }
    rewrite Hq1 in Hq.
    repeat split; auto.
    + lia.
    + unfold frames_shown. rewrite Hq. reflexivity.
    + rewrite Hq. reflexivity.
Qed.

(* ================================================================= *)
(** * The split position *)

Section SplitPosition.

Variable cv2 : Cv2.
Variable sp : Subprocess.






End SplitPosition.
(* ================================================================= *)
(** * Further properties of the code *)

(** ** [format_time] *)

Lemma digits_fuel_length fuel : forall n acc,
  (String.length acc <= String.length (digits_fuel fuel n acc))%nat.
Proof.
  induction fuel as [| fuel IH]; intros n acc; cbn [digits_fuel]; [lia |].
  destruct (n / 10 =? 0); [cbn; lia |].
  specialize (IH (n / 10) (String (digit (n mod 10)) acc)). cbn in IH. lia.
Qed.

Lemma str_nonneg_length n : (1 <= String.length (str_nonneg n))%nat.
Proof.
  unfold str_nonneg. cbn [digits_fuel].
  destruct (n / 10 =? 0); [cbn; lia |].
  pose proof (digits_fuel_length (Z.to_nat (Z.log2 n)) (n / 10)
                (String (digit (n mod 10)) EmptyString)) as H.
  cbn in H. lia.
Qed.

Lemma str_nonneg_length_two n : 10 <= n -> (2 <= String.length (str_nonneg n))%nat.
Proof.
  intro Hn. unfold str_nonneg. cbn [digits_fuel].
  destruct (n / 10 =? 0) eqn:Hq.
  - apply Z.eqb_eq in Hq.
    assert (1 <= n / 10) by (apply Z.div_le_lower_bound; lia). lia.
  - assert (Hlog : Z.log2 8 <= Z.log2 n) by (apply Z.log2_le_mono; lia).
    change (Z.log2 8) with 3 in Hlog.
    destruct (Z.to_nat (Z.log2 n)) as [| fuel] eqn:Hf; [lia |].
    cbn [digits_fuel].
    destruct (n / 10 / 10 =? 0); [cbn; lia |].
    pose proof (digits_fuel_length fuel (n / 10 / 10)
                  (String (digit ((n / 10) mod 10))
                     (String (digit (n mod 10)) EmptyString))) as H.
    cbn in H. lia.
Qed.

Lemma format_02d_length z : 0 <= z -> (2 <= String.length (format_02d z))%nat.
Proof.
  intro Hz. unfold format_02d.
  destruct ((0 <=? z) && (z <? 10)) eqn:Hsmall.
  - pose proof (str_nonneg_length z). cbn [String.length]. lia.
  - unfold str_int. destruct (z <? 0) eqn:Hneg; [apply Z.ltb_lt in Hneg; lia |].
    apply str_nonneg_length_two.
    apply andb_false_iff in Hsmall.
    destruct Hsmall as [H | H]; [apply Z.leb_gt in H | apply Z.ltb_ge in H]; lia.
Qed.

Lemma format_02d_seconds z : 0 <= z < 60 -> String.length (format_02d z) = 2%nat.
Proof.
  intro Hz.
  assert (Hall : forallb (fun n => Nat.eqb (String.length (format_02d (Z.of_nat n))) 2)
                         (seq 0 60) = true) by (vm_compute; reflexivity).
  rewrite forallb_forall in Hall.
  specialize (Hall (Z.to_nat z)).
  rewrite Z2Nat.id in Hall by lia.
  apply Nat.eqb_eq, Hall, in_seq. lia.
Qed.

Lemma string_length_app a b :
  String.length (a ++ b) = (String.length a + String.length b)%nat.
Proof. induction a as [| c a IH]; cbn; [reflexivity | rewrite IH; reflexivity]. Qed.

Lemma float_to_int_sign x n :
  (x <? 0)%float = false -> Py.float_to_int x = Ok n -> 0 <= n.
Proof.
  unfold Py.float_to_int. rewrite ltb_spec.
  destruct (Prim2SF x) as [s | s | | s m e] eqn:Hx; intros Hlt Hn;
    try discriminate; injection Hn as <-; [lia |].
  destruct s; [discriminate Hlt | apply scaled_quot_nonneg].
Qed.

Lemma is_nan_Prim2SF x : is_nan x = true -> Prim2SF x = S754_nan.
Proof.
  unfold is_nan. rewrite eqb_spec. unfold SFeqb, SFcompare.
  destruct (Prim2SF x) as [s | s | | s m e]; try (destruct s; discriminate);
    [reflexivity |].
  change (IntDef.Z.compare e e) with (Z.compare e e).
  change (PosDef.Pos.compare_cont Eq m m) with (Pos.compare m m).
  rewrite Z.compare_refl, Pos.compare_refl. destruct s; discriminate.
Qed.

(** X1. [format_time] gives [00:00] for a negative number of seconds; for
    any other finite number it gives the minutes and the seconds of the
    truncated value, the seconds below 60 in exactly two characters and
    the minutes in at least two, so the text is at least five characters
    long; it raises for a NaN and for an infinity. *)
Theorem format_time_shape (seconds : float) :
  ((seconds <? 0)%float = true -> format_time seconds = Ok "00:00"%string)
  /\ (forall s, (seconds <? 0)%float = false -> Py.float_to_int seconds = Ok s ->
      0 <= s
      /\ format_time seconds
         = Ok (format_02d (s / 60) ++ ":" ++ format_02d (s mod 60))%string
      /\ 0 <= s mod 60 < 60
      /\ String.length (format_02d (s mod 60)) = 2%nat
      /\ (2 <= String.length (format_02d (s / 60)))%nat)
  /\ (forall text, format_time seconds = Ok text -> (5 <= String.length text)%nat)
  /\ (is_nan seconds = true -> format_time seconds = Raise ValueError)
  /\ (seconds = infinity -> format_time seconds = Raise OverflowError).
Proof.
  assert (Hshape : forall s, (seconds <? 0)%float = false ->
            Py.float_to_int seconds = Ok s ->
            0 <= s
            /\ format_time seconds
               = Ok (format_02d (s / 60) ++ ":" ++ format_02d (s mod 60))%string
            /\ 0 <= s mod 60 < 60
            /\ String.length (format_02d (s mod 60)) = 2%nat
            /\ (2 <= String.length (format_02d (s / 60)))%nat).
  { intros s Hlt Hs.
    pose proof (float_to_int_sign _ _ Hlt Hs) as Hpos.
    pose proof (Z.mod_pos_bound s 60 ltac:(lia)) as Hmod.
    repeat split; try lia.
    - unfold format_time. rewrite Hlt, Hs. reflexivity.
    - apply format_02d_seconds. lia.
    - apply format_02d_length. apply Z.div_pos; lia. }
  repeat split.
  - intro Hlt. unfold format_time. rewrite Hlt. reflexivity.
  - apply Hshape; assumption.
  - apply Hshape; assumption.
  - apply Hshape; assumption.
  - apply Hshape; assumption.
  - apply Hshape; assumption.
  - apply Hshape; assumption.
  - intros text Htext. unfold format_time in Htext.
    destruct (seconds <? 0)%float eqn:Hlt.
    + injection Htext as <-. cbn. lia.
    + destruct (Py.float_to_int seconds) as [s | e] eqn:Hs; [| discriminate].
      destruct (Hshape s eq_refl eq_refl) as (_ & _ & _ & Hsec & Hmin).
      cbn [rbind] in Htext. injection Htext as <-.
      rewrite string_length_app. cbn [append String.length]. rewrite Hsec. lia.
  - intro Hnan. unfold format_time, Py.float_to_int.
    rewrite ltb_spec, (is_nan_Prim2SF _ Hnan). reflexivity.
  - intros ->. reflexivity.
Qed.

(** ** The status bar *)

Lemma set_status_var_same st : set_status_var (status_var st) st = st.
Proof. destruct st; reflexivity. Qed.

Lemma update_status_bar_run text st :
  update_status_bar text st
  = match status_times st with
    | Ok times => (Ok tt, set_status_var (text ++ " | " ++ times) st)
    | Raise e => (Raise e, st)
    end.
Proof.
  unfold update_status_bar, status_times. run.
  destruct (duration_known st);
    destruct (Py.int_div_float (current_frame_num st) (video_fps st)) as [x | e];
    cbn; try reflexivity;
    destruct (format_time x) as [current_time | e]; cbn; try reflexivity.
  destruct (frames_div_float (total_frames st) (video_fps st)) as [y | e];
    cbn; try reflexivity.
  destruct (format_time y) as [total_time | e]; reflexivity.
Qed.

Lemma update_status_bar_state text st :
  state_after (update_status_bar text) st
  = set_status_var (status_var (state_after (update_status_bar text) st)) st.
Proof.
  unfold state_after. rewrite update_status_bar_run.
  destruct (status_times st) as [times | e]; cbn [snd];
    [destruct st; reflexivity | symmetry; apply set_status_var_same].
Qed.

Lemma update_status_bar_state_after_seq {A} (m : M A) text st :
  state_after (m;; update_status_bar text) st
  = set_status_var (status_var (state_after (m;; update_status_bar text) st))
      (state_after m st).
Proof.
  rewrite state_after_bind. destruct (outcome m st).
  - apply update_status_bar_state.
  - symmetry. apply set_status_var_same.
Qed.

(** X2. [update_status_bar] writes nothing but the status text, and
    writes it only when it returns: if a division or [format_time]
    raises, the whole state is as before.  With a zero [video_fps] it
    raises [ZeroDivisionError]; with an unknown length the text ends in
    the placeholder for the total time. *)
Theorem update_status_bar_writes_status_or_nothing (text : string) (st : VideoComparer) :
  let st' := state_after (update_status_bar text) st in
  st' = set_status_var (status_var st') st
  /\ (forall e, outcome (update_status_bar text) st = Raise e -> st' = st)
  /\ (outcome (update_status_bar text) st = Ok tt ->
      exists times, status_var st' = (text ++ " | " ++ times)%string
                    /\ (duration_known st = false ->
                        exists current_time,
                          times = (current_time ++ " / ??:??")%string))
  /\ ((video_fps st =? 0)%float = true ->
      is_infinity (Py.float_of_Z (current_frame_num st)) = false ->
      update_status_bar text st = (Raise ZeroDivisionError, st)).
Proof.
  unfold state_after, outcome. rewrite update_status_bar_run.
  repeat split.
  - destruct (status_times st) as [times | e]; cbn [snd];
      [destruct st; reflexivity | symmetry; apply set_status_var_same].
  - intros e. destruct (status_times st) as [times | e']; cbn; [discriminate | reflexivity].
  - intros Hok.
    destruct (status_times st) as [times | e] eqn:Htimes; cbn in Hok; [| discriminate].
    exists times. split; [reflexivity |].
    intro Hunknown. unfold status_times in Htimes. rewrite Hunknown in Htimes.
    destruct (Py.int_div_float (current_frame_num st) (video_fps st)) as [x | e];
      cbn [rbind] in Htimes; [| discriminate].
    destruct (format_time x) as [current_time | e]; cbn [rbind] in Htimes; [| discriminate].
    injection Htimes as <-. exists current_time. reflexivity.
  - intros Hzero Hfinite.
    unfold status_times, Py.int_div_float, Py.int_to_float, Py.float_truediv.
    rewrite Hfinite. cbn [rbind]. rewrite Hzero. reflexivity.
Qed.

(** ** Fetching one frame *)

Section SingleFrame.

Variable cv2 : Cv2.
Variable sp : Subprocess.

Lemma fetchable_true n st :
  fetchable n st = true <->
  truthy (video_path1 st) = true /\ truthy (video_path2 st) = true
  /\ (duration_known st = true -> 0 <= n /\ lt_frames n (total_frames st) = true).
Proof.
  unfold fetchable.
  destruct (truthy (video_path1 st)), (truthy (video_path2 st)), (duration_known st);
    cbn; rewrite ?negb_involutive, ?andb_true_iff, ?Z.leb_le; intuition congruence.
Qed.

Lemma display_single_frame_skip n st :
  fetchable n st = false -> display_single_frame cv2 sp n st = (Ok tt, st).
Proof.
  unfold fetchable, display_single_frame. run.
  destruct (truthy (video_path1 st)), (truthy (video_path2 st)); cbn;
    try reflexivity.
  destruct (duration_known st && negb ((0 <=? n) && lt_frames n (total_frames st)));
    cbn; [reflexivity | discriminate].
Qed.

Lemma update_frame_display_run raw1 raw2 st :
  update_frame_display cv2 raw1 raw2 st
  = match
      (let? drawn := composite cv2 st raw1 raw2 in
       cv2_cvtColor cv2 (data (array_at (fst drawn) (snd drawn))) COLOR_BGR2RGB)
    with
    | Ok img => (Ok tt, set_video_label_image (Some img) st)
    | Raise e => (Raise e, st)
    end.
Proof.
  unfold update_frame_display. run.
  destruct (composite cv2 st raw1 raw2) as [drawn | e]; cbn; [| reflexivity].
  destruct (cv2_cvtColor cv2 _ COLOR_BGR2RGB); reflexivity.
Qed.

Lemma display_single_frame_run n st x1 x2 :
  fetchable n st = true ->
  Py.int_div_float n (fps1 st) = Ok x1 ->
  Py.int_div_float (n + video2_offset st) (fps2 st) = Ok x2 ->
  let a := requested_at st (video_path1 st) x1 (Some 1) in
  let b := requested_at st (video_path2 st) x2 (Some 1) in
  display_single_frame cv2 sp n st
  = match check_output sp a with
    | None => update_status_bar (fetch_error n) (set_requests (requests st ++ [a]) st)
    | Some raw1 =>
        let st2 := set_requests ((requests st ++ [a]) ++ [b]) st in
        match check_output sp b with
        | None => update_status_bar (fetch_error n) st2
        | Some raw2 =>
            if full_size st raw1 raw2 then
              match update_frame_display cv2 raw1 raw2 st2 with
              | (Raise CalledProcessError, _) => update_status_bar (fetch_error n) st2
              | shown => shown
              end
            else (Ok tt, st2)
        end
    end.
Proof.
  intros Hfetch Hx1 Hx2 a b.
  apply fetchable_true in Hfetch. destruct Hfetch as (Hp1 & Hp2 & Hrange).
  unfold display_single_frame.
  unfold bind at 1. unfold get at 1. cbv beta iota.
  rewrite Hp1, Hp2. cbn [negb orb].
  assert (Hguard : duration_known st
                   && negb ((0 <=? n) && lt_frames n (total_frames st)) = false).
  { destruct (duration_known st); [| reflexivity].
    destruct (Hrange eq_refl) as [H0 Hlt].
    apply Z.leb_le in H0. rewrite H0, Hlt. reflexivity. }
  rewrite Hguard, Hx1, Hx2.
  fold (fetch_error n). subst a b. unfold requested_at.
  unfold try_except, run_check_output, when.
  unfold bind, lift, modify, ret, raise. cbv beta iota.
  destruct (check_output sp _) as [raw1 |]; [| reflexivity].
  cbv beta iota. cbn [requests set_requests].
  destruct (check_output sp _) as [raw2 |]; [| reflexivity].
  cbv beta iota.
  fold (frame_size st). fold (full_size st raw1 raw2).
  destruct (full_size st raw1 raw2); [| reflexivity].
  rewrite !update_frame_display_run.
  destruct (let? drawn := _ in _) as [img | e]; [reflexivity |].
  destruct e; reflexivity.
Qed.

(** X3. [display_single_frame] returns at once, with the state as it
    was, when a source is missing or when the length is known and the
    frame lies outside [0, total_frames).  So whenever it runs ffmpeg both
    sources are set and the frame is inside a known timeline. *)
Theorem display_single_frame_guards (st : VideoComparer) (n : Z) :
  (truthy (video_path1 st) = false \/ truthy (video_path2 st) = false
   \/ (duration_known st = true /\ (n < 0 \/ lt_frames n (total_frames st) = false)) ->
   display_single_frame cv2 sp n st = (Ok tt, st))
  /\ (requests (state_after (display_single_frame cv2 sp n) st) <> requests st ->
      truthy (video_path1 st) = true /\ truthy (video_path2 st) = true
      /\ (duration_known st = true -> 0 <= n /\ lt_frames n (total_frames st) = true)).
Proof.
  split.
  - intro Hskip. apply display_single_frame_skip.
    destruct (fetchable n st) eqn:Hfetch; [| reflexivity].
    apply fetchable_true in Hfetch. destruct Hfetch as (Hp1 & Hp2 & Hrange).
    destruct Hskip as [H | [H | [Hknown H]]]; [congruence | congruence |].
    destruct (Hrange Hknown) as [H0 Hlt]. destruct H; [lia | congruence].
  - intro Hrequested. apply fetchable_true.
    destruct (fetchable n st) eqn:Hfetch; [reflexivity |].
    exfalso. apply Hrequested. unfold state_after.
    rewrite display_single_frame_skip by assumption. reflexivity.
Qed.

(** X4. When ffmpeg fails on either source, [display_single_frame] goes
    on to [update_status_bar] with the error text for that frame: the
    second command is not run after a failure of the first, the image on
    display stays, and the status text, when it is written, starts with
    the error text. *)
Theorem failed_fetch_reports_and_keeps_image (st : VideoComparer) (n : Z) (x1 x2 : float)
  (Hfetch : fetchable n st = true)
  (Hx1 : Py.int_div_float n (fps1 st) = Ok x1)
  (Hx2 : Py.int_div_float (n + video2_offset st) (fps2 st) = Ok x2) :
  let a := requested_at st (video_path1 st) x1 (Some 1) in
  let b := requested_at st (video_path2 st) x2 (Some 1) in
  check_output sp a = None \/ check_output sp b = None ->
  let st' := state_after (display_single_frame cv2 sp n) st in
  display_single_frame cv2 sp n st
  = update_status_bar (fetch_error n)
      (set_requests (requests st ++ issued (is_some (check_output sp a)) a b) st)
  /\ requests st' = requests st ++ issued (is_some (check_output sp a)) a b
  /\ video_label_image st' = video_label_image st
  /\ (outcome (display_single_frame cv2 sp n) st = Ok tt ->
      exists times, status_var st' = (fetch_error n ++ " | " ++ times)%string).
Proof.
  intros a b Hfailed st'.
  assert (Hrun : display_single_frame cv2 sp n st
                 = update_status_bar (fetch_error n)
                     (set_requests
                        (requests st ++ issued (is_some (check_output sp a)) a b) st)).
  { rewrite (display_single_frame_run n st x1 x2 Hfetch Hx1 Hx2). fold a b.
    destruct (check_output sp a) as [raw1 |] eqn:Ha; cbn [is_some issued].
    - destruct Hfailed as [H | H]; [discriminate |]. rewrite H.
      rewrite <- app_assoc. reflexivity.
    - reflexivity. }
  subst st'. unfold state_after, outcome. rewrite Hrun.
  set (st1 := set_requests _ st).
  pose proof (update_status_bar_state (fetch_error n) st1) as Hstate.
  pose proof (update_status_bar_text (fetch_error n) st1) as Htext.
  unfold state_after, outcome in Hstate, Htext.
  repeat split.
  - rewrite Hstate. reflexivity.
  - rewrite Hstate. reflexivity.
  - exact Htext.
Qed.

(** X5. When both commands succeed, [display_single_frame] shows the
    two buffers only if each has exactly [width * height * 3] bytes;
    otherwise it returns without an image, a status text or an error,
    having only run the two commands.  With two full buffers the image is
    the one [update_frame_display] makes of them at the current geometry. *)
Theorem fetched_frames_shown_only_at_full_size (st : VideoComparer) (n : Z)
  (x1 x2 : float) (raw1 raw2 : frame)
  (Hfetch : fetchable n st = true)
  (Hx1 : Py.int_div_float n (fps1 st) = Ok x1)
  (Hx2 : Py.int_div_float (n + video2_offset st) (fps2 st) = Ok x2) :
  let a := requested_at st (video_path1 st) x1 (Some 1) in
  let b := requested_at st (video_path2 st) x2 (Some 1) in
  check_output sp a = Some raw1 -> check_output sp b = Some raw2 ->
  let st2 := set_requests (requests st ++ [a; b]) st in
  (full_size st raw1 raw2 = false ->
   display_single_frame cv2 sp n st = (Ok tt, st2))
  /\ (full_size st raw1 raw2 = true ->
      forall shown, update_frame_display cv2 raw1 raw2 st2 = (Ok tt, shown) ->
      display_single_frame cv2 sp n st = (Ok tt, shown)
      /\ video_label_image shown
         = video_label_image (state_after (update_frame_display cv2 raw1 raw2) st)).
Proof.
  intros a b Ha Hb st2.
  pose proof (display_single_frame_run n st x1 x2 Hfetch Hx1 Hx2) as Hrun.
  cbv zeta in Hrun. fold a b in Hrun. rewrite Ha, Hb, <- app_assoc in Hrun.
  cbn [app] in Hrun. fold st2 in Hrun.
  split; intro Hsize; rewrite Hsize in Hrun; [exact Hrun |].
  intros shown Hshown. rewrite Hshown in Hrun. split; [exact Hrun |].
  unfold state_after. rewrite update_frame_display_run in Hshown |- *.
  change (composite cv2 st2 raw1 raw2) with (composite cv2 st raw1 raw2) in Hshown.
  destruct (let? drawn := _ in _) as [img | e]; [| discriminate].
  injection Hshown as <-. reflexivity.
Qed.

End SingleFrame.

(** ** Composing the image *)

Lemma reshape_ok raw h w arr :
  reshape raw h w = Ok arr ->
  arr = frombuffer raw /\ 0 <= h /\ 0 <= w /\ Z.of_nat (List.length raw) = h * w * 3.
Proof.
  unfold reshape.
  destruct ((0 <=? h) && (0 <=? w) && (Z.of_nat (List.length raw) =? h * w * 3)) eqn:H;
    [| discriminate].
  intro Harr. injection Harr as <-.
  apply andb_true_iff in H. destruct H as [H H3].
  apply andb_true_iff in H. destruct H as [H1 H2].
  apply Z.leb_le in H1, H2. apply Z.eqb_eq in H3. auto.
Qed.


Lemma nth_paste {A B C} (f : nat * (A * B) -> C) (da : A) (db : B) (dc : C) :
  forall (a : list A) (b : list B) start i,
    List.length a = List.length b -> (i < List.length a)%nat ->
    nth i (map f (combine (seq start (List.length a)) (combine a b))) dc
    = f ((start + i)%nat, (nth i a da, nth i b db)).
Proof.
  induction a as [| x a IH]; intros b start i Hlen Hi; [cbn in Hi; lia |].
  destruct b as [| y b]; [discriminate |].
  cbn [List.length seq combine map].
  destruct i as [| i]; cbn [nth].
  - rewrite Nat.add_0_r. reflexivity.
  - rewrite IH by (cbn in Hlen, Hi; lia). f_equal. f_equal. lia.
Qed.

Lemma paste_columns_length w s a b :
  List.length a = List.length b ->
  List.length (paste_columns w s a b) = List.length a.
Proof.
  intro Hlen. unfold paste_columns.
  rewrite length_map, !length_combine, length_seq. lia.
Qed.

Lemma paste_columns_nth w s a b i :
  List.length a = List.length b -> (i < List.length a)%nat ->
  nth i (paste_columns w s a b) x00
  = if slice_start s w <=? (Z.of_nat i / 3) mod w then nth i b x00 else nth i a x00.
Proof.
  intros Hlen Hi. unfold paste_columns.
  rewrite (nth_paste _ x00 x00 x00) by assumption. reflexivity.
Qed.

Section Composite.

Variable cv2 : Cv2.


(** X7. In the side-by-side, overlay and difference modes
    [combined_frame] is a new, writeable array: the labels are drawn on
    it, and the two read-only views over the raw frames still hold the
    bytes that were read. *)
Theorem fresh_array_modes_keep_the_inputs (st : VideoComparer) (raw1 raw2 : frame)
  (mem : arrays) (out : array_ref)
  (Hmode : comparison_mode_var st <> toggle)
  (Hdone : composite cv2 st raw1 raw2 = Ok (mem, out)) :
  out = new_ref
  /\ writeable (array_at mem out) = true
  /\ frame1_bgr mem = frombuffer raw1 /\ frame2_bgr mem = frombuffer raw2.
Proof.
  unfold composite in Hdone.
  destruct (reshape raw1 _ _) as [arr1 |] eqn:H1; [| discriminate].
  destruct (reshape raw2 _ _) as [arr2 |] eqn:H2; [| discriminate].
  apply reshape_ok in H1, H2. destruct H1 as [-> _], H2 as [-> _].
  cbn [rbind] in Hdone.
  destruct (compose cv2 st _) as [[mem0 r] |] eqn:Hcompose; [| discriminate].
  cbn [rbind fst snd] in Hdone.
  rewrite add_video_labels_labelled in Hdone.
  destruct (labelled cv2 st (array_at mem0 r)) as [v |]; [| discriminate].
  cbn [rbind] in Hdone. injection Hdone as <- <-.
  assert (Hfresh : r = new_ref /\ writeable (new_array mem0) = true
                   /\ frame1_bgr mem0 = frombuffer raw1
                   /\ frame2_bgr mem0 = frombuffer raw2).
  { unfold compose in Hcompose.
    destruct (comparison_mode_var st); [| | | congruence]; cbn in Hcompose.
    - destruct (cv2_line cv2 _ _ _ _ _ _); [| discriminate].
      injection Hcompose as <- <-. auto.
    - destruct (Py.int_truediv _ _); [| discriminate]. cbn in Hcompose.
      destruct (cv2_addWeighted cv2 _ _ _ _ _); [| discriminate].
      injection Hcompose as <- <-. auto.
    - destruct (cv2_absdiff cv2 _ _); [| discriminate]. cbn in Hcompose.
      destruct (cv2_cvtColor cv2 _ _); [| discriminate]. cbn in Hcompose.
      destruct (cv2_cvtColor cv2 _ _); [| discriminate].
      injection Hcompose as <- <-. auto. }
  destruct Hfresh as (-> & Hw & Hf1 & Hf2).
  cbn. auto.
Qed.

(** X28. Toggle mode hands [_add_video_labels] the read-only view of
    the selected raw frame, where every other mode hands it a new
    array.  With an OpenCV whose [putText] refuses a read-only output
    array, [update_frame_display] therefore raises in toggle mode for any
    two frames of the geometry and leaves the image on display as it
    was. *)
Theorem toggle_draws_on_a_read_only_view (st : VideoComparer) (raw1 raw2 : frame)
  (half : float) (e : exn)
  (Hmode : comparison_mode_var st = toggle)
  (Hfit1 : fits st raw1) (Hfit2 : fits st raw2)
  (Hhalf : Py.int_truediv (display_width st) 2 = Ok half)
  (Hchecks : forall shape img text org scale colour thickness,
      writeable img = false ->
      cv2_putText cv2 shape img text org scale colour thickness = Raise e) :
  (exists chosen,
      compose cv2 st (views raw1 raw2) = Ok (views raw1 raw2, chosen)
      /\ writeable (array_at (views raw1 raw2) chosen) = false)
  /\ composite cv2 st raw1 raw2 = Raise e
  /\ update_frame_display cv2 raw1 raw2 st = (Raise e, st).
Proof.
  assert (Hflag : writeable (array_at (views raw1 raw2) (toggle_choice st half)) = false)
    by (unfold toggle_choice; destruct (Py.int_lt_float _ _); reflexivity).
  assert (Hcomposite : composite cv2 st raw1 raw2 = Raise e).
  { rewrite (toggle_composite cv2 st raw1 raw2 half Hmode Hfit1 Hfit2 Hhalf).
    cbv zeta. unfold labelled. cbv zeta. rewrite (Hchecks _ _ _ _ _ _ _ Hflag).
    reflexivity. }
  split.
  { exists (toggle_choice st half). split; [| exact Hflag].
    unfold compose. rewrite Hmode, Hhalf. reflexivity. }
  split; [exact Hcomposite |].
  rewrite update_frame_display_run, Hcomposite. reflexivity.
Qed.

End Composite.

(** X8. The side-by-side copy [a[:, s:] = b[:, s:]] keeps the length of
    [a] and takes each byte from [b] when its pixel column is at or right
    of the split and from [a] otherwise; with the split at column 0 the
    copy is [b], with the split at the width or beyond it is [a]. *)
Theorem side_by_side_takes_columns_right_of_split (w s : Z) (a b : frame)
  (Hlen : List.length a = List.length b) (Hw : 0 < w) :
  List.length (paste_columns w s a b) = List.length a
  /\ (0 <= s <= w ->
      forall i, (i < List.length a)%nat ->
        nth i (paste_columns w s a b) x00
        = if s <=? (Z.of_nat i / 3) mod w then nth i b x00 else nth i a x00)
  /\ paste_columns w 0 a b = b
  /\ (w <= s -> paste_columns w s a b = a).
Proof.
  split; [apply paste_columns_length, Hlen |].
  split; [| split].
  - intros Hs i Hi. rewrite paste_columns_nth by assumption.
    unfold slice_start. destruct (s <? 0) eqn:Hneg; [apply Z.ltb_lt in Hneg; lia |].
    replace (Z.max 0 (Z.min w s)) with s by lia. reflexivity.
  - apply (nth_ext _ _ x00 x00).
    + rewrite paste_columns_length; assumption.
    + intros i Hi. rewrite paste_columns_length in Hi by assumption.
      rewrite paste_columns_nth by assumption.
      unfold slice_start. cbn [Z.ltb Z.compare].
      replace (Z.max 0 (Z.min w 0)) with 0 by lia.
      pose proof (Z.mod_pos_bound (Z.of_nat i / 3) w Hw) as Hcol.
      destruct (0 <=? (Z.of_nat i / 3) mod w) eqn:Hc; [reflexivity |].
      apply Z.leb_gt in Hc. lia.
  - intro Hs. apply (nth_ext _ _ x00 x00).
    + apply paste_columns_length, Hlen.
    + intros i Hi. rewrite paste_columns_length in Hi by assumption.
      rewrite paste_columns_nth by assumption.
      unfold slice_start.
      destruct (s <? 0) eqn:Hneg; [apply Z.ltb_lt in Hneg; lia |].
      replace (Z.max 0 (Z.min w s)) with w by lia.
      pose proof (Z.mod_pos_bound (Z.of_nat i / 3) w Hw) as Hcol.
      destruct (w <=? (Z.of_nat i / 3) mod w) eqn:Hc; [| reflexivity].
      apply Z.leb_le in Hc. lia.
Qed.

(** ** Starting and stopping the streams *)

Section Streams.

Variable py_float : string -> option float.
Variable cv2 : Cv2.
Variable sp : Subprocess.

Lemma stop_ffmpeg_processes_run st :
  stop_ffmpeg_processes st = (Ok tt, stopped st).
Proof. reflexivity. Qed.

Lemma start_ffmpeg_processes_run st t x1 x2 :
  Py.int_div_float t (fps1 st) = Ok x1 ->
  Py.int_div_float (t + video2_offset st) (fps2 st) = Ok x2 ->
  start_ffmpeg_processes sp t st
  = (Ok tt, started sp (requested_at st (video_path1 st) x1 None)
                       (requested_at st (video_path2 st) x2 None) st).
Proof.
  intros H1 H2.
  unfold start_ffmpeg_processes, stop_ffmpeg_processes, started, requested_at.
  unfold bind at 1. unfold bind at 1. unfold modify at 1 2. cbv beta iota.
  unfold bind at 1. unfold get at 1. cbv beta iota.
  cbn [fps1 fps2 video2_offset set_ffmpeg_process1 set_ffmpeg_process2].
  rewrite H1. unfold bind at 1. unfold lift at 1. cbv beta iota.
  rewrite H2. unfold bind at 1. unfold lift at 1. cbv beta iota.
  cbn [ffmpeg_path video_path1 video_path2 display_width display_height
       set_ffmpeg_process1 set_ffmpeg_process2].
  unfold try_except, run_Popen, showerror.
  unfold bind, modify, ret, raise. cbv beta iota.
  destruct (Popen sp _) eqn:Ha; cbv beta iota.
  - destruct (Popen sp _) eqn:Hb in |- *; cbv beta iota; cbn;
      rewrite <- ?app_assoc; reflexivity.
  - cbn. reflexivity.
Qed.

(** X9. [start_ffmpeg_processes] never raises once the two seek times
    are computed.  If both processes start, their handles are stored and
    nothing else but the command log changes.  If one fails to start, the
    error box is shown once and [is_playing] is cleared; a first process
    that did start before the second failed keeps its handle. *)
Theorem failed_start_clears_the_playing_flag (st : VideoComparer) (t : Z) (x1 x2 : float)
  (Hx1 : Py.int_div_float t (fps1 st) = Ok x1)
  (Hx2 : Py.int_div_float (t + video2_offset st) (fps2 st) = Ok x2) :
  let a := requested_at st (video_path1 st) x1 None in
  let b := requested_at st (video_path2 st) x2 None in
  let st' := state_after (start_ffmpeg_processes sp t) st in
  outcome (start_ffmpeg_processes sp t) st = Ok tt
  /\ (Popen sp a = true -> Popen sp b = true ->
      st' = set_requests (requests st ++ [a; b])
              (set_ffmpeg_process1 (Some a) (set_ffmpeg_process2 (Some b) st)))
  /\ (Popen sp a = false \/ Popen sp b = false ->
      is_playing st' = false
      /\ errors_shown st' = errors_shown st ++ ["FFmpeg Error"%string]
      /\ ffmpeg_process2 st' = None
      /\ ffmpeg_process1 st' = if Popen sp a then Some a else None).
Proof.
  intros a b st'. subst st'. unfold state_after, outcome.
  rewrite (start_ffmpeg_processes_run st t x1 x2 Hx1 Hx2). fold a b.
  unfold started. cbn [fst snd].
  split; [reflexivity |]. split.
  - intros Ha Hb. rewrite Ha, Hb. reflexivity.
  - intros Hfailed.
    destruct (Popen sp a) eqn:Ha; cbn [andb].
    + destruct Hfailed as [H | H]; [discriminate |]. rewrite H. cbn. auto.
    + cbn. auto.
Qed.

(** X10. A seek while playing stores the sought frame and restarts both
    streams there: the stream of B at the frame plus the offset, neither
    command limited to one frame, and no single frame is fetched, so the
    image on display is left to the playback loop. *)
Theorem seek_while_playing_restarts_both_streams (st : VideoComparer)
  (value : scale_value) (x : float) (n : Z) (x1 x2 : float)
  (Hbar : seek_bar_state st = NORMAL) (Hplaying : is_playing st = true)
  (Hvalue : float_of_value py_float value = Ok x) (Hn : Py.float_to_int x = Ok n)
  (Hx1 : Py.int_div_float n (fps1 st) = Ok x1)
  (Hx2 : Py.int_div_float (n + video2_offset st) (fps2 st) = Ok x2) :
  let a := requested_at st (video_path1 st) x1 None in
  let b := requested_at st (video_path2 st) x2 None in
  let st' := state_after (seek_video py_float cv2 sp value) st in
  current_frame_num st' = n
  /\ requests st' = requests st ++ issued (Popen sp a) a b
  /\ ffmpeg_process1 st' = (if Popen sp a then Some a else None)
  /\ ffmpeg_process2 st' = (if Popen sp a && Popen sp b then Some b else None)
  /\ is_playing st' = Popen sp a && Popen sp b
  /\ video_label_image st' = video_label_image st.
Proof.
  intros a b st'. subst st'. unfold seek_video.
  rewrite state_after_get, Hbar, Hvalue. cbn [tk_state_eqb].
  change (bind (lift (Ok x)) ?k) with (k x). cbv beta. rewrite Hn.
  change (bind (lift (Ok n)) ?k) with (k n). cbv beta.
  rewrite state_after_modify, Hplaying.
  set (st1 := set_current_frame_num n st).
  pose proof (start_ffmpeg_processes_run st1 n x1 x2 Hx1 Hx2) as Hrun.
  change (requested_at st1 (video_path1 st1) x1 None) with a in Hrun.
  change (requested_at st1 (video_path2 st1) x2 None) with b in Hrun.
  rewrite (update_status_bar_state_after_seq (start_ffmpeg_processes sp n) "Seek" st1).
  unfold state_after. rewrite Hrun. cbn [snd].
  unfold started.
  destruct (Popen sp a), (Popen sp b); cbn; rewrite ?Hplaying; auto 10.
Qed.




(** X12. [on_closing] always returns: it clears [is_playing], drops both
    process handles and leaves every other attribute; a playback loop
    that makes its next pass afterwards leaves at that pass without
    queueing a call and without touching the state. *)
Theorem closing_stops_playback (st : VideoComparer) :
  let closed := set_is_playing false (stopped st) in
  on_closing st = (Ok tt, closed)
  /\ (forall errs t rest,
        playback_passes errs (t :: rest) closed = (Ok Left, closed)).
Proof.
  split; [reflexivity |].
  intros errs t rest. cbn [playback_passes]. unfold bind.
  rewrite playback_pass_cases. cbv zeta.
  destruct (cleared t); reflexivity.
Qed.

End Streams.

(** ** Stepping *)

Section Stepping.

Variable cv2 : Cv2.
Variable sp : Subprocess.

Lemma step_frame_keeps {B} (f : VideoComparer -> B) direction :
  untouched f set_current_frame_num -> untouched f set_seek_bar_value ->
  display_untouched f -> keeps f (step_frame cv2 sp direction).
Proof.
  intros Hc Hv Hd. pose proof Hd as (Hs & _). unfold step_frame.
  repeat first
    [ apply update_status_bar_keeps; assumption
    | apply display_single_frame_keeps; assumption
    | keeps_step ].
Qed.

Lemma step_frame_not_taken direction st :
  step_taken direction st = false -> step_frame cv2 sp direction st = (Ok tt, st).
Proof.
  unfold step_taken, step_frame. unfold bind at 1. unfold get at 1. cbv beta iota.
  destruct (is_playing st || _); cbn [negb andb]; [reflexivity |].
  destruct (tk_state_eqb (seek_bar_state st) DISABLED && _); cbn [negb andb];
    [reflexivity |].
  intros ->. reflexivity.
Qed.

(** X13. A step that [step_frame] does not take (while playing, with the
    buttons disabled, backwards with the seek bar disabled, or off either
    end of the timeline) leaves the whole state as it was.  From a frame
    at or after 0 with the seek bar enabled, a step forward that is taken
    can be undone: the step back is taken too and restores the current
    frame. *)
Theorem step_forward_then_back_returns (st : VideoComparer) :
  (forall direction, step_taken direction st = false ->
     step_frame cv2 sp direction st = (Ok tt, st))
  /\ (step_taken 1 st = true -> seek_bar_state st = NORMAL ->
      0 <= current_frame_num st ->
      let st1 := state_after (step_frame cv2 sp 1) st in
      let st2 := state_after (step_frame cv2 sp (-1)) st1 in
      current_frame_num st1 = current_frame_num st + 1
      /\ step_taken (-1) st1 = true
      /\ timeline st2 = timeline st).
Proof.
  split; [intros direction; apply step_frame_not_taken |].
  intros Htaken Hbar Hpos st1 st2.
  pose proof (step_frame_timeline cv2 sp 1 st) as H1.
  rewrite Htaken in H1. fold st1 in H1.
  assert (Hplaying : is_playing st1 = is_playing st)
    by (apply (step_frame_keeps is_playing); repeat split; intros v s; reflexivity).
  assert (Hbtn : play_pause_btn_state st1 = play_pause_btn_state st)
    by (apply (step_frame_keeps play_pause_btn_state); repeat split; intros v s;
        reflexivity).
  assert (Hseek : seek_bar_state st1 = seek_bar_state st)
    by (apply (step_frame_keeps seek_bar_state); repeat split; intros v s;
        reflexivity).
  unfold timeline in H1. injection H1 as Hcur Htotal Hknown.
  assert (Hback : step_taken (-1) st1 = true).
  { unfold step_taken in Htaken |- *.
    rewrite Hplaying, Hbtn, Hseek, Hcur, Htotal, Hbar.
    apply andb_prop in Htaken. destruct Htaken as [Hguards Hrange].
    apply andb_prop in Hguards. destruct Hguards as [Hg _].
    apply andb_prop in Hrange. destruct Hrange as [_ Hlt].
    rewrite Hg. cbn [tk_state_eqb andb negb].
    replace (current_frame_num st + 1 + -1) with (current_frame_num st) by lia.
    apply andb_true_intro. split; [apply Z.leb_le, Hpos |].
    destruct (total_frames st) as [total |]; [| reflexivity].
    cbn [lt_frames] in Hlt |- *. apply Z.ltb_lt in Hlt. apply Z.ltb_lt. lia. }
  split; [exact Hcur |]. split; [exact Hback |].
  pose proof (step_frame_timeline cv2 sp (-1) st1) as H2.
  rewrite Hback in H2. fold st2 in H2. rewrite H2, Hcur, Htotal, Hknown.
  unfold timeline. f_equal. f_equal. lia.
Qed.

End Stepping.

(** ** The end of playback and the loop *)

Section PlaybackEnd.

Variable cv2 : Cv2.
Variable sp : Subprocess.

Lemma ended_run message st :
  ended message st
  = if duration_known st then
      set_after_queue (after_queue st ++ [PlayPauseBtnPlay; UpdateStatusBar message])
        (set_is_playing false st)
    else
      set_after_queue
        (after_queue st ++ [SeekBarToTotal; PlayPauseBtnPlay; UpdateStatusBar message])
        (set_duration_known true
           (set_total_frames (Fin (current_frame_num st)) (set_is_playing false st))).
Proof.
  unfold ended, handle_playback_end, state_after, after. run.
  destruct (duration_known st); cbn; rewrite <- ?app_assoc; reflexivity.
Qed.

(** X14. When playback of a video of unknown length ends,
    [handle_playback_end] fixes the length at the frame reached and
    queues the seek bar update before the button and status updates.
    The current frame then equals the length, one past the last index:
    [display_single_frame] on it returns without fetching and a step
    forward is refused.  Once the main loop has run the queued calls the
    seek bar is enabled with the length itself as its maximum. *)
Theorem unknown_length_fixed_where_playback_ends (message : string) (st : VideoComparer)
  (Hunknown : duration_known st = false) (Hqueue : after_queue st = []) :
  let st1 := ended message st in
  let st2 := state_after (mainloop cv2 sp) st1 in
  handle_playback_end message st = (Ok tt, st1)
  /\ timeline st1 = (current_frame_num st, Fin (current_frame_num st), true)
  /\ is_playing st1 = false
  /\ after_queue st1 = [SeekBarToTotal; PlayPauseBtnPlay; UpdateStatusBar message]
  /\ display_single_frame cv2 sp (current_frame_num st1) st1 = (Ok tt, st1)
  /\ step_frame cv2 sp 1 st1 = (Ok tt, st1)
  /\ seek_bar_state st2 = NORMAL
  /\ seek_bar_to st2 = Fin (current_frame_num st)
  /\ timeline st2 = timeline st1.
Proof.
  intros st1 st2.
  assert (Hst1 : st1 = set_after_queue
                         [SeekBarToTotal; PlayPauseBtnPlay; UpdateStatusBar message]
                         (set_duration_known true
                            (set_total_frames (Fin (current_frame_num st))
                               (set_is_playing false st)))).
  { subst st1. rewrite ended_run, Hunknown, Hqueue. reflexivity. }
  split; [apply handle_playback_end_ok |].
  split; [rewrite Hst1; reflexivity |].
  split; [rewrite Hst1; reflexivity |].
  split; [rewrite Hst1; reflexivity |].
  split.
  { apply display_single_frame_skip. unfold fetchable. rewrite Hst1.
    cbn [duration_known total_frames current_frame_num set_after_queue
         set_duration_known set_total_frames set_is_playing lt_frames
         video_path1 video_path2].
    rewrite Z.ltb_irrefl, andb_false_r. cbn [negb andb].
    apply andb_false_r. }
  split.
  { apply step_frame_not_taken. unfold step_taken. rewrite Hst1.
    cbn [duration_known total_frames current_frame_num set_after_queue
         set_duration_known set_total_frames set_is_playing lt_frames
         is_playing play_pause_btn_state seek_bar_state].
    replace (current_frame_num st + 1 <? current_frame_num st) with false
      by (symmetry; apply Z.ltb_ge; lia).
    rewrite !andb_false_r. reflexivity. }
  assert (Hloop : forall {B} (f : VideoComparer -> B),
            untouched f set_status_var ->
            f st2 = f (set_play_pause_btn_text "Play"
                         (set_seek_bar_state NORMAL
                            (set_seek_bar_to (Fin (current_frame_num st))
                               (set_after_queue [] st1))))).
  { intros B f Hf. subst st2. unfold mainloop.
    rewrite state_after_get, state_after_modify.
    replace (after_queue st1)
      with [SeekBarToTotal; PlayPauseBtnPlay; UpdateStatusBar message]
      by (rewrite Hst1; reflexivity).
    cbn [run_callbacks run_callback].
    unfold state_after, bind, try_except, get, modify, ret. cbv beta iota.
    replace (total_frames (set_after_queue [] st1)) with (Fin (current_frame_num st))
      by (rewrite Hst1; reflexivity).
    set (st3 := set_play_pause_btn_text _ _).
    pose proof (update_status_bar_keeps f message Hf st3) as Hkeep.
    unfold state_after in Hkeep.
    destruct (update_status_bar message st3) as [[[] | e] s]; cbn in Hkeep |- *;
      exact Hkeep. }
  split; [rewrite Hloop by (intros v s; reflexivity); reflexivity |].
  split; [rewrite Hloop by (intros v s; reflexivity); reflexivity |].
  rewrite Hloop by (intros v s; reflexivity). reflexivity.
Qed.

(** X15. A pass of the playback loop that finds [is_playing] cleared
    leaves the loop at once and does not call [handle_playback_end]:
    nothing is queued, the button and status are not reset, and an
    unknown length stays unknown. *)
Theorem pause_leaves_the_loop_silently (st : VideoComparer) (errs : Z) (t : tick)
  (rest : list tick) (Hpaused : cleared t = true \/ is_playing st = false) :
  let st' := state_after (playback_passes errs (t :: rest)) st in
  playback_passes errs (t :: rest) st
  = (Ok Left, if cleared t then set_is_playing false st else st)
  /\ is_playing st' = false
  /\ after_queue st' = after_queue st
  /\ timeline st' = timeline st.
Proof.
  intro st'. subst st'. unfold state_after.
  cbn [playback_passes]. unfold bind.
  rewrite playback_pass_cases. cbv zeta.
  destruct (cleared t) eqn:Hc; cbn.
  - auto.
  - destruct Hpaused as [H | H]; [discriminate |]. rewrite H. cbn. auto.
Qed.

Lemma frames_shown_advanced raw1 raw2 st :
  frames_shown (advanced raw1 raw2 st) = frames_shown st ++ [(raw1, raw2)].
Proof.
  unfold frames_shown, advanced. cbn [after_queue set_after_queue].
  rewrite !flat_map_app. destruct (duration_known st); reflexivity.
Qed.

(** X16. Over passes in which nothing but the two reads happens, with
    frames remaining and never ten bad reads in a row, the playback loop
    advances the current frame by exactly the number of passes whose two
    reads were full frames, and hands exactly those pairs of buffers to
    [update_frame_display], in the order read; a bad read shows nothing
    and does not advance. *)
Theorem playback_shows_the_good_reads_in_order (st : VideoComparer) (errs : Z)
  (ticks : list tick)
  (Hstreaming : streaming st) (Hpace : pace st = Ok tt)
  (Hquiet : Forall quiet ticks)
  (Hroom : room (Z.of_nat (List.length ticks)) st)
  (Htolerable : tolerable (frame_size st) errs ticks = true) :
  let st' := state_after (playback_passes errs ticks) st in
  let good := good_reads (frame_size st) ticks in
  current_frame_num st' = current_frame_num st + Z.of_nat (List.length good)
  /\ frames_shown st' = frames_shown st ++ reads good.
Proof.
  revert errs st Hstreaming Hpace Hquiet Hroom Htolerable.
  induction ticks as [| t rest IH]; intros errs st Hs Hpace Hq Hroom Htol.
  - cbn. rewrite app_nil_r. split; [lia | reflexivity].
  - inversion Hq as [| ? ? Hqt Hqrest]; subst.
    cbn [tolerable] in Htol. apply andb_prop in Htol. destruct Htol as [Hlt Htol].
    cbv zeta. unfold state_after. cbn [playback_passes good_reads filter]. unfold bind.
    assert (Hroom1 : room 1 st).
    { unfold room in *. destruct (total_frames st); [| exact I].
      cbn [List.length] in Hroom. lia. }
    rewrite (quiet_pass errs t st Hs Hqt Hroom1).
    destruct (bad_read (frame_size st) (read1 t) (read2 t)); cbn [negb].
    + replace (max_errors <=? errs + 1) with false
        by (symmetry; apply Z.leb_gt, Z.ltb_lt, Hlt).
      assert (Hroom' : room (Z.of_nat (List.length rest)) st).
      { unfold room in *. destruct (total_frames st); [| exact I].
        cbn [List.length] in Hroom. lia. }
      apply (IH (errs + 1) st Hs Hpace Hqrest Hroom' Htol).
    + rewrite Hpace.
      set (st1 := advanced (read1 t) (read2 t) st).
      assert (Hroom' : room (Z.of_nat (List.length rest)) st1).
      { unfold room in *. change (total_frames st1) with (total_frames st).
        destruct (total_frames st); [| exact I].
        change (current_frame_num st1) with (current_frame_num st + 1).
        cbn [List.length] in Hroom. lia. }
      destruct (IH 0 st1 Hs Hpace Hqrest Hroom' Htol) as (Hcur & Hshown).
      unfold state_after in Hcur, Hshown.
      change (frame_size st1) with (frame_size st) in Hcur, Hshown.
      fold (good_reads (frame_size st) rest).
      split.
      * rewrite Hcur. change (current_frame_num st1) with (current_frame_num st + 1).
        cbn [List.length]. lia.
      * rewrite Hshown. subst st1. rewrite frames_shown_advanced, <- app_assoc.
        reflexivity.
Qed.

End PlaybackEnd.

(** ** Resizing and full screen *)

Lemma handle_resize_run st :
  handle_resize st
  = if negb (truthy (video_path1 st)) || negb (truthy (video_path2 st)) then (Ok tt, st)
    else
      match fitted_size st with
      | Ok size => (Ok tt, if size_changed size st then resized size st else st)
      | Raise e => (Raise e, st)
      end.
Proof.
  unfold handle_resize, fitted_size, fitted_source, canvas_height, size_changed, resized.
  unfold bind at 1. unfold get at 1. cbv beta iota.
  destruct (negb (truthy (video_path1 st)) || negb (truthy (video_path2 st)));
    [reflexivity |].
  cbv zeta.
  destruct (is_fullscreen st); cbn [negb].
  - unfold bind, ret, when, modify, after. cbv beta iota. cbn [fst snd].
    destruct (_ || _); [| reflexivity].
    destruct (is_playing st); reflexivity.
  - unfold bind at 1. unfold bind at 1. unfold lift at 1. cbv beta iota.
    destruct (Py.int_truediv (width (video_info1 st)) (height (video_info1 st)))
      as [ar1 | e]; cbn [rbind]; [| reflexivity].
    unfold bind at 1. unfold lift at 1. cbv beta iota.
    destruct (Py.int_truediv (width (video_info2 st)) (height (video_info2 st)))
      as [ar2 | e]; cbn [rbind]; [| reflexivity].
    unfold lift at 1.
    destruct (calculate_display_size _ _ _ _) as [size | e]; [| reflexivity].
    unfold bind, ret, when, modify, after. cbv beta iota.
    destruct (_ || _); [| reflexivity].
    destruct (is_playing st); reflexivity.
Qed.

Lemma int_truediv_by_zero a : Py.int_truediv a 0 = Raise ZeroDivisionError.
Proof. reflexivity. Qed.

Lemma resized_fields size st :
  display_width (resized size st) = fst size
  /\ display_height (resized size st) = snd size
  /\ split_pos (resized size st) = fst size / 2
  /\ is_playing (resized size st) = false
  /\ after_queue (resized size st) = after_queue st ++ [RestartAfterResize (is_playing st)]
  /\ timeline (resized size st) = timeline st
  /\ video2_offset (resized size st) = video2_offset st.
Proof.
  unfold resized. destruct (is_playing st) eqn:Hplaying; cbn; rewrite ?Hplaying; auto 10.
Qed.

(** X17. [handle_resize] does nothing while a source is missing, and when
    computing the size raises it leaves the state as it was.  A computed
    size within one pixel of the current one in both directions is
    ignored.  Otherwise it stores the size, puts the split at half the new
    width, clears [is_playing] and queues the restart with the flag as it
    was; the current frame, the timeline and the offset stay.  Outside
    full screen a zero height left for the video is a
    [ZeroDivisionError]. *)
Theorem handle_resize_all_or_nothing (st : VideoComparer) :
  (truthy (video_path1 st) = false \/ truthy (video_path2 st) = false ->
   handle_resize st = (Ok tt, st))
  /\ (forall e s', handle_resize st = (Raise e, s') -> s' = st)
  /\ (truthy (video_path1 st) = true -> truthy (video_path2 st) = true ->
      forall size, fitted_size st = Ok size ->
        (Z.abs (fst size - display_width st) <= 1
         /\ Z.abs (snd size - display_height st) <= 1 ->
         handle_resize st = (Ok tt, st))
        /\ (1 < Z.abs (fst size - display_width st)
            \/ 1 < Z.abs (snd size - display_height st) ->
            let st' := resized size st in
            handle_resize st = (Ok tt, st')
            /\ display_width st' = fst size /\ display_height st' = snd size
            /\ split_pos st' = fst size / 2
            /\ is_playing st' = false
            /\ after_queue st'
               = after_queue st ++ [RestartAfterResize (is_playing st)]
            /\ timeline st' = timeline st
            /\ video2_offset st' = video2_offset st))
  /\ (truthy (video_path1 st) = true -> truthy (video_path2 st) = true ->
      is_fullscreen st = false -> canvas_height st = 0 ->
      forall source, fitted_source st = Ok source ->
        handle_resize st = (Raise ZeroDivisionError, st)).
Proof.
  rewrite handle_resize_run.
  split; [| split; [| split]].
  - intros [H | H]; rewrite H; cbn [negb orb]; [| rewrite orb_true_r]; reflexivity.
  - intros e s'. destruct (_ || _); [discriminate |].
    destruct (fitted_size st); [discriminate |].
    intro H. injection H as _ <-. reflexivity.
  - intros Hp1 Hp2 size Hsize. rewrite Hp1, Hp2, Hsize. cbn [negb orb].
    split.
    + intros [Hw Hh]. unfold size_changed.
      replace (1 <? Z.abs (fst size - display_width st)) with false
        by (symmetry; apply Z.ltb_ge; lia).
      replace (1 <? Z.abs (snd size - display_height st)) with false
        by (symmetry; apply Z.ltb_ge; lia).
      reflexivity.
    + intros Hchanged.
      assert (Hc : size_changed size st = true).
      { unfold size_changed. apply orb_true_iff.
        destruct Hchanged as [H | H]; [left | right]; apply Z.ltb_lt, H. }
      rewrite Hc. split; [reflexivity |]. apply resized_fields.
  - intros Hp1 Hp2 Hfull Hzero source Hsource. rewrite Hp1, Hp2. cbn [negb orb].
    unfold fitted_size. rewrite Hfull, Hsource, Hzero. cbn [rbind].
    unfold calculate_display_size.
    assert (Har : exists ar, Py.int_truediv (width source) (height source) = Ok ar).
    { unfold fitted_source in Hsource.
      destruct (Py.int_truediv (width (video_info1 st)) (height (video_info1 st)))
        as [ar1 |] eqn:H1; [| discriminate].
      destruct (Py.int_truediv (width (video_info2 st)) (height (video_info2 st)))
        as [ar2 |] eqn:H2; [| discriminate].
      cbn [rbind] in Hsource. injection Hsource as <-.
      destruct (ar2 <=? ar1)%float; eauto. }
    destruct Har as [ar Har]. rewrite Har. cbn [rbind].
    rewrite int_truediv_by_zero. reflexivity.
Qed.

Section FullScreen.

Lemma handle_resize_is_fullscreen st :
  is_fullscreen (state_after handle_resize st) = is_fullscreen st.
Proof. apply (handle_resize_keeps is_fullscreen); intros v s; reflexivity. Qed.

Lemma toggle_fullscreen_flag window st :
  is_fullscreen (state_after (toggle_fullscreen window) st) = negb (is_fullscreen st).
Proof.
  unfold toggle_fullscreen. rewrite state_after_get, !state_after_modify.
  rewrite handle_resize_is_fullscreen. reflexivity.
Qed.

(** X18. [toggle_fullscreen] flips [is_fullscreen], so two presses
    restore it; [exit_fullscreen] does nothing outside full screen and
    always ends outside it.  Entering full screen never raises, and with
    both sources loaded the output size is afterwards within one pixel
    of the whole main frame in both directions: the source's proportions
    are not kept there. *)
Theorem full_screen_follows_the_window (st : VideoComparer) (window window' : geometry) :
  let st1 := state_after (toggle_fullscreen window) st in
  is_fullscreen st1 = negb (is_fullscreen st)
  /\ is_fullscreen (state_after (toggle_fullscreen window') st1) = is_fullscreen st
  /\ (is_fullscreen st = false -> exit_fullscreen window st = (Ok tt, st))
  /\ is_fullscreen (state_after (exit_fullscreen window) st) = false
  /\ (is_fullscreen st = false ->
      outcome (toggle_fullscreen window) st = Ok tt
      /\ (truthy (video_path1 st) = true -> truthy (video_path2 st) = true ->
          Z.abs (main_frame_width window - display_width st1) <= 1
          /\ Z.abs (main_frame_height window - display_height st1) <= 1)).
Proof.
  intro st1. subst st1.
  split; [apply toggle_fullscreen_flag |].
  split; [rewrite !toggle_fullscreen_flag; apply negb_involutive |].
  split.
  { intro Hfull. unfold exit_fullscreen, bind, get, when. rewrite Hfull. reflexivity. }
  split.
  { unfold exit_fullscreen. rewrite state_after_get.
    destruct (is_fullscreen st) eqn:Hfull; cbn [when];
      [| exact Hfull].
    rewrite !state_after_modify, handle_resize_is_fullscreen. reflexivity. }
  intro Hfull.
  unfold outcome, state_after, toggle_fullscreen, bind, get, modify. cbv beta iota.
  rewrite Hfull. cbn [negb].
  set (st0 := set_winfo window (set_is_fullscreen true st)).
  rewrite handle_resize_run.
  change (truthy (video_path1 st0)) with (truthy (video_path1 st)).
  change (truthy (video_path2 st0)) with (truthy (video_path2 st)).
  change (fitted_size st0)
    with (@Ok (Z * Z) (main_frame_width window, main_frame_height window)).
  destruct (negb (truthy (video_path1 st)) || negb (truthy (video_path2 st))) eqn:Hmissing.
  - split; [reflexivity |]. intros Hp1 Hp2. rewrite Hp1, Hp2 in Hmissing. discriminate.
  - split; [reflexivity |]. intros _ _. cbn [snd].
    destruct (size_changed _ st0) eqn:Hchanged.
    + destruct (resized_fields (main_frame_width window, main_frame_height window)
                               st0) as (Hw & Hh & _).
      rewrite Hw, Hh. cbn [fst snd]. lia.
    + unfold size_changed in Hchanged. apply orb_false_iff in Hchanged.
      destruct Hchanged as [Hw Hh]. apply Z.ltb_ge in Hw, Hh.
      cbn [fst snd] in Hw, Hh.
      change (display_width st0) with (display_width st) in *.
      change (display_height st0) with (display_height st) in *. lia.
Qed.

End FullScreen.

Section ResizeRestart.

Variable cv2 : Cv2.
Variable sp : Subprocess.

(** X19. A resize while playing stops and restarts playback at the same
    frame: [handle_resize] clears [is_playing] and queues the restart;
    when the main loop runs it, both streams are started at the current
    frame with the new output size, and the flag is set again exactly
    when both processes started. *)
Theorem resize_while_playing_restarts_at_the_new_size (st : VideoComparer)
  (size : Z * Z) (x1 x2 : float)
  (Hp1 : truthy (video_path1 st) = true) (Hp2 : truthy (video_path2 st) = true)
  (Hplaying : is_playing st = true) (Hqueue : after_queue st = [])
  (Hsize : fitted_size st = Ok size) (Hchanged : size_changed size st = true)
  (Hx1 : Py.int_div_float (current_frame_num st) (fps1 st) = Ok x1)
  (Hx2 : Py.int_div_float (current_frame_num st + video2_offset st) (fps2 st) = Ok x2) :
  let st1 := state_after handle_resize st in
  let st2 := state_after (mainloop cv2 sp) st1 in
  let a := {| executable := ffmpeg_path st; ss := x1; input := path_of (video_path1 st);
              scale := (fst size, snd size); vframes := None |} in
  let b := {| executable := ffmpeg_path st; ss := x2; input := path_of (video_path2 st);
              scale := (fst size, snd size); vframes := None |} in
  is_playing st1 = false
  /\ after_queue st1 = [RestartAfterResize true]
  /\ after_queue st2 = []
  /\ current_frame_num st2 = current_frame_num st
  /\ (display_width st2, display_height st2) = (fst size, snd size)
  /\ requests st2 = requests st ++ issued (Popen sp a) a b
  /\ is_playing st2 = Popen sp a && Popen sp b
  /\ ffmpeg_process1 st2 = (if Popen sp a then Some a else None)
  /\ ffmpeg_process2 st2 = (if Popen sp a && Popen sp b then Some b else None).
Proof.
  intros st1 st2 a b.
  assert (Hst1 : st1 = set_after_queue [RestartAfterResize true]
                         (set_is_playing false
                            (set_split_pos (fst size / 2)
                               (set_display_height (snd size)
                                  (set_display_width (fst size) st))))).
  { subst st1. unfold state_after.
    rewrite handle_resize_run, Hp1, Hp2, Hsize, Hchanged.
    unfold resized. rewrite Hplaying, Hqueue. reflexivity. }
  clearbody st1. subst st1.
  split; [reflexivity |]. split; [reflexivity |].
  subst st2. unfold mainloop.
  rewrite state_after_get, state_after_modify.
  cbn [after_queue set_after_queue run_callbacks run_callback].
  unfold _restart_after_resize.
  unfold state_after, bind, try_except, get, modify, ret. cbv beta iota.
  set (st3 := set_is_playing true _).
  match goal with
  | |- context [start_ffmpeg_processes sp ?n st3] =>
      change n with (current_frame_num st)
  end.
  rewrite (start_ffmpeg_processes_run sp st3 _ x1 x2 Hx1 Hx2).
  change (requested_at st3 (video_path1 st3) x1 None) with a.
  change (requested_at st3 (video_path2 st3) x2 None) with b.
  cbn [snd]. unfold started.
  destruct (Popen sp a), (Popen sp b); cbn; auto 10.
Qed.

End ResizeRestart.

(** ** Initialising playback *)

Section Initialise.

Variable py_float : string -> option float.
Variable cv2 : Cv2.
Variable sp : Subprocess.

Lemma initialize_playback_try_keeps {B} (f : VideoComparer -> B) :
  try_untouched f -> keeps f (initialize_playback_try py_float).
Proof.
  intros (H1 & H2 & H3 & H4 & H5 & H6 & H7 & H8 & H9).
  unfold initialize_playback_try.
  repeat first [ apply handle_resize_keeps; assumption | keeps_step ].
Qed.

Lemma initialize_playback_run st :
  initialize_playback py_float cv2 sp st
  = match initialize_playback_try py_float st with
    | (Ok _, s) => initialize_playback_rest cv2 sp s
    | (Raise _, s) =>
        (Ok tt, set_errors_shown (errors_shown s ++ ["Initialization Error"%string]) s)
    end.
Proof.
  unfold initialize_playback, try_except, showerror, bind, ret, modify.
  destruct (initialize_playback_try py_float st) as [[[] | e] s]; reflexivity.
Qed.

Lemma initialize_playback_rest_observed {B} (f : VideoComparer -> B) st :
  display_untouched f ->
  f (state_after (initialize_playback_rest cv2 sp) st) = f (prepared st).
Proof.
  intros Hf. pose proof Hf as (Hs & _).
  assert (K : keeps f (bind (update_status_bar "Ready")
                            (fun _ => display_single_frame cv2 sp 0))).
  { apply keeps_bind; [apply update_status_bar_keeps, Hs |].
    intro. apply display_single_frame_keeps, Hf. }
  unfold initialize_playback_rest, prepared. rewrite state_after_get.
  destruct (match total_frames st with Fin n => n <=? 0 | Inf => false end);
    exec; cbn [duration_known set_current_frame_num set_seek_bar_state
               set_total_frames set_duration_known set_seek_bar_to when];
    exec; rewrite K; reflexivity.
Qed.

(** X20. When the [try] block of [initialize_playback] raises, the error
    box is shown once and the exception goes no further: the method
    returns, the four buttons and the seek bar stay as they were, the
    current frame and the offset are not reset and no frame is fetched. *)
Theorem failed_initialisation_is_reported_and_swallowed (st : VideoComparer) (e : exn)
  (Hraise : outcome (initialize_playback_try py_float) st = Raise e) :
  let st' := state_after (initialize_playback py_float cv2 sp) st in
  outcome (initialize_playback py_float cv2 sp) st = Ok tt
  /\ errors_shown st' = errors_shown st ++ ["Initialization Error"%string]
  /\ controls st' = controls st
  /\ seek_bar_state st' = seek_bar_state st
  /\ current_frame_num st' = current_frame_num st
  /\ video2_offset st' = video2_offset st
  /\ requests st' = requests st
  /\ video_label_image st' = video_label_image st.
Proof.
  intro st'. subst st'. unfold outcome, state_after in *.
  rewrite initialize_playback_run.
  assert (Hkeep : forall {B} (f : VideoComparer -> B), try_untouched f ->
            f (snd (initialize_playback_try py_float st)) = f st)
    by (intros B f Hf; apply (initialize_playback_try_keeps f Hf)).
  destruct (initialize_playback_try py_float st) as [[[] | e'] s]; [discriminate |].
  cbn [fst snd] in *.
  split; [reflexivity |].
  split; [cbn; rewrite (Hkeep _ errors_shown); [reflexivity |];
          repeat split; intros v s0; reflexivity |].
  repeat split.
  - apply (Hkeep _ controls). repeat split; intros v s0; reflexivity.
  - apply (Hkeep _ seek_bar_state). repeat split; intros v s0; reflexivity.
  - apply (Hkeep _ current_frame_num). repeat split; intros v s0; reflexivity.
  - apply (Hkeep _ video2_offset). repeat split; intros v s0; reflexivity.
  - apply (Hkeep _ requests). repeat split; intros v s0; reflexivity.
  - apply (Hkeep _ video_label_image). repeat split; intros v s0; reflexivity.
Qed.

Lemma handle_resize_keeps_run {B} (f : VideoComparer -> B) st r s' :
  untouched f set_display_width -> untouched f set_display_height ->
  untouched f set_split_pos -> untouched f set_is_playing ->
  untouched f set_after_queue ->
  handle_resize st = (r, s') -> f s' = f st.
Proof.
  intros H1 H2 H3 H4 H5 Hrun.
  pose proof (handle_resize_keeps f H1 H2 H3 H4 H5 st) as Hkeep.
  unfold state_after in Hkeep. rewrite Hrun in Hkeep. exact Hkeep.
Qed.

Lemma initialize_playback_try_rates st s' :
  initialize_playback_try py_float st = (Ok tt, s') ->
  exists f1 f2,
    parse_frame_rate py_float (rate_string (video_info1 st)) = Ok f1
    /\ parse_frame_rate py_float (rate_string (video_info2 st)) = Ok f2
    /\ fps1 s' = f1 /\ fps2 s' = f2 /\ video_fps s' = ((f1 + f2) / 2)%float.
Proof.
  unfold initialize_playback_try. intro H.
  apply bind_ok_inv in H. destruct H as (st0 & s0 & Hget & H).
  apply get_inv in Hget. destruct Hget as [-> ->].
  apply bind_ok_inv in H. destruct H as (f1 & s1 & Hf1 & H).
  apply lift_inv in Hf1. destruct Hf1 as [Hf1 ->].
  apply bind_ok_inv in H. destruct H as ([] & s2 & Hs2 & H).
  apply modify_inv in Hs2. subst s2.
  apply bind_ok_inv in H. destruct H as (f2 & s3 & Hf2 & H).
  apply lift_inv in Hf2. destruct Hf2 as [Hf2 ->].
  apply bind_ok_inv in H. destruct H as ([] & s4 & Hs4 & H).
  apply modify_inv in Hs4. subst s4.
  apply bind_ok_inv in H. destruct H as (v & s5 & Hv & H).
  apply lift_inv in Hv. destruct Hv as [Hv ->].
  apply bind_ok_inv in H. destruct H as ([] & s6 & Hs6 & H).
  apply modify_inv in Hs6. subst s6.
  apply bind_ok_inv in H. destruct H as (fc1 & s7 & Hc1 & H).
  apply lift_inv in Hc1. destruct Hc1 as [Hc1 ->].
  apply bind_ok_inv in H. destruct H as (fc2 & s8 & Hc2 & H).
  apply lift_inv in Hc2. destruct Hc2 as [Hc2 ->].
  apply bind_ok_inv in H. destruct H as ([] & s9 & Hs9 & Hrun).
  apply modify_inv in Hs9. subst s9.
  exists f1, f2. split; [exact Hf1 |]. split; [exact Hf2 |].
  unfold Py.float_truediv in Hv. cbn in Hv. injection Hv as <-.
  split; [| split].
  - rewrite (handle_resize_keeps_run fps1 _ _ _
               ltac:(intros ? ?; reflexivity) ltac:(intros ? ?; reflexivity)
               ltac:(intros ? ?; reflexivity) ltac:(intros ? ?; reflexivity)
               ltac:(intros ? ?; reflexivity) Hrun). reflexivity.
  - rewrite (handle_resize_keeps_run fps2 _ _ _
               ltac:(intros ? ?; reflexivity) ltac:(intros ? ?; reflexivity)
               ltac:(intros ? ?; reflexivity) ltac:(intros ? ?; reflexivity)
               ltac:(intros ? ?; reflexivity) Hrun). reflexivity.
  - rewrite (handle_resize_keeps_run video_fps _ _ _
               ltac:(intros ? ?; reflexivity) ltac:(intros ? ?; reflexivity)
               ltac:(intros ? ?; reflexivity) ltac:(intros ? ?; reflexivity)
               ltac:(intros ? ?; reflexivity) Hrun). reflexivity.
Qed.

(** X21. When the [try] block of [initialize_playback] completes, the
    method leaves the two parsed rates stored with their mean as the
    playback rate, the current frame and the offset at 0 with the entry
    reading 0, and the four buttons enabled, whether or not the status
    text or the first fetch raises afterwards.  The seek bar is enabled
    exactly when the length is known, then at value 0 with the last
    frame index as its maximum. *)
Theorem completed_initialisation_resets_and_enables (st : VideoComparer)
  (Htry : outcome (initialize_playback_try py_float) st = Ok tt) :
  let st' := state_after (initialize_playback py_float cv2 sp) st in
  (exists f1 f2,
      parse_frame_rate py_float (rate_string (video_info1 st)) = Ok f1
      /\ parse_frame_rate py_float (rate_string (video_info2 st)) = Ok f2
      /\ fps1 st' = f1 /\ fps2 st' = f2 /\ video_fps st' = ((f1 + f2) / 2)%float)
  /\ current_frame_num st' = 0
  /\ video2_offset st' = 0
  /\ offset_var st' = "0"%string
  /\ controls st' = (NORMAL, NORMAL, NORMAL, NORMAL)
  /\ seek_bar_state st' = (if duration_known st' then NORMAL else DISABLED)
  /\ (duration_known st' = true ->
      seek_bar_value st' = 0
      /\ exists n, total_frames st' = Fin n /\ seek_bar_to st' = Fin (n - 1))
  /\ errors_shown st' = errors_shown st.
Proof.
  intro st'. subst st'. unfold outcome, state_after in *.
  rewrite initialize_playback_run.
  pose proof (initialize_playback_try_rates st) as Hrates.
  pose proof (initialize_playback_try_run py_float st) as Htotal.
  assert (Herrors : errors_shown (snd (initialize_playback_try py_float st))
                    = errors_shown st).
  { apply (initialize_playback_try_keeps errors_shown).
    repeat split; intros v s0; reflexivity. }
  destruct (initialize_playback_try py_float st) as [[[] | e'] s]; [| discriminate].
  cbn [fst snd] in *.
  destruct (Hrates s eq_refl) as (f1 & f2 & Hf1 & Hf2 & H1 & H2 & H3).
  destruct (Htotal s eq_refl) as (_ & _ & fc1 & fc2 & _ & _ & _ & _ & Hlen).
  assert (Hobs : forall {B} (f : VideoComparer -> B), display_untouched f ->
            f (snd (initialize_playback_rest cv2 sp s)) = f (prepared s))
    by (intros B f Hf; apply (initialize_playback_rest_observed f s Hf)).
  split.
  { exists f1, f2. split; [exact Hf1 |]. split; [exact Hf2 |].
    rewrite (Hobs _ fps1), (Hobs _ fps2), (Hobs _ video_fps)
      by (repeat split; intros v s0; reflexivity).
    unfold prepared. destruct (match total_frames s with Fin n => _ | Inf => _ end);
      cbn; auto. }
  rewrite (Hobs _ current_frame_num), (Hobs _ video2_offset), (Hobs _ offset_var),
    (Hobs _ controls), (Hobs _ seek_bar_state), (Hobs _ duration_known),
    (Hobs _ seek_bar_value), (Hobs _ total_frames), (Hobs _ seek_bar_to),
    (Hobs _ errors_shown)
    by (repeat split; intros v s0; reflexivity).
  unfold prepared. rewrite Hlen.
  destruct (stored_length fc1 fc2 <=? 0); cbn; rewrite ?Hlen, ?Herrors;
    repeat split; auto; try discriminate.
  eexists. split; reflexivity.
Qed.

End Initialise.

(** ** The offset buttons and the ends of the seek bar *)

Section OffsetButtons.

Variable py_float : string -> option float.
Variable py_int : string -> option Z.
Variable cv2 : Cv2.
Variable sp : Subprocess.

Lemma adjust_offset_keeps {B} (f : VideoComparer -> B) amount :
  untouched f set_video2_offset -> untouched f set_offset_var ->
  display_untouched f -> keeps f (_adjust_offset cv2 sp amount).
Proof.
  intros Ho Hv Hd. unfold _adjust_offset.
  repeat first [ apply display_single_frame_keeps; assumption | keeps_step ].
Qed.

Lemma adjust_offset_effect amount st :
  truthy (video_path1 st) = true ->
  let st' := state_after (_adjust_offset cv2 sp amount) st in
  video2_offset st' = video2_offset st + amount
  /\ offset_var st' = str_int (video2_offset st + amount).
Proof.
  intros Hp st'. subst st'. unfold _adjust_offset.
  rewrite state_after_get, Hp. cbn [negb]. rewrite !state_after_modify.
  split.
  - rewrite (keeps_when video2_offset) by
      (apply display_single_frame_keeps; repeat split; intros v s; reflexivity).
    reflexivity.
  - rewrite (keeps_when offset_var) by
      (apply display_single_frame_keeps; repeat split; intros v s; reflexivity).
    reflexivity.
Qed.

Lemma validate_offset_input_sets st n :
  truthy (video_path1 st) = true -> py_int (offset_var st) = Some n ->
  video2_offset (state_after (_validate_offset_input py_int cv2 sp) st) = n.
Proof.
  intros Hp Hn. unfold _validate_offset_input, int_of_str.
  rewrite state_after_get, Hp, Hn. cbn [negb].
  rewrite state_after_try_keeps by (intro; apply keeps_ret).
  change (bind (lift (Ok n)) ?k) with (k n). cbv beta.
  rewrite state_after_seq_keeps; [reflexivity |].
  apply keeps_when, display_single_frame_keeps. repeat split; intros v s; reflexivity.
Qed.

(** X22. Without a first video [_adjust_offset] does nothing.  With one,
    it adds the amount to the offset and writes the new offset in the
    entry, so two presses add up and the current frame stays; and when
    the entry's write trace then reads that text back as the same
    integer, [_validate_offset_input] keeps the offset. *)
Theorem offset_adjustments_add_up (st : VideoComparer) (a b : Z) :
  (truthy (video_path1 st) = false -> _adjust_offset cv2 sp a st = (Ok tt, st))
  /\ (truthy (video_path1 st) = true ->
      let st1 := state_after (_adjust_offset cv2 sp a) st in
      let st2 := state_after (_adjust_offset cv2 sp b) st1 in
      video2_offset st1 = video2_offset st + a
      /\ offset_var st1 = str_int (video2_offset st1)
      /\ video2_offset st2 = video2_offset st + (a + b)
      /\ offset_var st2 = str_int (video2_offset st + (a + b))
      /\ timeline st2 = timeline st
      /\ (py_int (str_int (video2_offset st1)) = Some (video2_offset st1) ->
          video2_offset (state_after (_validate_offset_input py_int cv2 sp) st1)
          = video2_offset st1)).
Proof.
  split.
  - intro Hp. unfold _adjust_offset, bind, get. rewrite Hp. reflexivity.
  - intros Hp st1 st2.
    destruct (adjust_offset_effect a st Hp) as [Ho1 Hv1]. fold st1 in Ho1, Hv1.
    assert (Hp1 : truthy (video_path1 st1) = true).
    { rewrite <- Hp. apply (adjust_offset_keeps (fun s => truthy (video_path1 s)));
        repeat split; intros v s; reflexivity. }
    destruct (adjust_offset_effect b st1 Hp1) as [Ho2 Hv2]. fold st2 in Ho2, Hv2.
    assert (Ht1 : timeline st1 = timeline st)
      by (apply (adjust_offset_keeps timeline); repeat split; intros v s; reflexivity).
    assert (Ht2 : timeline st2 = timeline st1)
      by (apply (adjust_offset_keeps timeline); repeat split; intros v s; reflexivity).
    split; [exact Ho1 |].
    split; [rewrite Hv1, Ho1; reflexivity |].
    split; [rewrite Ho2, Ho1; lia |].
    split; [rewrite Hv2, Ho1; f_equal; lia |].
    split; [rewrite Ht2; exact Ht1 |].
    intro Hread. apply validate_offset_input_sets; [exact Hp1 |].
    rewrite Hv1, <- Ho1. exact Hread.
Qed.

Lemma seek_disabled value st :
  seek_bar_state st = DISABLED -> seek_video py_float cv2 sp value st = (Ok tt, st).
Proof. intro Hbar. unfold seek_video, bind, get. rewrite Hbar. reflexivity. Qed.

(** X23. With the seek bar disabled, [seek_video], [seek_to_start] and
    [seek_to_end] change nothing.  With it enabled, [seek_to_start] puts
    the current frame at 0 and [seek_to_end] puts it at the last index
    [total_frames - 1] whenever that index converts to a float and back
    unchanged; neither changes the timeline length. *)
Theorem seek_to_the_ends (st : VideoComparer) :
  (seek_bar_state st = DISABLED ->
   (forall value, seek_video py_float cv2 sp value st = (Ok tt, st))
   /\ seek_to_start py_float cv2 sp st = (Ok tt, st)
   /\ seek_to_end py_float cv2 sp st = (Ok tt, st))
  /\ (seek_bar_state st = NORMAL ->
      timeline (state_after (seek_to_start py_float cv2 sp) st)
      = (0, total_frames st, duration_known st)
      /\ (forall n x, total_frames st = Fin n ->
            Py.int_to_float (n - 1) = Ok x -> Py.float_to_int x = Ok (n - 1) ->
            timeline (state_after (seek_to_end py_float cv2 sp) st)
            = (n - 1, Fin n, duration_known st))).
Proof.
  split.
  - intro Hbar. split; [intro value; apply seek_disabled, Hbar |].
    split; [unfold seek_to_start | unfold seek_to_end];
      unfold bind, get; rewrite Hbar; reflexivity.
  - intro Hbar. split.
    + unfold seek_to_start. rewrite state_after_get, Hbar. cbn [tk_state_eqb].
      apply (seek_video_timeline py_float cv2 sp (IntValue 0) 0%float 0 st Hbar);
        reflexivity.
    + intros n x Htotal Hx Hn.
      unfold seek_to_end. rewrite state_after_get, Hbar, Htotal. cbn [tk_state_eqb].
      rewrite <- Htotal.
      apply (seek_video_timeline py_float cv2 sp (IntValue (n - 1)) x (n - 1) st Hbar);
        assumption.
Qed.

End OffsetButtons.

(** ** Loading a file *)

Lemma str_split_pieces c s :
  Forall (fun piece => str_contains c piece = false) (str_split c s).
Proof.
  induction s as [| a rest IH]; cbn [str_split].
  - constructor; [reflexivity | constructor].
  - destruct (Ascii.eqb a c) eqn:Hac.
    + constructor; [reflexivity | exact IH].
    + destruct (str_split c rest) as [| piece pieces].
      * constructor; [cbn; rewrite Hac; reflexivity | constructor].
      * inversion IH as [| ? ? Hpiece Hpieces]; subst.
        constructor; [cbn; rewrite Hac; exact Hpiece | exact Hpieces].
Qed.

Lemma basename_no_separator file_path :
  str_contains "/"%char (basename file_path) = false.
Proof.
  unfold basename.
  pose proof (str_split_pieces "/"%char file_path) as Hall.
  induction Hall as [| piece pieces Hpiece Hpieces IH]; [reflexivity |].
  destruct pieces as [| next more]; [exact Hpiece | exact IH].
Qed.

Lemma basename_plain file_path :
  str_contains "/"%char file_path = false -> basename file_path = file_path.
Proof.
  intro H. unfold basename. rewrite str_split_no_separator by exact H. reflexivity.
Qed.

Section Load.

Variable py_float : string -> option float.
Variable cv2 : Cv2.
Variable sp : Subprocess.
Variable ffprobe : string -> probe.

Lemma initialize_playback_keeps {B} (f : VideoComparer -> B) :
  try_untouched f -> rest_untouched f -> display_untouched f ->
  keeps f (initialize_playback py_float cv2 sp).
Proof.
  intros Htry (R1 & R2 & R3 & R4 & R5 & R6 & R7 & R8 & R9 & R10 & R11 & R12 & R13) Hd.
  pose proof Hd as (Hs & _).
  unfold initialize_playback, initialize_playback_rest.
  repeat first
    [ apply initialize_playback_try_keeps; assumption
    | apply update_status_bar_keeps; assumption
    | apply display_single_frame_keeps; assumption
    | keeps_step ].
Qed.

(** X24. A [load_video] that is cancelled, or whose probe fails, finds
    no video stream or finds one without a width or a height, writes
    nothing but the status text and the error box: both sources, the
    timeline and the controls are as before, and no frame is fetched.  A
    cancelled dialog shows no error box. *)
Theorem failed_load_changes_only_the_messages (st : VideoComparer) (video_num : Z)
  (file_path : string)
  (Hfailed :
     file_path = EmptyString
     \/ ffprobe file_path = ProbeError
     \/ exists all_streams,
          ffprobe file_path = Streams all_streams
          /\ (first_video all_streams = None
              \/ exists video_stream,
                   first_video all_streams = Some video_stream
                   /\ (stream_width video_stream = None
                       \/ stream_height video_stream = None))) :
  let st' := state_after (load_video py_float cv2 sp ffprobe video_num file_path) st in
  (forall (B : Type) (f : VideoComparer -> B),
      untouched f set_status_var -> untouched f set_errors_shown -> f st' = f st)
  /\ (file_path = EmptyString -> errors_shown st' = errors_shown st).
Proof.
  intro st'. subst st'.
  split.
  - intros B f Hs He. revert st.
    change (keeps f (load_video py_float cv2 sp ffprobe video_num file_path)).
    unfold load_video.
    apply keeps_bind; [apply update_status_bar_keeps, Hs | intros _].
    destruct file_path as [| c rest]; [apply update_status_bar_keeps, Hs |].
    apply keeps_bind; [apply update_status_bar_keeps, Hs | intros _].
    destruct Hfailed as [H | [H | (all_streams & H & Hstream)]];
      [discriminate | rewrite H; apply keeps_showerror, He |].
    rewrite H.
    destruct Hstream as [Hnone | (video_stream & Hsome & Hdims)].
    + rewrite Hnone. apply keeps_showerror, He.
    + rewrite Hsome.
      destruct Hdims as [Hd | Hd]; rewrite Hd;
        [| destruct (stream_width video_stream)]; apply keeps_showerror, He.
  - intros ->. unfold load_video.
    rewrite state_after_seq_keeps;
      [| apply update_status_bar_keeps; intros v s; reflexivity].
    apply update_status_bar_keeps. intros v s. reflexivity.
Qed.

(** The state [load_video] has stored a stream in. *)
Lemma load_video_run st video_num c rest all_streams video_stream w h times :
  ffprobe (String c rest) = Streams all_streams ->
  first_video all_streams = Some video_stream ->
  stream_width video_stream = Some w -> stream_height video_stream = Some h ->
  status_times st = Ok times ->
  let file_path := String c rest in
  let st1 := slot_filled video_num file_path (info_of video_stream w h) times st in
  load_video py_float cv2 sp ffprobe video_num file_path st
  = when (truthy (video_path1 st1) && truthy (video_path2 st1))
         (initialize_playback py_float cv2 sp) st1.
Proof.
  intros Hprobe Hfirst Hwidth Hheight Htimes file_path st1.
  subst st1. unfold slot_filled, load_video. subst file_path.
  rewrite Hprobe, Hfirst, Hwidth, Hheight.
  fold (info_of video_stream w h).
  unfold bind at 1. rewrite update_status_bar_run, Htimes.
  unfold bind at 1. rewrite update_status_bar_run.
  change (status_times (set_status_var _ st)) with (status_times st). rewrite Htimes.
  unfold bind at 1.
  destruct (video_num =? 1);
    unfold bind, modify, get; cbv beta iota; rewrite update_status_bar_run;
    match goal with
    | |- context [status_times ?s] => change (status_times s) with (status_times st)
    end;
    rewrite Htimes; reflexivity.
Qed.

Lemma slot_filled_sources video_num file_path info times st :
  sources (slot_filled video_num file_path info times st)
  = if video_num =? 1
    then ((Some file_path, info, basename file_path), snd (sources st))
    else (fst (sources st), (Some file_path, info, basename file_path)).
Proof. unfold slot_filled. destruct (video_num =? 1); reflexivity. Qed.

(** X25. A [load_video] whose probe finds a video stream with a width
    and a height stores the path, the first such stream and the part of
    the path after its last slash, in the first slot when called with 1
    and in the second otherwise, and leaves the other slot as it was.
    While the other path is still unset nothing more happens: the
    controls stay as they were and no frame is fetched. *)
Theorem load_stores_the_first_video_stream (st : VideoComparer) (video_num : Z)
  (c : ascii) (rest : string) (all_streams : list stream) (video_stream : stream)
  (w h : Z) (times : string)
  (Hprobe : ffprobe (String c rest) = Streams all_streams)
  (Hfirst : first_video all_streams = Some video_stream)
  (Hwidth : stream_width video_stream = Some w)
  (Hheight : stream_height video_stream = Some h)
  (Htimes : status_times st = Ok times) :
  let file_path := String c rest in
  let st' := state_after (load_video py_float cv2 sp ffprobe video_num file_path) st in
  let stored := (Some file_path, info_of video_stream w h, basename file_path) in
  sources st' = (if video_num =? 1 then (stored, snd (sources st))
                 else (fst (sources st), stored))
  /\ is_video video_stream = true
  /\ str_contains "/"%char (basename file_path) = false
  /\ (truthy (if video_num =? 1 then video_path2 st else video_path1 st) = false ->
      load_video py_float cv2 sp ffprobe video_num file_path st
      = (Ok tt, slot_filled video_num file_path (info_of video_stream w h) times st)
      /\ controls st' = controls st /\ requests st' = requests st).
Proof.
  intros file_path st' stored.
  pose proof (load_video_run st video_num c rest all_streams video_stream w h times
                Hprobe Hfirst Hwidth Hheight Htimes) as Hrun.
  cbv zeta in Hrun. fold file_path in Hrun.
  set (st1 := slot_filled video_num file_path (info_of video_stream w h) times st) in *.
  split.
  { subst st'. unfold state_after. rewrite Hrun.
    change (snd (?m st1)) with (state_after m st1).
    rewrite (keeps_when sources)
      by (apply initialize_playback_keeps; repeat split; intros v s0; reflexivity).
    apply slot_filled_sources. }
  split.
  { unfold first_video in Hfirst. apply find_some in Hfirst. apply Hfirst. }
  split; [apply basename_no_separator |].
  intro Hother. subst st'. unfold state_after. rewrite Hrun.
  assert (Hwhen : truthy (video_path1 st1) && truthy (video_path2 st1) = false).
  { subst st1. unfold slot_filled. destruct (video_num =? 1); cbn;
      rewrite ?Hother, ?andb_false_r; reflexivity. }
  rewrite Hwhen. cbn [when]. unfold ret. cbn [snd].
  split; [reflexivity |].
  subst st1. unfold slot_filled. destruct (video_num =? 1); split; reflexivity.
Qed.

(** X26. A [load_video] that stores a stream while the other path is
    set goes on to [initialize_playback] on the state with the new
    source.  When its [try] block completes there, the current frame and
    the offset are back at 0 and the four buttons are enabled: loading a
    replacement for either video restarts the comparison from the first
    frame. *)
Theorem load_with_both_sources_initialises_playback (st : VideoComparer) (video_num : Z)
  (c : ascii) (rest : string) (all_streams : list stream) (video_stream : stream)
  (w h : Z) (times : string)
  (Hprobe : ffprobe (String c rest) = Streams all_streams)
  (Hfirst : first_video all_streams = Some video_stream)
  (Hwidth : stream_width video_stream = Some w)
  (Hheight : stream_height video_stream = Some h)
  (Htimes : status_times st = Ok times)
  (Hother : truthy (if video_num =? 1 then video_path2 st else video_path1 st) = true) :
  let file_path := String c rest in
  let st1 := slot_filled video_num file_path (info_of video_stream w h) times st in
  let st' := state_after (load_video py_float cv2 sp ffprobe video_num file_path) st in
  load_video py_float cv2 sp ffprobe video_num file_path st
  = initialize_playback py_float cv2 sp st1
  /\ (outcome (initialize_playback_try py_float) st1 = Ok tt ->
      current_frame_num st' = 0 /\ video2_offset st' = 0
      /\ controls st' = (NORMAL, NORMAL, NORMAL, NORMAL)).
Proof.
  intros file_path st1 st'.
  pose proof (load_video_run st video_num c rest all_streams video_stream w h times
                Hprobe Hfirst Hwidth Hheight Htimes) as Hrun.
  cbv zeta in Hrun. fold file_path in Hrun. fold st1 in Hrun.
  assert (Hwhen : truthy (video_path1 st1) && truthy (video_path2 st1) = true).
  { subst st1. unfold slot_filled. destruct (video_num =? 1); cbn;
      rewrite ?Hother; reflexivity. }
  rewrite Hwhen in Hrun. cbn [when] in Hrun.
  split; [exact Hrun |].
  intro Htry. subst st'. unfold state_after, outcome in *. rewrite Hrun.
  rewrite initialize_playback_run.
  destruct (initialize_playback_try py_float st1) as [[[] | e] s]; [| discriminate].
  change (snd (initialize_playback_rest cv2 sp s))
    with (state_after (initialize_playback_rest cv2 sp) s).
  rewrite (initialize_playback_rest_observed cv2 sp current_frame_num),
    (initialize_playback_rest_observed cv2 sp video2_offset),
    (initialize_playback_rest_observed cv2 sp controls)
    by (repeat split; intros v s0; reflexivity).
  unfold prepared. destruct (match total_frames s with Fin n => _ | Inf => _ end);
    cbn; auto.
Qed.

End Load.


(** ** A zero frame rate *)

Lemma eqb_zero_Prim2SF x : (x =? 0)%float = true -> exists s, Prim2SF x = S754_zero s.
Proof.
  rewrite eqb_spec. change (Prim2SF 0) with (S754_zero false).
  destruct (Prim2SF x) as [s | s | | s m e]; cbn; try discriminate; eauto;
    destruct s; discriminate.
Qed.

Lemma float_to_int_zero_product f d n :
  (f =? 0)%float = true -> Py.float_to_int (f * d)%float = Ok n -> n = 0.
Proof.
  intros Hf. destruct (eqb_zero_Prim2SF f Hf) as [s Hs].
  unfold Py.float_to_int. rewrite mul_spec, Hs. unfold SF64mul, SFmul.
  destruct (Prim2SF d); intro H; try discriminate; injection H as <-; reflexivity.
Qed.

Lemma int_div_float_by_zero y :
  (y =? 0)%float = true -> Py.int_div_float 0 y = Raise ZeroDivisionError.
Proof.
  intro Hy. unfold Py.int_div_float, Py.float_truediv.
  change (Py.int_to_float 0) with (@Ok float 0%float). cbn [rbind].
  rewrite Hy. reflexivity.
Qed.


(** The reads and writes at the head of a method body, on its run. *)
Lemma run_get {A} (k : VideoComparer -> M A) st : bind get k st = k st st.
Proof. reflexivity. Qed.

Lemma run_modify {A} g (k : M A) st : bind (modify g) (fun _ => k) st = k (g st).
Proof. reflexivity. Qed.

Lemma run_ret {A C} (a : A) (k : A -> M C) st : bind (ret a) k st = k a st.
Proof. reflexivity. Qed.

Lemma run_assoc {A C D} (m : M A) (k1 : A -> M C) (k2 : C -> M D) st :
  bind (bind m k1) k2 st = bind m (fun a => bind (k1 a) k2) st.
Proof. unfold bind. destruct (m st) as [[a | e] st']; reflexivity. Qed.

Section ZeroRate.

Variable py_float : string -> option float.
Variable cv2 : Cv2.
Variable sp : Subprocess.

Lemma initialize_playback_rest_run st :
  initialize_playback_rest cv2 sp st
  = (update_status_bar "Ready";; display_single_frame cv2 sp 0) (prepared st).
Proof.
  unfold initialize_playback_rest, prepared. cbv zeta.
  rewrite run_get.
  destruct (match total_frames st with Fin n => n <=? 0 | Inf => false end);
    repeat first [ rewrite run_assoc | rewrite run_modify | rewrite run_get
                 | rewrite run_ret ];
    cbn [duration_known set_current_frame_num set_seek_bar_state
         set_total_frames set_duration_known set_seek_bar_to when];
    repeat first [ rewrite run_assoc | rewrite run_modify | rewrite run_get
                 | rewrite run_ret ];
    reflexivity.
Qed.

Lemma frame_count_zero_rate f info fc :
  (f =? 0)%float = true -> frame_count py_float f info = Ok fc -> fc = 0.
Proof.
  intros Hf. unfold frame_count.
  destruct (duration_seconds py_float info) as [d |]; [| discriminate].
  cbn [rbind]. apply float_to_int_zero_product, Hf.
Qed.

Lemma display_single_frame_zero_rate st :
  truthy (video_path1 st) = true -> truthy (video_path2 st) = true ->
  duration_known st = false -> video2_offset st = 0 ->
  (fps1 st =? 0)%float = true \/ (fps2 st =? 0)%float = true ->
  display_single_frame cv2 sp 0 st = (Raise ZeroDivisionError, st).
Proof.
  intros Hp1 Hp2 Hknown Hoff Hzero.
  unfold display_single_frame. rewrite run_get, Hp1, Hp2, Hknown, Hoff.
  cbn [negb orb andb Z.add].
  destruct Hzero as [Hz | Hz].
  - rewrite (int_div_float_by_zero _ Hz). reflexivity.
  - rewrite (int_div_float_by_zero (fps2 st) Hz).
    destruct (fps1 st =? 0)%float eqn:Hz1.
    + rewrite (int_div_float_by_zero _ Hz1). reflexivity.
    + unfold Py.int_div_float, Py.float_truediv.
      change (Py.int_to_float 0) with (@Ok float 0%float). cbn [rbind].
      rewrite Hz1. reflexivity.
Qed.

(** X27. When either stream's frame rate parses to zero (as [0/1]
    does; only a zero denominator falls back to 30) and the [try] block of
    [initialize_playback] completes, the length is unknown and an
    exception leaves the method: the status text or, at the latest, the
    first fetch divides by the zero rate outside the [try] block.  The
    four buttons have been enabled by then and no image is shown. *)
Theorem zero_frame_rate_escapes_initialisation (st : VideoComparer) (f1 f2 : float)
  (Hp1 : truthy (video_path1 st) = true) (Hp2 : truthy (video_path2 st) = true)
  (Hrate1 : parse_frame_rate py_float (rate_string (video_info1 st)) = Ok f1)
  (Hrate2 : parse_frame_rate py_float (rate_string (video_info2 st)) = Ok f2)
  (Hzero : (f1 =? 0)%float = true \/ (f2 =? 0)%float = true)
  (Htry : outcome (initialize_playback_try py_float) st = Ok tt) :
  let st' := state_after (initialize_playback py_float cv2 sp) st in
  (exists e, outcome (initialize_playback py_float cv2 sp) st = Raise e)
  /\ duration_known st' = false
  /\ controls st' = (NORMAL, NORMAL, NORMAL, NORMAL)
  /\ requests st' = requests st
  /\ video_label_image st' = video_label_image st.
Proof.
  intro st'. subst st'. unfold outcome, state_after in *.
  rewrite initialize_playback_run.
  pose proof (initialize_playback_try_rates py_float st) as Hrates.
  pose proof (initialize_playback_try_run py_float st) as Htotal.
  assert (Hkeep : forall {B} (f : VideoComparer -> B), try_untouched f ->
            f (snd (initialize_playback_try py_float st)) = f st)
    by (intros B f Hf; apply (initialize_playback_try_keeps py_float f Hf)).
  destruct (initialize_playback_try py_float st) as [[[] | e'] s]; [| discriminate].
  cbn [fst snd] in *.
  destruct (Hrates s eq_refl) as (g1 & g2 & Hg1 & Hg2 & Hfps1 & Hfps2 & _).
  rewrite Hrate1 in Hg1. rewrite Hrate2 in Hg2.
  injection Hg1 as <-. injection Hg2 as <-.
  destruct (Htotal s eq_refl) as (g1 & g2 & fc1 & fc2 & Hg1 & Hg2 & Hc1 & Hc2 & Hlen).
  rewrite Hrate1 in Hg1. rewrite Hrate2 in Hg2.
  injection Hg1 as <-. injection Hg2 as <-.
  assert (Hstored : stored_length fc1 fc2 = 0).
  { unfold stored_length. destruct Hzero as [Hz | Hz].
    - rewrite (frame_count_zero_rate _ _ _ Hz Hc1). reflexivity.
    - rewrite (frame_count_zero_rate _ _ _ Hz Hc2), andb_false_r. reflexivity. }
  rewrite Hstored in Hlen.
  pose proof (Hkeep _ video_path1 ltac:(repeat split; intros v s0; reflexivity)) as Hv1.
  pose proof (Hkeep _ video_path2 ltac:(repeat split; intros v s0; reflexivity)) as Hv2.
  pose proof (Hkeep _ requests ltac:(repeat split; intros v s0; reflexivity)) as Hreq.
  pose proof (Hkeep _ video_label_image ltac:(repeat split; intros v s0; reflexivity))
    as Himg.
  assert (Hprepared : prepared s
            = set_offset_var "0"
                (set_video2_offset 0
                   (set_snapshot_btn_state NORMAL
                      (set_next_frame_btn_state NORMAL
                         (set_prev_frame_btn_state NORMAL
                            (set_play_pause_btn_state NORMAL
                               (set_current_frame_num 0
                                  (set_seek_bar_state DISABLED
                                     (set_total_frames Inf
                                        (set_duration_known false s)))))))))).
  { unfold prepared. rewrite Hlen. reflexivity. }
  assert (Hrest : exists e text,
             initialize_playback_rest cv2 sp s
             = (Raise e, set_status_var text (prepared s))).
  { rewrite initialize_playback_rest_run. unfold bind.
    rewrite update_status_bar_run.
    destruct (status_times (prepared s)) as [times | e].
    - exists ZeroDivisionError. eexists.
      rewrite display_single_frame_zero_rate; [reflexivity | | | | |];
        rewrite Hprepared; cbn; rewrite ?Hv1, ?Hv2, ?Hfps1, ?Hfps2; auto.
    - exists e, (status_var (prepared s)). rewrite set_status_var_same. reflexivity. }
  destruct Hrest as (e & text & Hrest). rewrite Hrest. cbn [fst snd].
  split; [exists e; reflexivity |].
  rewrite Hprepared. cbn. rewrite Hreq, Himg. auto.
Qed.

End ZeroRate.

(* ================================================================= *)
(** * The properties at work on the example world *)

Import Example.

(** Settles a closed arithmetic or structural fact by evaluation. *)
Ltac evaluate :=
  vm_compute; repeat split; try reflexivity; try discriminate;
  try (intro; discriminate).

(** ** Frame rates *)

(** NTSC's [30000/1001] parses to the quotient of its two parts. *)
Lemma parse_frame_rate_lenient_witness :
  parse_frame_rate read_float "30000/1001" = Ok (30000 / 1001)%float.
Proof.
  refine (proj1 (proj2 (parse_frame_rate_lenient read_float "30000/1001"))
            "30000"%string "1001"%string 30000%float 1001%float _ _ _ _ _);
    evaluate.
Defined.

(** ** Seek times *)

(** Frame 45 with an offset of 30 frames at 30 fps: A at 1.5 s and B one
    second later. *)
Lemma seek_times_apply_offset_to_second_source_witness :
  let st := set_video2_offset 30 ready in
  requests (state_after (start_ffmpeg_processes black_ffmpeg 45) st)
  = requests st
    ++ [requested_at st (video_path1 st) 1.5%float None;
        requested_at st (video_path2 st) 2.5%float None].
Proof.
  cbv zeta.
  assert (H1 : is_infinity (Py.float_of_Z 45) = false) by evaluate.
  assert (H2 : is_infinity
                 (Py.float_of_Z (45 + video2_offset (set_video2_offset 30 ready)))
               = false) by evaluate.
  assert (H3 : (fps1 (set_video2_offset 30 ready) =? 0)%float = false) by evaluate.
  assert (H4 : (fps2 (set_video2_offset 30 ready) =? 0)%float = false) by evaluate.
  rewrite (proj1 (proj1 (seek_times_apply_offset_to_second_source
                           dot_cv2 black_ffmpeg (set_video2_offset 30 ready) 45
                           H1 H2 H3 H4))).
  evaluate.
Defined.

(** ** Frame counts *)

(** A negative rate: the count is 0 where the floor is -1. *)
Lemma frame_count_is_not_the_floor_of_a_negative_product :
  parse_frame_rate read_float "-1/2" = Ok (-0.5)%float
  /\ duration_seconds read_float (clip 16 9 "-1/2" "1") = Ok 1%float
  /\ frame_count read_float (-0.5)%float (clip 16 9 "-1/2" "1") = Ok 0
  /\ Py.float_floor (-0.5 * 1)%float = Ok (-1).
Proof. evaluate. Qed.

(** Ten and five seconds at 30 fps: 300 and 150 frames, a timeline of 150. *)
Lemma frame_counts_truncate_and_bound_timeline_witness :
  let st' := state_after (initialize_playback read_float dot_cv2 black_ffmpeg) pair in
  duration_known st' = true /\ total_frames st' = Fin 150.
Proof.
  assert (Htry : outcome (initialize_playback_try read_float) pair = Ok tt) by evaluate.
  destruct (frame_counts_truncate_and_bound_timeline
              read_float dot_cv2 black_ffmpeg pair Htry)
    as (f1 & f2 & d1 & d2 & fc1 & fc2 & Hf1 & Hf2 & Hd1 & Hd2 & Hc1 & Hc2 & _ & _ & Hlen).
  vm_compute in Hf1, Hf2, Hd1, Hd2.
  injection Hf1 as <-. injection Hf2 as <-. injection Hd1 as <-. injection Hd2 as <-.
  vm_compute in Hc1, Hc2. injection Hc1 as <-. injection Hc2 as <-.
  exact Hlen.
Defined.

(** ** The current frame *)

(** A seek beyond the end is stored as asked; and after a run over a pair
    of unknown length that ends at once, End seeks to frame -1. *)
Lemma seek_stores_a_frame_outside_the_timeline :
  (duration_known ready = true /\ total_frames ready = Fin 150
   /\ current_frame_num ready = 0
   /\ timeline (sought "200.0" ready) = (200, Fin 150, true))
  /\ (let st := opened pair_without_durations in
      let ended_at_once :=
        state_after (mainloop dot_cv2 black_ffmpeg)
          (state_after (video_playback_loop [exited_tick]) (played st)) in
      timeline st = (0, Inf, false)
      /\ timeline ended_at_once = (0, Fin 0, true)
      /\ seek_bar_state ended_at_once = NORMAL
      /\ timeline (state_after (seek_to_end read_float dot_cv2 black_ffmpeg)
                               ended_at_once)
         = (-1, Fin 0, true)).
Proof. evaluate. Qed.

(** Stepping back from frame 0 leaves the frame inside the timeline. *)
Lemma current_frame_in_range_unless_seek_outside_witness :
  frame_in_range (state_after (step_frame dot_cv2 black_ffmpeg (-1)) ready).
Proof.
  assert (Hknown : duration_known ready = true) by evaluate.
  assert (Hrange : frame_in_range ready) by evaluate.
  exact (proj1 (proj2 (proj2
           (proj1 (current_frame_in_range_unless_seek_outside
                     read_float dot_cv2 black_ffmpeg ready Hknown Hrange) (-1))))).
Defined.

(** ** Output geometry *)

(** A 16:9 source in a 1009 by 1000 area: the height is 567, where
    rounding 567.5625 gives 568. *)
Lemma display_height_is_truncated_not_rounded :
  calculate_display_size 16 9 1009 1000 = Ok (1009, 567)
  /\ fit_as_specified 16 9 1009 1000 = Ok (1009, 568)
  /\ Py.int_div_float 1009 (16 / 9)%float = Ok 567.5625%float.
Proof. evaluate. Qed.

(** Equal ratios take the second branch: a 1:49 source in a 1 by 49 area
    keeps the full width, where [int(49 * (1 / 49))] would be 0. *)
Lemma equal_ratios_take_the_width_branch :
  calculate_display_size 1 49 1 49 = Ok (1, 49)
  /\ Py.int_truediv 1 49 = Ok (1 / 49)%float
  /\ ((1 / 49)%float <? (1 / 49)%float)%float = false
  /\ (let? x := Py.int_mul_float 49 (1 / 49)%float in Py.float_to_int x) = Ok 0.
Proof. evaluate. Qed.

(** A 16:9 source in a 1240 by 600 area. *)
Lemma display_size_truncates_witness :
  calculate_display_size 16 9 1240 600 = Ok (1066, 600).
Proof.
  refine (proj1 (proj1 (display_size_truncates 16 9 1240 600
                          (16 / 9)%float (1240 / 600)%float _ _)
                       _ (600 * (16 / 9))%float 1066 _ _));
    evaluate.
Defined.

(** ** Toggle mode *)

(** The buffer toggle mode hands on is not an input frame.  With a
    renderer that paints only the origin pixel of each label and writes
    whatever array it is given, the pixel at (10, 30) of the black frame
    from A has turned white.  With one that refuses a read-only output
    array there is no buffer: [update_frame_display] raises and the image
    on display stays. *)
Lemma toggle_output_is_not_an_input_frame :
  (exists mem,
      composite dot_cv2 toggling black_frame white_frame = Ok (mem, frame1_ref)
      /\ nth (Z.to_nat 5790) (data (array_at mem frame1_ref)) x00 = xff
      /\ nth (Z.to_nat 5790) black_frame x00 = x00
      /\ data (array_at mem frame1_ref) <> black_frame
      /\ data (array_at mem frame1_ref) <> white_frame)
  /\ composite checking_cv2 toggling black_frame white_frame = Raise Cv2Error
  /\ update_frame_display checking_cv2 black_frame white_frame toggling
     = (Raise Cv2Error, toggling).
Proof.
  split; [| split; vm_compute; reflexivity].
  destruct (composite dot_cv2 toggling black_frame white_frame)
    as [[mem r] |] eqn:E; [| vm_compute in E; discriminate].
  vm_compute in E. injection E as <- <-.
  eexists. split; [reflexivity |].
  split; [reflexivity |]. split; [reflexivity |].
  split; intro H.
  - apply (f_equal (fun l => nth (Z.to_nat 5790) l x00)) in H. vm_compute in H. discriminate.
  - apply (f_equal (fun l => nth (Z.to_nat 0) l x00)) in H. vm_compute in H. discriminate.
Qed.

(** Split at the left edge of a 64-pixel output: the frame from A, and an
    output that is that frame with the labels drawn. *)
Lemma toggle_selects_one_input_and_labels_it_witness :
  toggle_frame toggling 32 black_frame white_frame = black_frame
  /\ exists mem out img,
       composite dot_cv2 toggling black_frame white_frame = Ok (mem, out)
       /\ data img = black_frame
       /\ labelled dot_cv2 toggling img = Ok (data (array_at mem out)).
Proof.
  assert (Hmode : comparison_mode_var toggling = toggle) by reflexivity.
  assert (Hfit1 : fits toggling black_frame) by evaluate.
  assert (Hfit2 : fits toggling white_frame) by evaluate.
  assert (Hhalf : Py.int_truediv (display_width toggling) 2 = Ok 32%float)
    by (vm_compute; reflexivity).
  pose proof (toggle_selects_one_input_and_labels_it
                dot_cv2 toggling black_frame white_frame 32%float
                Hmode Hfit1 Hfit2 Hhalf) as (_ & _ & Hrule & Hout & _).
  split.
  - apply (Hrule 4503599627370496 47); vm_compute; reflexivity.
  - destruct (composite dot_cv2 toggling black_frame white_frame)
      as [[mem out] |] eqn:E; [| vm_compute in E; discriminate].
    destruct (Hout mem out eq_refl) as (img & Himg & Hlabelled).
    exists mem, out, img. split; [reflexivity |]. split; assumption.
Defined.

(** ** Starvation *)

(** Nine starved passes and a tenth from frame 0 of 150. *)
Lemma playback_ends_on_stream_end_or_ten_bad_reads_witness :
  exists st',
    playback_passes 0 (repeat starved_tick 9 ++ [starved_tick]) (played ready)
    = (Ok Left, ended "Error: Playback stopped" st')
    /\ is_playing (ended "Error: Playback stopped" st') = false.
Proof.
  assert (Hstreaming : streaming (played ready)) by evaluate.
  refine (proj2 (proj2 (playback_ends_on_stream_end_or_ten_bad_reads
                          (played ready) Hstreaming))
            0 (repeat starved_tick 9) starved_tick [] _ _ _ _ _ _ _).
  - evaluate.
  - repeat constructor.
  - repeat constructor.
  - evaluate.
  - evaluate.
  - evaluate.
  - evaluate.
Defined.

(** ** The end of the timeline *)

(** Play pressed on frame 149 of 150: the loop leaves at once, the frame
    is still 149 and nothing was shown. *)
Lemma playback_from_the_last_frame_does_not_advance :
  let st := played (sought "149.0" ready) in
  let st' := state_after (video_playback_loop [good_tick st; good_tick st]) st in
  (total_frames st = Fin 150 /\ current_frame_num st = 149 /\ is_playing st = true)
  /\ outcome (video_playback_loop [good_tick st; good_tick st]) st = Ok Left
  /\ current_frame_num st' = 149
  /\ current_frame_num st' <> current_frame_num st + 1
  /\ frames_shown st' = []
  /\ status_var (state_after (mainloop dot_cv2 black_ffmpeg) st')
     = "Finished | 00:04 / 00:05"%string.
Proof. evaluate. Qed.

Lemma playback_from_last_frame_finishes_at_once_witness :
  let st := played (sought "149.0" ready) in
  let st' := state_after (video_playback_loop [good_tick st]) st in
  outcome (video_playback_loop [good_tick st]) st = Ok Left
  /\ current_frame_num st' = 150 - 1
  /\ frames_shown st' = []
  /\ is_playing st' = false
  /\ after_queue st' = [PlayPauseBtnPlay; UpdateStatusBar "Finished"]
  /\ (outcome (update_status_bar "Finished") st' = Ok tt ->
      exists times,
        status_var (state_after (mainloop dot_cv2 black_ffmpeg) st')
        = ("Finished | " ++ times)%string).
Proof.
  cbv zeta.
  refine (proj1 (playback_from_last_frame_finishes_at_once
                   dot_cv2 black_ffmpeg (played (sought "149.0" ready)) 150
                   (good_tick (played (sought "149.0" ready))) [] _ _ _ _ _) _);
    evaluate.
Defined.

(** ** The split position *)


(** ** The offset entry *)

(** [3x] in the entry: nothing changes. *)
Lemma offset_entry_keeps_offset_on_bad_input_witness :
  _validate_offset_input read_int dot_cv2 black_ffmpeg (set_offset_var "3x" ready)
  = (Ok tt, set_offset_var "3x" ready).
Proof.
  refine (proj1 (offset_entry_keeps_offset_on_bad_input
                   read_int dot_cv2 black_ffmpeg (set_offset_var "3x" ready)) _).
  evaluate.
Defined.

(* ================================================================= *)
(** * The further properties at work *)

Import Scenario.

(** ** Times and the status text *)

(** Two minutes and five and a half seconds. *)
Lemma format_time_shape_witness : format_time 125.5 = Ok "02:05"%string.
Proof.
  refine (proj1 (proj2 (proj1 (proj2 (format_time_shape 125.5)) 125 _ _)));
    evaluate.
Defined.

(** A status update with the playback rate at zero. *)
Lemma update_status_bar_writes_status_or_nothing_witness :
  update_status_bar "Seek" (set_video_fps 0 ready)
  = (Raise ZeroDivisionError, set_video_fps 0 ready).
Proof.
  refine (proj2 (proj2 (proj2 (update_status_bar_writes_status_or_nothing
                                 "Seek" (set_video_fps 0 ready)))) _ _);
    evaluate.
Defined.

(** ** Fetching one frame *)

(** Frame 150 of 150. *)
Lemma display_single_frame_guards_witness :
  display_single_frame dot_cv2 black_ffmpeg 150 ready = (Ok tt, ready).
Proof.
  refine (proj1 (display_single_frame_guards dot_cv2 black_ffmpeg ready 150) _).
  right. right. split; [| right]; vm_compute; reflexivity.
Defined.

(** The first frame when ffmpeg cannot be run. *)
Lemma failed_fetch_reports_and_keeps_image_witness :
  video_label_image (state_after (display_single_frame dot_cv2 failing_ffmpeg 0) ready)
  = video_label_image ready.
Proof.
  refine (proj1 (proj2 (proj2 (failed_fetch_reports_and_keeps_image
                                 dot_cv2 failing_ffmpeg ready 0 0%float 0%float
                                 _ _ _ _))));
    [evaluate | evaluate | evaluate | left; reflexivity].
Defined.

(** The first frame when ffmpeg writes one byte per frame. *)
Lemma fetched_frames_shown_only_at_full_size_witness :
  outcome (display_single_frame dot_cv2 short_ffmpeg 0) ready = Ok tt.
Proof.
  assert (Hfetch : fetchable 0 ready = true) by (vm_compute; reflexivity).
  assert (Hx1 : Py.int_div_float 0 (fps1 ready) = Ok 0%float)
    by (vm_compute; reflexivity).
  assert (Hx2 : Py.int_div_float (0 + video2_offset ready) (fps2 ready) = Ok 0%float)
    by (vm_compute; reflexivity).
  pose proof (fetched_frames_shown_only_at_full_size
                dot_cv2 short_ffmpeg ready 0 0%float 0%float [x00] [x00]
                Hfetch Hx1 Hx2 eq_refl eq_refl) as [Hshort _].
  unfold outcome. rewrite Hshort; [reflexivity | vm_compute; reflexivity].
Defined.

(** ** Composing the image *)


(** Side by side at two by two with the renderer that checks the flag. *)
Lemma fresh_array_modes_keep_the_inputs_witness :
  exists mem out,
    composite checking_cv2 thumbnail (repeat x00 12) (repeat xff 12) = Ok (mem, out)
    /\ out = new_ref
    /\ writeable (array_at mem out) = true
    /\ frame1_bgr mem = frombuffer (repeat x00 12).
Proof.
  destruct (composite checking_cv2 thumbnail (repeat x00 12) (repeat xff 12))
    as [[mem out] |] eqn:E; [| vm_compute in E; discriminate].
  destruct (fresh_array_modes_keep_the_inputs
              checking_cv2 thumbnail (repeat x00 12) (repeat xff 12) mem out
              ltac:(discriminate) E)
    as (Hout & Hflag & H1 & _).
  exists mem, out. auto.
Defined.

(** Toggle at 64 by 36 with the renderer that checks the flag. *)
Lemma toggle_draws_on_a_read_only_view_witness :
  update_frame_display checking_cv2 black_frame white_frame toggling
  = (Raise Cv2Error, toggling).
Proof.
  refine (proj2 (proj2 (toggle_draws_on_a_read_only_view
                          checking_cv2 toggling black_frame white_frame 32%float
                          Cv2Error _ _ _ _ _)));
    try evaluate.
  intros shape img text org scale colour thickness Hflag.
  cbn. rewrite Hflag. reflexivity.
Defined.

(** Two rows of two pixels split after the first column. *)
Lemma side_by_side_takes_columns_right_of_split_witness :
  paste_columns 2 1 (repeat x00 12) (repeat xff 12)
  = [x00; x00; x00; xff; xff; xff; x00; x00; x00; xff; xff; xff]
  /\ paste_columns 2 0 (repeat x00 12) (repeat xff 12) = repeat xff 12.
Proof.
  split; [vm_compute; reflexivity |].
  refine (proj1 (proj2 (proj2 (side_by_side_takes_columns_right_of_split
                                 2 1 (repeat x00 12) (repeat xff 12) _ _))));
    [reflexivity | lia].
Defined.

(** ** Starting, seeking and stopping *)

(** Play pressed when ffmpeg cannot be run. *)
Lemma failed_start_clears_the_playing_flag_witness :
  let st' := state_after (start_ffmpeg_processes failing_ffmpeg 0) ready in
  is_playing st' = false /\ errors_shown st' = ["FFmpeg Error"%string].
Proof.
  pose proof (failed_start_clears_the_playing_flag
                failing_ffmpeg ready 0 0%float 0%float
                ltac:(vm_compute; reflexivity) ltac:(vm_compute; reflexivity))
    as (_ & _ & Hfailed).
  destruct (Hfailed (or_introl eq_refl)) as (Hflag & Herrors & _).
  split; [exact Hflag | exact Herrors].
Defined.

(** The seek bar dragged to the middle while playing. *)
Lemma seek_while_playing_restarts_both_streams_witness :
  let st' := state_after (seek_video read_float dot_cv2 black_ffmpeg (StrValue "75.0"))
                         playing in
  current_frame_num st' = 75 /\ is_playing st' = true
  /\ video_label_image st' = video_label_image playing.
Proof.
  pose proof (seek_while_playing_restarts_both_streams
                read_float dot_cv2 black_ffmpeg playing (StrValue "75.0")
                75%float 75 2.5%float 2.5%float
                ltac:(vm_compute; reflexivity) ltac:(vm_compute; reflexivity)
                ltac:(vm_compute; reflexivity) ltac:(vm_compute; reflexivity)
                ltac:(vm_compute; reflexivity) ltac:(vm_compute; reflexivity))
    as (Hframe & _ & _ & _ & Hflag & Himage).
  split; [exact Hframe |]. split; [exact Hflag | exact Himage].
Defined.


(** The window closed during playback. *)
Lemma closing_stops_playback_witness :
  on_closing playing = (Ok tt, set_is_playing false (stopped playing))
  /\ playback_passes 0 [good_tick playing] (set_is_playing false (stopped playing))
     = (Ok Left, set_is_playing false (stopped playing)).
Proof.
  split.
  - exact (proj1 (closing_stops_playback playing)).
  - exact (proj2 (closing_stops_playback playing) 0 (good_tick playing) []).
Defined.

(** ** Stepping *)

(** Right then Left on the first frame. *)
Lemma step_forward_then_back_returns_witness :
  timeline (state_after (step_frame dot_cv2 black_ffmpeg (-1))
              (state_after (step_frame dot_cv2 black_ffmpeg 1) ready))
  = timeline ready.
Proof.
  refine (proj2 (proj2 (proj2 (step_forward_then_back_returns
                                 dot_cv2 black_ffmpeg ready) _ _ _)));
    evaluate.
Defined.

(** ** The end of playback and the loop *)

(** The stream ends three frames into a video of unknown length. *)
Lemma unknown_length_fixed_where_playback_ends_witness :
  let st1 := ended "Video stream ended" watched in
  timeline st1 = (3, Fin 3, true)
  /\ step_frame dot_cv2 black_ffmpeg 1 st1 = (Ok tt, st1)
  /\ seek_bar_to (state_after (mainloop dot_cv2 black_ffmpeg) st1) = Fin 3.
Proof.
  pose proof (unknown_length_fixed_where_playback_ends
                dot_cv2 black_ffmpeg "Video stream ended" watched
                ltac:(vm_compute; reflexivity) ltac:(vm_compute; reflexivity))
    as (_ & Htimeline & _ & _ & _ & Hstep & _ & Hto & _).
  split; [exact Htimeline |]. split; [exact Hstep | exact Hto].
Defined.

(** Pause pressed during playback. *)
Lemma pause_leaves_the_loop_silently_witness :
  playback_passes 0 [paused_tick] playing = (Ok Left, set_is_playing false playing).
Proof.
  refine (proj1 (pause_leaves_the_loop_silently playing 0 paused_tick [] _)).
  left. reflexivity.
Defined.

(** A good read, a starved pass and a good read. *)
Lemma playback_shows_the_good_reads_in_order_witness :
  let ticks := [good_tick playing; starved_tick; good_tick playing] in
  let st' := state_after (playback_passes 0 ticks) playing in
  current_frame_num st' = 2
  /\ List.length (frames_shown st') = 2%nat.
Proof.
  assert (Hstreaming : streaming playing) by evaluate.
  pose proof (playback_shows_the_good_reads_in_order
                playing 0 [good_tick playing; starved_tick; good_tick playing]
                Hstreaming ltac:(vm_compute; reflexivity)
                ltac:(repeat constructor) ltac:(evaluate)
                ltac:(vm_compute; reflexivity))
    as [Hframe Hshown].
  cbv zeta. rewrite Hframe, Hshown. split; vm_compute; reflexivity.
Defined.

(** ** Resizing and full screen *)

(** A window that leaves no height for the video. *)
Lemma handle_resize_all_or_nothing_witness :
  handle_resize (set_winfo flat_window ready)
  = (Raise ZeroDivisionError, set_winfo flat_window ready).
Proof.
  refine (proj2 (proj2 (proj2 (handle_resize_all_or_nothing
                                 (set_winfo flat_window ready))))
            _ _ _ _ (clip 16 9 "30/1" "10.0") _);
    vm_compute; reflexivity.
Defined.

(** F11 on a 200 by 100 screen. *)
Lemma full_screen_follows_the_window_witness :
  let st1 := state_after (toggle_fullscreen screen) ready in
  is_fullscreen st1 = true
  /\ Z.abs (200 - display_width st1) <= 1
  /\ Z.abs (100 - display_height st1) <= 1.
Proof.
  pose proof (full_screen_follows_the_window ready screen screen)
    as (Hflag & _ & _ & _ & Henter).
  destruct (Henter ltac:(vm_compute; reflexivity)) as [_ Hsize].
  split; [exact Hflag |].
  exact (Hsize ltac:(vm_compute; reflexivity) ltac:(vm_compute; reflexivity)).
Defined.

(** The window made twice as wide during playback. *)
Lemma resize_while_playing_restarts_at_the_new_size_witness :
  let st1 := state_after handle_resize (set_winfo wide_window playing) in
  let st2 := state_after (mainloop dot_cv2 black_ffmpeg) st1 in
  is_playing st1 = false
  /\ is_playing st2 = true
  /\ (display_width st2, display_height st2) = (64, 36)
  /\ current_frame_num st2 = current_frame_num (set_winfo wide_window playing).
Proof.
  pose proof (resize_while_playing_restarts_at_the_new_size
                dot_cv2 black_ffmpeg (set_winfo wide_window playing) (64, 36)
                0%float 0%float
                ltac:(vm_compute; reflexivity) ltac:(vm_compute; reflexivity)
                ltac:(vm_compute; reflexivity) ltac:(vm_compute; reflexivity)
                ltac:(vm_compute; reflexivity) ltac:(vm_compute; reflexivity)
                ltac:(vm_compute; reflexivity) ltac:(vm_compute; reflexivity))
    as (Hstopped & _ & _ & Hframe & Hsize & _ & Hflag & _).
  split; [exact Hstopped |]. split; [exact Hflag |].
  split; [exact Hsize | exact Hframe].
Defined.

(** ** Initialising playback *)

(** A first stream whose duration reads N/A. *)
Lemma failed_initialisation_is_reported_and_swallowed_witness :
  let st' := state_after (initialize_playback read_float dot_cv2 black_ffmpeg)
                         bad_duration in
  outcome (initialize_playback read_float dot_cv2 black_ffmpeg) bad_duration = Ok tt
  /\ errors_shown st' = ["Initialization Error"%string]
  /\ controls st' = (DISABLED, DISABLED, DISABLED, DISABLED).
Proof.
  pose proof (failed_initialisation_is_reported_and_swallowed
                read_float dot_cv2 black_ffmpeg bad_duration ValueError
                ltac:(vm_compute; reflexivity))
    as (Hok & Herrors & Hcontrols & _).
  split; [exact Hok |]. split; [exact Herrors | exact Hcontrols].
Defined.

(** The ten- and five-second pair. *)
Lemma completed_initialisation_resets_and_enables_witness :
  let st' := state_after (initialize_playback read_float dot_cv2 black_ffmpeg) pair in
  current_frame_num st' = 0
  /\ controls st' = (NORMAL, NORMAL, NORMAL, NORMAL)
  /\ seek_bar_state st' = (if duration_known st' then NORMAL else DISABLED).
Proof.
  pose proof (completed_initialisation_resets_and_enables
                read_float dot_cv2 black_ffmpeg pair ltac:(vm_compute; reflexivity))
    as (_ & Hframe & _ & _ & Hcontrols & Hbar & _).
  split; [exact Hframe |]. split; [exact Hcontrols | exact Hbar].
Defined.

(** A first stream that reports the rate 0/1. *)
Lemma zero_frame_rate_escapes_initialisation_witness :
  let st' := state_after (initialize_playback read_float dot_cv2 black_ffmpeg)
                         zero_rate in
  outcome (initialize_playback read_float dot_cv2 black_ffmpeg) zero_rate
  = Raise ZeroDivisionError
  /\ duration_known st' = false
  /\ controls st' = (NORMAL, NORMAL, NORMAL, NORMAL).
Proof.
  pose proof (zero_frame_rate_escapes_initialisation
                read_float dot_cv2 black_ffmpeg zero_rate 0%float 30%float
                ltac:(vm_compute; reflexivity) ltac:(vm_compute; reflexivity)
                ltac:(vm_compute; reflexivity) ltac:(vm_compute; reflexivity)
                ltac:(left; vm_compute; reflexivity) ltac:(vm_compute; reflexivity))
    as (_ & Hknown & Hcontrols & _).
  split; [vm_compute; reflexivity |]. split; [exact Hknown | exact Hcontrols].
Defined.

(** ** The offset buttons and the ends of the seek bar *)

(** Plus two, then plus three. *)
Lemma offset_adjustments_add_up_witness :
  let st1 := state_after (_adjust_offset dot_cv2 black_ffmpeg 2) ready in
  let st2 := state_after (_adjust_offset dot_cv2 black_ffmpeg 3) st1 in
  video2_offset st2 = video2_offset ready + (2 + 3)
  /\ video2_offset (state_after (_validate_offset_input read_int dot_cv2 black_ffmpeg) st1)
     = video2_offset st1.
Proof.
  pose proof (proj2 (offset_adjustments_add_up read_int dot_cv2 black_ffmpeg ready 2 3)
                ltac:(vm_compute; reflexivity))
    as (_ & _ & Hsum & _ & _ & Hread).
  split; [exact Hsum |].
  apply Hread. vm_compute. reflexivity.
Defined.

(** End pressed on the 150-frame pair. *)
Lemma seek_to_the_ends_witness :
  timeline (state_after (seek_to_end read_float dot_cv2 black_ffmpeg) ready)
  = (149, Fin 150, duration_known ready)
  /\ timeline (state_after (seek_to_start read_float dot_cv2 black_ffmpeg) ready)
     = (0, total_frames ready, duration_known ready).
Proof.
  pose proof (proj2 (seek_to_the_ends read_float dot_cv2 black_ffmpeg ready)
                ltac:(vm_compute; reflexivity)) as [Hstart Hend].
  split; [| exact Hstart].
  exact (Hend 150 149%float ltac:(vm_compute; reflexivity)
              ltac:(vm_compute; reflexivity) ltac:(vm_compute; reflexivity)).
Defined.

(** ** Loading a file *)

(** A sound file chosen as the first video. *)
Lemma failed_load_changes_only_the_messages_witness :
  sources (state_after (load_video read_float dot_cv2 black_ffmpeg probe_clips 1
                                   "C:/clips/song.mp3") started_up)
  = sources started_up.
Proof.
  refine (proj1 (failed_load_changes_only_the_messages
                   read_float dot_cv2 black_ffmpeg probe_clips started_up 1
                   "C:/clips/song.mp3" _)
            _ sources (fun _ _ => eq_refl) (fun _ _ => eq_refl)).
  right. right. exists [audio]. split; [reflexivity | left; reflexivity].
Defined.

(** The clip chosen as the first video. *)
Lemma load_stores_the_first_video_stream_witness :
  let st' := one_loaded in
  sources st' = ((Some "C:/clips/a.mp4"%string, info_of video 16 9, "a.mp4"%string),
                 snd (sources started_up))
  /\ controls st' = controls started_up.
Proof.
  pose proof (load_stores_the_first_video_stream
                read_float dot_cv2 black_ffmpeg probe_clips started_up 1
                "C"%char ":/clips/a.mp4" [audio; video] video 16 9 "00:00 / 00:00"
                ltac:(reflexivity) ltac:(reflexivity) ltac:(reflexivity)
                ltac:(reflexivity) ltac:(vm_compute; reflexivity))
    as (Hsources & _ & _ & Halone).
  split; [exact Hsources |].
  exact (proj1 (proj2 (Halone ltac:(reflexivity)))).
Defined.

(** The clip chosen again as the second video. *)
Lemma load_with_both_sources_initialises_playback_witness :
  let st' := state_after (load_video read_float dot_cv2 black_ffmpeg probe_clips 2
                                     "C:/clips/a.mp4") one_loaded in
  current_frame_num st' = 0 /\ video2_offset st' = 0
  /\ controls st' = (NORMAL, NORMAL, NORMAL, NORMAL).
Proof.
  pose proof (load_with_both_sources_initialises_playback
                read_float dot_cv2 black_ffmpeg probe_clips one_loaded 2
                "C"%char ":/clips/a.mp4" [audio; video] video 16 9 "00:00 / 00:00"
                ltac:(reflexivity) ltac:(reflexivity) ltac:(reflexivity)
                ltac:(reflexivity) ltac:(vm_compute; reflexivity)
                ltac:(vm_compute; reflexivity))
    as [_ Hready].
  exact (Hready ltac:(vm_compute; reflexivity)).
Defined.
